(** * Colossus Blender MCP (VIGA): the control loop, its memory and its parsers

  A shallow embedding of the Python sources

    - [docs/archive/memory.py]                      (VIGAMemory, IterationContext)
    - [src/archive/colossus_blender/vision_utils.py] (extract_code_from_response,
                                                      extract_json_from_content)
    - [src/archive/colossus_blender/viga/modern_models.py] (Qwen3VL.generate_text)
    - [src/colossus_blender/viga/agent.py]          (VIGAAgent.run_loop)
    - [src/colossus_blender/orchestrator.py]        (EvaluatorAgent.evaluate)

  Python [int] is [Z], [str] is [string] (a sequence of code points, each
  below 256), [Optional[T]] is [option T], a raised exception is the left
  summand of a result, and calls to the outside world (model provider,
  Blender host) thread an explicit world together with a log of the calls
  made. *)

From Stdlib Require Import ZArith List Bool Lia String Ascii QArith.
From Stdlib Require Import DecimalString.
Import ListNotations.

Local Close Scope Q_scope.
Local Open Scope nat_scope.
Local Open Scope list_scope.
Local Open Scope string_scope.

Set Warnings "-register-all".

(* ================================================================== *)
(** * Exceptions and results                                           *)
(* ================================================================== *)

(** The exceptions that the embedded code can raise or let through. *)
Inductive PyExn : Type :=
| IndexError
| KeyError (key_repr : string)
| JSONDecodeError
| TypeError (msg : string)
| AttributeError (msg : string)
| RuntimeError (msg : string)
| ExternalError (msg : string).

(** [str(e)] *)
Definition exn_text (e : PyExn) : string :=
  match e with
  | IndexError => "list index out of range"
  | KeyError key_repr => key_repr
  | JSONDecodeError => "Expecting value"
  | TypeError msg => msg
  | AttributeError msg => msg
  | RuntimeError msg => msg
  | ExternalError msg => msg
  end.

(** A call either returns a value or raises. *)
Inductive result (A : Type) : Type :=
| Ok (a : A)
| Raise (e : PyExn).
Arguments Ok {A} a.
Arguments Raise {A} e.

Definition bind {A B : Type} (r : result A) (k : A -> result B) : result B :=
  match r with
  | Ok a => k a
  | Raise e => Raise e
  end.

(** [l[i]] for a non-negative index. *)
Definition list_index {A : Type} (l : list A) (i : nat) : result A :=
  match nth_error l i with
  | Some x => Ok x
  | None => Raise IndexError
  end.

(* ================================================================== *)
(** * Python [str] operations                                          *)
(* ================================================================== *)

Module PyStr.

(** ** Structural helpers on [string] *)

Fixpoint take (n : nat) (s : string) : string :=
  match n, s with
  | S n', String c s' => String c (take n' s')
  | _, _ => EmptyString
  end.

Fixpoint drop (n : nat) (s : string) : string :=
  match n, s with
  | S n', String _ s' => drop n' s'
  | _, _ => s
  end.

(** [startswith p s] is [s.startswith(p)]. *)
Fixpoint startswith (p s : string) : bool :=
  match p, s with
  | EmptyString, _ => true
  | String a p', String b s' => Ascii.eqb a b && startswith p' s'
  | String _ _, EmptyString => false
  end.

(** Lowest index at which [sub] occurs in [s]. *)
Fixpoint find_first (sub s : string) : option nat :=
  if startswith sub s then Some 0%nat
  else match s with
       | EmptyString => None
       | String _ s' => option_map S (find_first sub s')
       end.

(** Highest index at which [sub] occurs in [s]. *)
Fixpoint find_last (sub s : string) : option nat :=
  match s with
  | EmptyString => if startswith sub s then Some 0%nat else None
  | String _ s' =>
      match find_last sub s' with
      | Some i => Some (S i)
      | None => if startswith sub s then Some 0%nat else None
      end
  end.

(** ** The Python surface: [len], [in], [find], [rfind], slicing *)

Definition len (s : string) : Z := Z.of_nat (String.length s).

(** [sub in s] *)
Definition contains (sub s : string) : bool :=
  match find_first sub s with Some _ => true | None => false end.

(** [s.find(sub)] *)
Definition find (sub s : string) : Z :=
  match find_first sub s with
  | Some i => Z.of_nat i
  | None => (-1)%Z
  end.

(** Python's normalisation of a slice or search bound: a negative index
    counts from the end, and the result is clamped to [0 .. len]. *)
Definition clamp (n i : Z) : Z :=
  if (i <? 0)%Z then Z.max 0 (i + n) else Z.min i n.

(** [s.find(sub, start)] *)
Definition find_from (sub s : string) (start : Z) : Z :=
  let n := len s in
  let st := if (start <? 0)%Z then Z.max 0 (start + n) else start in
  if (st >? n)%Z then (-1)%Z
  else match find_first sub (drop (Z.to_nat st) s) with
       | Some i => (st + Z.of_nat i)%Z
       | None => (-1)%Z
       end.

(** [s.rfind(sub)] *)
Definition rfind (sub s : string) : Z :=
  match find_last sub s with
  | Some i => Z.of_nat i
  | None => (-1)%Z
  end.

(** [s[a:b]] *)
Definition slice (s : string) (a b : Z) : string :=
  let n := len s in
  let lo := clamp n a in
  let hi := clamp n b in
  take (Z.to_nat (hi - lo)) (drop (Z.to_nat lo) s).

(** ** [strip]

    [str.isspace] on the code points below 256: TAB, LF, VT, FF, CR,
    FS, GS, RS, US, SPACE, NEL (0x85) and NBSP (0xA0). *)
Definition isspace (c : ascii) : bool :=
  let n := nat_of_ascii c in
  ((9 <=? n) && (n <=? 13) || (28 <=? n) && (n <=? 32)
   || (n =? 133) || (n =? 160))%nat.

Fixpoint lstrip (s : string) : string :=
  match s with
  | EmptyString => EmptyString
  | String c s' => if isspace c then lstrip s' else s
  end.

Fixpoint rstrip (s : string) : string :=
  match s with
  | EmptyString => EmptyString
  | String c s' =>
      match rstrip s' with
      | EmptyString => if isspace c then EmptyString else String c EmptyString
      | r => String c r
      end
  end.

(** [s.strip()] *)
Definition strip (s : string) : string := rstrip (lstrip s).

(** ** [split]

    [s.split(sep)] for a non-empty separator: occurrences are taken left
    to right and do not overlap.  The recursion is on a fuel that the
    wrapper sets above the length of the string. *)
Fixpoint split_fuel (fuel : nat) (sep s : string) : list string :=
  match fuel with
  | O => [s]
  | S fuel' =>
      match find_first sep s with
      | None => [s]
      | Some i => take i s :: split_fuel fuel' sep (drop (i + String.length sep) s)
      end
  end.

Definition split (sep s : string) : list string :=
  split_fuel (S (String.length s)) sep s.

(** ** Vocabulary for stating where a substring occurs *)

(** [sub] occurs in [s] at index [i]. *)
Definition occurs_at (sub s : string) (i : nat) : Prop :=
  (i <= String.length s)%nat /\ startswith sub (drop i s) = true.

(** The lowest occurrence of [sub] in [s] is at index [i]. *)
Definition first_at (sub s : string) (i : nat) : Prop :=
  occurs_at sub s i /\ forall j, (j < i)%nat -> ~ occurs_at sub s j.

(** The highest occurrence of [sub] in [s] is at index [i]. *)
Definition last_at (sub s : string) (i : nat) : Prop :=
  occurs_at sub s i /\ forall j, (i < j)%nat -> ~ occurs_at sub s j.

(** [sub] occurs nowhere in [s]. *)
Definition absent (sub s : string) : Prop := forall j, ~ occurs_at sub s j.

(** [y] is [x] cut just before the first [sep], or [x] itself when [x] has
    no [sep]. *)
Definition cut_at (sep x y : string) : Prop :=
  (exists k, first_at sep x k /\ y = take k x) \/ (absent sep x /\ y = x).

(** The first piece of [x.split(sep)]. *)
Definition before_first (sep x : string) : string :=
  match find_first sep x with
  | Some k => take k x
  | None => x
  end.

(** A marker with no blank at either end survives [strip]. *)
Definition starts_nonspace (x : string) : Prop :=
  match x with
  | EmptyString => False
  | String c _ => isspace c = false
  end.

Definition ends_nonspace (x : string) : Prop :=
  exists y c, x = y ++ String c "" /\ isspace c = false.

End PyStr.

(* ================================================================== *)
(** * vision_utils.py: the response parser                             *)
(* ================================================================== *)

Module VisionUtils.
Import PyStr.

Definition fence : string := "```".
Definition python_tag : string := "```python".
Definition json_tag : string := "```json".

(** [extract_code_from_response].  The Python function has two guarded
    returns and a final [return response.strip()] that every other path
    falls through to. *)
Definition extract_code_from_response (response : string) : string :=
  if contains python_tag response then
    let start := (find python_tag response + len python_tag)%Z in
    let end_ := find_from fence response start in
    if (end_ >? start)%Z then strip (slice response start end_)
    else strip response
  else if contains fence response then
    let start := (find fence response + 3)%Z in
    let end_ := find_from fence response start in
    if (end_ >? start)%Z then strip (slice response start end_)
    else strip response
  else strip response.

(** [extract_json_from_content].  [json.loads] is the standard library's
    parser; it is taken as a parameter, [None] standing for its
    [JSONDecodeError]. *)
Section ExtractJson.
Variable JSON : Type.
Variable json_loads : string -> option JSON.

(** The local variable [json_content]: the candidate handed to the parser. *)
Definition json_content (content : string) : result string :=
  if contains json_tag content then
    bind (list_index (split json_tag content) 1) (fun after_tag =>
    bind (list_index (split fence after_tag) 0) (fun block =>
    Ok (strip block)))
  else if contains "{" content && contains "}" content then
    let start := find "{" content in
    let end_ := (rfind "}" content + 1)%Z in
    Ok (slice content start end_)
  else Ok (strip content).

Definition extract_json_from_content (content : string) : result JSON :=
  bind (json_content content) (fun candidate =>
  match json_loads candidate with
  | Some v => Ok v
  | None => Raise JSONDecodeError
  end).

End ExtractJson.

(** Inputs used as worked examples. *)
Definition nl : string := String (ascii_of_nat 10) EmptyString.

Definition two_python_blocks : string :=
  "```python" ++ nl ++ "X" ++ nl ++ "```" ++ nl ++ "more" ++ nl
  ++ "```python" ++ nl ++ "Y" ++ nl ++ "```".

Definition empty_python_block : string := "```python```".

Definition dq : string := String (ascii_of_nat 34) EmptyString.

(** [prefix {"a":1} {"b":2} suffix] *)
Definition two_json_objects : string :=
  "prefix {" ++ dq ++ "a" ++ dq ++ ":1} {" ++ dq ++ "b" ++ dq ++ ":2} suffix".

(** [{"a":1} {"b":2}] *)
Definition two_json_objects_span : string :=
  "{" ++ dq ++ "a" ++ dq ++ ":1} {" ++ dq ++ "b" ++ dq ++ ":2}".

(** A closed [```json] block holding [1], whose closing fence is followed
    by a backtick and the word json. *)
Definition json_block_then_backtick_tag : string := "```json1````json".

(** A parser double that accepts only the text [1]. *)
Definition loads_only_one (s : string) : option Z :=
  if String.eqb s "1" then Some 1%Z else None.

Definition unclosed_python_block : string :=
  "  ```python" ++ nl ++ "import bpy" ++ nl.

(** A closed [```python] block followed by a tag that is never closed. *)
Definition closed_then_unclosed_block : string :=
  "```python" ++ nl ++ "X" ++ nl ++ "```" ++ nl ++ "```python" ++ nl ++ "Y".

End VisionUtils.

(* ================================================================== *)
(** * memory.py: the evolving context memory                           *)
(* ================================================================== *)

Module Memory.

(** [l[a:]] on a Python list, with the same index normalisation as for
    strings: [-0] is [0], so [l[-0:]] is the whole list. *)
Definition list_slice_from {A : Type} (l : list A) (a : Z) : list A :=
  skipn (Z.to_nat (PyStr.clamp (Z.of_nat (List.length l)) a)) l.

(** The dataclass [IterationContext]. *)
Record IterationContext : Type := {
  iteration_id : Z;
  plan : option string;
  code : option string;
  code_diff : option string;
  execution_result : option string;
  visual_feedback : option string;
  rendered_image_path : option string
}.

(** [IterationContext(iteration_id=.., plan=.., code=..)]: the other fields
    take their default [None]. *)
Definition new_context (iteration_id : Z) (plan code : option string)
  : IterationContext :=
  {| iteration_id := iteration_id; plan := plan; code := code;
     code_diff := None; execution_result := None; visual_feedback := None;
     rendered_image_path := None |}.

(** [ctx.execution_result = v] *)
Definition set_execution_result (ctx : IterationContext) (v : option string)
  : IterationContext :=
  {| iteration_id := iteration_id ctx; plan := plan ctx; code := code ctx;
     code_diff := code_diff ctx; execution_result := v;
     visual_feedback := visual_feedback ctx;
     rendered_image_path := rendered_image_path ctx |}.

(** [ctx.visual_feedback = v] *)
Definition set_visual_feedback (ctx : IterationContext) (v : option string)
  : IterationContext :=
  {| iteration_id := iteration_id ctx; plan := plan ctx; code := code ctx;
     code_diff := code_diff ctx; execution_result := execution_result ctx;
     visual_feedback := v;
     rendered_image_path := rendered_image_path ctx |}.

(** The class [VIGAMemory]; [static_context] is a [dict] from names to
    texts, kept as an association list. *)
Record VIGAMemory : Type := {
  history : list IterationContext;
  window_size : Z;
  static_context : list (string * string)
}.

(** [d[k] = v] on the association list of a [dict]. *)
Fixpoint assoc_set (d : list (string * string)) (k v : string)
  : list (string * string) :=
  match d with
  | [] => [(k, v)]
  | (k', v') :: d' =>
      if String.eqb k' k then (k, v) :: d' else (k', v') :: assoc_set d' k v
  end.

(** [VIGAMemory(window_size)] *)
Definition VIGAMemory_init (window_size : Z) : VIGAMemory :=
  {| history := []; window_size := window_size; static_context := [] |}.

(** A method call on a memory returns a value, or raises, and leaves the
    memory in a possibly changed state. *)
Definition method (A : Type) : Type := VIGAMemory -> result A * VIGAMemory.

(** [add_iteration]: [self.history.append(context)], nothing else. *)
Definition add_iteration (context : IterationContext) : method unit :=
  fun self =>
    (Ok tt,
     {| history := (history self ++ [context])%list;
        window_size := window_size self;
        static_context := static_context self |}).

(** [get_context_window]: [self.history[-self.window_size:]]. *)
Definition get_context_window : method (list IterationContext) :=
  fun self =>
    (Ok (list_slice_from (history self) (- window_size self)), self).

(** Truth value of an [Optional[str]]: [None] and the empty text are
    false. *)
Definition truthy_text (o : option string) : bool :=
  match o with
  | Some (String _ _) => true
  | _ => false
  end.

(** The [for] loop of [get_latest_code] over the reversed history. *)
Fixpoint first_code (l : list IterationContext) : string :=
  match l with
  | [] => EmptyString
  | ctx :: l' =>
      if truthy_text (code ctx)
      then match code ctx with Some c => c | None => EmptyString end
      else first_code l'
  end.

(** [get_latest_code] *)
Definition get_latest_code : method string :=
  fun self => (Ok (first_code (rev (history self))), self).

(** ** Building a memory by successive appends *)

Definition append_all (self : VIGAMemory) (records : list IterationContext)
  : VIGAMemory :=
  fold_left (fun m ctx => snd (add_iteration ctx m)) records self.

(** Records numbered from [first], carrying the given code artifacts. *)
Fixpoint records_with_codes (first : Z) (codes : list (option string))
  : list IterationContext :=
  match codes with
  | [] => []
  | c :: codes' =>
      new_context first None c :: records_with_codes (first + 1) codes'
  end.

(** The record carries no code artifact: [None] or the empty text. *)
Definition no_code (ctx : IterationContext) : Prop :=
  code ctx = None \/ code ctx = Some EmptyString.

End Memory.

(* ================================================================== *)
(** * Python values returned by the host, and their [str]              *)
(* ================================================================== *)

Module PyVal.
Import PyStr.

(** The JSON-shaped values of a host reply.  A float is kept as the text
    Python prints for it. *)
Inductive value : Type :=
| VNone
| VBool (b : bool)
| VInt (z : Z)
| VFloat (shown : string)
| VStr (s : string)
| VList (items : list value)
| VDict (entries : list (string * value)).

Definition dict : Type := list (string * value).

Fixpoint dict_lookup (d : dict) (key : string) : option value :=
  match d with
  | [] => None
  | (k, v) :: d' => if String.eqb k key then Some v else dict_lookup d' key
  end.

(** [d.get(key)], whose default is [None]. *)
Definition dict_get (d : dict) (key : string) : value :=
  match dict_lookup d key with
  | Some v => v
  | None => VNone
  end.

(** [str(z)] for an integer. *)
Definition str_of_Z (z : Z) : string := NilZero.string_of_int (Z.to_int z).

Definition hex_digit (n : nat) : ascii :=
  match n with
  | 0 => "0" | 1 => "1" | 2 => "2" | 3 => "3" | 4 => "4" | 5 => "5"
  | 6 => "6" | 7 => "7" | 8 => "8" | 9 => "9" | 10 => "a" | 11 => "b"
  | 12 => "c" | 13 => "d" | 14 => "e" | _ => "f"
  end%char.

(** [str.isprintable] on the code points below 256. *)
Definition printable (n : nat) : bool :=
  ((32 <=? n) && (n <? 127) || (161 <=? n) && negb (n =? 173))%nat.

Definition single_quote : ascii := ascii_of_nat 39.
Definition double_quote : ascii := ascii_of_nat 34.
Definition backslash : ascii := ascii_of_nat 92.

(** One character of [repr(s)], inside the chosen quote. *)
Definition repr_char (quote c : ascii) : string :=
  let n := nat_of_ascii c in
  if Ascii.eqb c quote || Ascii.eqb c backslash
  then String backslash (String c EmptyString)
  else if (n =? 9)%nat then String backslash "t"
  else if (n =? 10)%nat then String backslash "n"
  else if (n =? 13)%nat then String backslash "r"
  else if printable n then String c EmptyString
  else String backslash
         (String "x" (String (hex_digit (n / 16))
                        (String (hex_digit (n mod 16)) EmptyString))).

Fixpoint concat_map (f : ascii -> string) (s : string) : string :=
  match s with
  | EmptyString => EmptyString
  | String c s' => f c ++ concat_map f s'
  end.

(** [repr(s)] for a text: single quotes, unless the text has a single
    quote and no double quote. *)
Definition repr_str (s : string) : string :=
  let quote :=
    if contains (String single_quote EmptyString) s
       && negb (contains (String double_quote EmptyString) s)
    then double_quote else single_quote in
  String quote (concat_map (repr_char quote) s ++ String quote EmptyString).

(** [sep.join(l)] *)
Fixpoint join (sep : string) (l : list string) : string :=
  match l with
  | [] => EmptyString
  | [x] => x
  | x :: l' => x ++ sep ++ join sep l'
  end.

(** [repr(v)] *)
Fixpoint repr (v : value) : string :=
  match v with
  | VNone => "None"
  | VBool true => "True"
  | VBool false => "False"
  | VInt z => str_of_Z z
  | VFloat shown => shown
  | VStr s => repr_str s
  | VList items => "[" ++ join ", " (map repr items) ++ "]"
  | VDict entries =>
      "{" ++ join ", "
               (map (fun kv => match kv with
                               | (k, v) => repr_str k ++ ": " ++ repr v
                               end) entries)
      ++ "}"
  end.

(** [str(v)]: a text is itself, anything else prints as its [repr]. *)
Definition str (v : value) : string :=
  match v with
  | VStr s => s
  | _ => repr v
  end.

End PyVal.

(* ================================================================== *)
(** * agent.py: the VIGA loop                                          *)
(* ================================================================== *)

Module Agent.
Import PyStr Memory PyVal.

(** The convergence sentinel looked for in the feedback text. *)
Definition sentinel : string := "OBJECTIVE COMPLETE".

(** [str(x)] for an [Optional[str]]. *)
Definition str_optional (o : option string) : string :=
  match o with
  | Some s => s
  | None => "None"
  end.

(** The check at the end of an iteration:
    ["OBJECTIVE COMPLETE" in str(ctx.visual_feedback)]. *)
Definition carries_sentinel (ctx : IterationContext) : bool :=
  contains sentinel (str_optional (visual_feedback ctx)).

(** [exec_result.get("status") == "error"] *)
Definition status_is_error (exec_result : dict) : bool :=
  match dict_get exec_result "status" with
  | VStr s => String.eqb s "error"
  | _ => false
  end.

(** The text recorded as feedback when the host reports an error. *)
Definition execution_error_text (exec_result : dict) : string :=
  "Execution Error: " ++ str (dict_get exec_result "errors").

(** The record of an iteration whose execution failed: a non-empty
    execution result, and as feedback the error text built from a host
    reply with status [error]. *)
Definition recorded_failure (ctx : IterationContext) : Prop :=
  (exists text, execution_result ctx = Some text /\ text <> EmptyString)
  /\ (exists reply, status_is_error reply = true
                    /\ visual_feedback ctx = Some (execution_error_text reply)).

(** The calls that the loop makes to its collaborators, in order. *)
Inductive Call : Type :=
| CallGenerator (iteration : Z)
| CallHost (code : option string)
| CallVerifier (iteration_id : Z).

Definition is_verifier_call (c : Call) : bool :=
  match c with
  | CallVerifier _ => true
  | _ => false
  end.

(** [range(n)] *)
Definition range (n : Z) : list Z := map Z.of_nat (seq 0 (Z.to_nat n)).

Section RunLoop.

(** The state of everything outside the program. *)
Variable World : Type.

(** A call to a collaborator returns or raises, and changes the world. *)
Definition external (A : Type) : Type := World -> result A * World.

(** The three collaborators of the loop.  Each is taken as it is seen from
    [run_loop]: an awaited call that talks to the model provider or to the
    host.  The generator reads the memory and builds a fresh record; the
    verifier reads the record; neither changes what it is given. *)

(** [self.generator.generate_step(task, memory, t)] *)
Variable generate_step : string -> VIGAMemory -> Z -> external IterationContext.
(** [self.skills.execute_code(code)], which forwards to the host *)
Variable execute_code : option string -> external dict.
(** [self.verifier.verify_step(task, ctx)] *)
Variable verify_step : string -> IterationContext -> external string.

(** What a run works on: the agent's memory, the world, and the log of
    the calls made so far. *)
Record AgentState : Type := {
  memory : VIGAMemory;
  world : World;
  calls : list Call
}.

Definition M (A : Type) : Type := AgentState -> result A * AgentState.

Definition ret {A : Type} (a : A) : M A := fun st => (Ok a, st).

Definition mbind {A B : Type} (m : M A) (k : A -> M B) : M B :=
  fun st =>
    match m st with
    | (Ok a, st') => k a st'
    | (Raise e, st') => (Raise e, st')
    end.

(** An awaited call to a collaborator, entered in the log. *)
Definition call {A : Type} (c : Call) (f : external A) : M A :=
  fun st =>
    let (r, w) := f (world st) in
    (r, {| memory := memory st; world := w;
           calls := (calls st ++ [c])%list |}).

(** A method call on [self.memory]. *)
Definition on_memory {A : Type} (f : method A) : M A :=
  fun st =>
    let (r, m) := f (memory st) in
    (r, {| memory := m; world := world st; calls := calls st |}).

Definition get_memory : M VIGAMemory := fun st => (Ok (memory st), st).

(** [self.memory.static_context["task"] = task_instruction] *)
Definition set_task (task_instruction : string) : method unit :=
  fun self =>
    (Ok tt,
     {| history := history self; window_size := window_size self;
        static_context := assoc_set (static_context self) "task"
                            task_instruction |}).

(** The body of the [for] loop; the result tells whether the loop breaks.
    The [print] calls are left out. *)
Definition iteration (task_instruction : string) (t : Z) : M bool :=
  mbind get_memory (fun mem =>
  mbind (call (CallGenerator t) (generate_step task_instruction mem t))
    (fun ctx =>
  mbind (call (CallHost (code ctx)) (execute_code (code ctx)))
    (fun exec_result =>
  let ctx := set_execution_result ctx (Some (repr (VDict exec_result))) in
  mbind
    (if status_is_error exec_result
     then ret (set_visual_feedback ctx
                 (Some (execution_error_text exec_result)))
     else
       mbind (call (CallVerifier (iteration_id ctx))
                (verify_step task_instruction ctx))
         (fun feedback => ret (set_visual_feedback ctx (Some feedback))))
    (fun ctx =>
  mbind (on_memory (add_iteration ctx)) (fun _ =>
  ret (carries_sentinel ctx)))))).

(** [for t in range(..): body; if ..: break] *)
Fixpoint for_each (ts : list Z) (body : Z -> M bool) : M unit :=
  match ts with
  | [] => ret tt
  | t :: ts' =>
      mbind (body t) (fun stop => if stop then ret tt else for_each ts' body)
  end.

(** [VIGAAgent.run_loop] *)
Definition run_loop (task_instruction : string) (max_iterations : Z)
  : M VIGAMemory :=
  mbind (on_memory (set_task task_instruction)) (fun _ =>
  mbind (for_each (range max_iterations) (iteration task_instruction))
    (fun _ =>
  get_memory)).

End RunLoop.

Arguments memory {World} _.
Arguments world {World} _.
Arguments calls {World} _.

(** ** Test doubles, in a world with nothing in it *)

(** A generator that always yields a plan and code for iteration [t]. *)
Definition generator_double
  : string -> VIGAMemory -> Z -> external unit IterationContext :=
  fun _ _ t w => (Ok (new_context t (Some "plan") (Some "import bpy")), w).

(** A host that always succeeds. *)
Definition host_success : option string -> external unit dict :=
  fun _ w =>
    (Ok [("status", VStr "success"); ("output", VStr "Code executed")], w).

(** A host that always fails with the given error texts. *)
Definition host_failure (errors : list string)
  : option string -> external unit dict :=
  fun _ w =>
    (Ok [("status", VStr "error"); ("output", VStr EmptyString);
         ("errors", VList (map VStr errors)); ("result", VNone)], w).

(** A verifier whose feedback carries the sentinel on iteration [n] only. *)
Definition verifier_sentinel_at (n : Z)
  : string -> IterationContext -> external unit string :=
  fun _ ctx w =>
    (Ok (if (iteration_id ctx =? n)%Z
         then "All objects match. OBJECTIVE COMPLETE"
         else "Move the cube up."), w).

Definition empty_state (window : Z) : AgentState unit :=
  {| memory := VIGAMemory_init window; world := tt; calls := [] |}.

End Agent.

(* ================================================================== *)
(** * modern_models.py: the model gateway                              *)
(* ================================================================== *)

Module ModernModels.
Import PyVal.

(** One part of a multimodal user message. *)
Inductive ContentPart : Type :=
| TextPart (text : string)
| ImageUrlPart (url : string).

(** The [content] of a chat message: a plain text or a list of parts. *)
Inductive MessageContent : Type :=
| Text (s : string)
| Parts (parts : list ContentPart).

Record Message : Type := {
  role : string;
  content : MessageContent
}.

Definition is_image_part (p : ContentPart) : bool :=
  match p with
  | ImageUrlPart _ => true
  | TextPart _ => false
  end.

(** The message carries no image. *)
Definition text_only (m : Message) : bool :=
  match content m with
  | Text _ => true
  | Parts parts => negb (existsb is_image_part parts)
  end.

Section Qwen3VL.

(** Python floats (temperature, timeout) are carried around, never
    computed with. *)
Variable PyFloat : Type.
Variable World : Type.

(** The JSON body of a request. *)
Record Payload : Type := {
  payload_model : string;
  payload_messages : list Message;
  payload_temperature : PyFloat;
  payload_max_tokens : Z
}.

(** What the code reads from a response: its status, its body text, and
    the outcome of [(await resp.json())["choices"][0]["message"]["content"]]. *)
Record Response : Type := {
  status : Z;
  body_text : string;
  message_content : result string
}.

(** The attributes of a [Qwen3VL] object. *)
Record Qwen3VL : Type := {
  model_name : string;
  endpoint : string;
  timeout_s : PyFloat;
  temperature : PyFloat;
  max_tokens : Z;
  served_model : string
}.

(** [session.post(url, json=payload)]: answers, or raises a transport
    error, and changes the world. *)
Variable session_post : string -> Payload -> World -> result Response * World.

(** The world together with the log of the requests posted. *)
Record Net : Type := {
  world : World;
  posts : list (string * Payload)
}.

Definition M (A : Type) : Type := Net -> result A * Net.

Definition mbind {A B : Type} (m : M A) (k : A -> M B) : M B :=
  fun st =>
    match m st with
    | (Ok a, st') => k a st'
    | (Raise e, st') => (Raise e, st')
    end.

Definition lift {A : Type} (r : result A) : M A := fun st => (r, st).

Definition post (url : string) (payload : Payload) : M Response :=
  fun st =>
    let (r, w) := session_post url payload (world st) in
    (r, {| world := w; posts := (posts st ++ [(url, payload)])%list |}).

(** The image parts appended in the [for] loop: empty entries are
    skipped. *)
Fixpoint image_parts (images : list string) : list ContentPart :=
  match images with
  | [] => []
  | img_b64 :: rest =>
      match img_b64 with
      | EmptyString => image_parts rest
      | _ => ImageUrlPart ("data:image/png;base64," ++ img_b64)
             :: image_parts rest
      end
  end.

Definition system_message (system_prompt : string) : Message :=
  {| role := "system"; content := Text system_prompt |}.

(** [messages] as built before the first request. *)
Definition request_messages (system_prompt user_prompt : string)
  (images : list string) : list Message :=
  match images with
  | [] => [system_message system_prompt;
           {| role := "user"; content := Text user_prompt |}]
  | _ => [system_message system_prompt;
          {| role := "user";
             content := Parts (TextPart user_prompt :: image_parts images) |}]
  end.

(** [payload["messages"]] as reassigned before the retry. *)
Definition text_only_messages (system_prompt user_prompt : string)
  : list Message :=
  [system_message system_prompt;
   {| role := "user"; content := Text user_prompt |}].

Definition request_payload (self : Qwen3VL) (messages : list Message)
  : Payload :=
  {| payload_model := served_model self;
     payload_messages := messages;
     payload_temperature := temperature self;
     payload_max_tokens := max_tokens self |}.

Definition request_url (self : Qwen3VL) : string :=
  endpoint self ++ "/chat/completions".

(** The [RuntimeError] raised on a status other than 200. *)
Definition request_failed (resp : Response) : PyExn :=
  RuntimeError ("Qwen3-VL request failed (" ++ str_of_Z (status resp)
                ++ "): " ++ body_text resp).

(** The tail shared by both requests: raise unless the status is 200,
    else return the message content. *)
Definition read_response (resp : Response) : result string :=
  if negb (status resp =? 200)%Z then Raise (request_failed resp)
  else message_content resp.

(** [Qwen3VL.generate_text] *)
Definition generate_text (self : Qwen3VL) (system_prompt user_prompt : string)
  (images : list string) : M string :=
  let payload :=
    request_payload self (request_messages system_prompt user_prompt images) in
  let url := request_url self in
  mbind (post url payload) (fun resp =>
  if (status resp =? 400)%Z && negb (Nat.eqb (List.length images) 0)
  then
    let payload :=
      request_payload self (text_only_messages system_prompt user_prompt) in
    mbind (post url payload) (fun resp2 => lift (read_response resp2))
  else lift (read_response resp)).

End Qwen3VL.

Arguments world {PyFloat World} _.
Arguments posts {PyFloat World} _.

(** ** Test doubles: a server that rejects image input *)

Definition qwen_double : Qwen3VL Q :=
  {| model_name := "Qwen/Qwen3-VL-30B-Instruct";
     endpoint := "http://localhost:8000/v1";
     timeout_s := (300 # 1)%Q;
     temperature := (3 # 10)%Q;
     max_tokens := 2048;
     served_model := "Qwen/Qwen3-VL-30B-Instruct" |}.

(** Answers 400 to a request that carries an image and 200 to a text-only
    one; the world counts the requests served. *)
Definition server_rejecting_images
  : string -> Payload Q -> nat -> result Response * nat :=
  fun _ payload served =>
    (Ok (if forallb text_only (payload_messages Q payload)
         then {| status := 200; body_text := EmptyString;
                 message_content := Ok "The cube sits too low." |}
         else {| status := 400;
                 body_text := "image input is not supported";
                 message_content := Raise (ExternalError "no choices") |}),
     S served).

Definition fresh_net : Net Q nat := {| world := 0; posts := [] |}.

End ModernModels.

(* ================================================================== *)
(** * orchestrator.py: the evaluator stage                             *)
(* ================================================================== *)

Module Orchestrator.

(** A Python number as decoded from JSON: an [int], or a [float], which is
    a finite one given by its exact rational value or one of the three
    special floats. *)
Inductive number : Type :=
| Int (z : Z)
| Finite (q : Q)
| PosInf
| NegInf
| NaN.

(** A decoded JSON value. *)
Inductive jvalue : Type :=
| JNone
| JBool (b : bool)
| JNumber (n : number)
| JStr (s : string)
| JList (items : list jvalue)
| JDict (entries : list (string * jvalue)).

(** [a >= b] on numbers; an [int] and a [float] are compared by their
    exact values. *)
Definition number_ge (a b : number) : bool :=
  match a, b with
  | NaN, _ | _, NaN => false
  | PosInf, _ => true
  | _, NegInf => true
  | NegInf, _ => false
  | _, PosInf => false
  | Finite x, Finite y => Qle_bool y x
  | Int x, Finite y => Qle_bool y (inject_Z x)
  | Finite x, Int y => Qle_bool (inject_Z y) x
  | Int x, Int y => (y <=? x)%Z
  end.

Definition number_type_name (n : number) : string :=
  match n with
  | Int _ => "int"
  | _ => "float"
  end.

(** [type(v).__name__] *)
Definition type_name (v : jvalue) : string :=
  match v with
  | JNone => "NoneType"
  | JBool _ => "bool"
  | JNumber n => number_type_name n
  | JStr _ => "str"
  | JList _ => "list"
  | JDict _ => "dict"
  end.

(** The number that a value stands for in a comparison; [bool] is a
    subclass of [int]. *)
Definition as_number (v : jvalue) : option number :=
  match v with
  | JNumber n => Some n
  | JBool true => Some (Int 1)
  | JBool false => Some (Int 0)
  | _ => None
  end.

(** [v >= threshold], which raises [TypeError] when [v] is not a number. *)
Definition py_ge (v : jvalue) (threshold : number) : result bool :=
  match as_number v with
  | Some n => Ok (number_ge n threshold)
  | None =>
      Raise (TypeError ("'>=' not supported between instances of '"
                        ++ type_name v ++ "' and '"
                        ++ number_type_name threshold ++ "'"))
  end.

(** Truth value of a Python object. *)
Definition truthy (v : jvalue) : bool :=
  match v with
  | JNone => false
  | JBool b => b
  | JNumber (Int z) => negb (z =? 0)%Z
  | JNumber (Finite q) => negb (Qeq_bool q 0)
  | JNumber _ => true
  | JStr s => negb (String.eqb s EmptyString)
  | JList items => negb (Nat.eqb (List.length items) 0)
  | JDict entries => negb (Nat.eqb (List.length entries) 0)
  end.

Fixpoint dict_lookup (d : list (string * jvalue)) (key : string)
  : option jvalue :=
  match d with
  | [] => None
  | (k, v) :: d' => if String.eqb k key then Some v else dict_lookup d' key
  end.

(** [d.get(key, default)] *)
Definition dict_get (d : list (string * jvalue)) (key : string)
  (default : jvalue) : jvalue :=
  match dict_lookup d key with
  | Some v => v
  | None => default
  end.

(** [eval_data.get(key, default)], which raises when [eval_data] is not a
    [dict]. *)
Definition get (eval_data : jvalue) (key : string) (default : jvalue)
  : result jvalue :=
  match eval_data with
  | JDict d => Ok (dict_get d key default)
  | _ => Raise (AttributeError ("'" ++ type_name eval_data
                                ++ "' object has no attribute 'get'"))
  end.

(** The fields of [WorkflowState] that the evaluator reads or writes. *)
Record WorkflowState : Type := {
  user_intent : string;
  current_iteration : Z;
  max_iterations : Z;
  satisfaction_threshold : number;
  screenshot_base64 : option string;
  quality_score : jvalue;
  visual_feedback : jvalue;
  is_satisfied : jvalue;
  iteration_history : list jvalue
}.

(** The three assignments that [evaluate] makes. *)
Definition set_quality_score (state : WorkflowState) (v : jvalue)
  : WorkflowState :=
  {| user_intent := user_intent state;
     current_iteration := current_iteration state;
     max_iterations := max_iterations state;
     satisfaction_threshold := satisfaction_threshold state;
     screenshot_base64 := screenshot_base64 state;
     quality_score := v;
     visual_feedback := visual_feedback state;
     is_satisfied := is_satisfied state;
     iteration_history := iteration_history state |}.

Definition set_feedback (state : WorkflowState) (v : jvalue)
  : WorkflowState :=
  {| user_intent := user_intent state;
     current_iteration := current_iteration state;
     max_iterations := max_iterations state;
     satisfaction_threshold := satisfaction_threshold state;
     screenshot_base64 := screenshot_base64 state;
     quality_score := quality_score state;
     visual_feedback := v;
     is_satisfied := is_satisfied state;
     iteration_history := iteration_history state |}.

Definition set_is_satisfied (state : WorkflowState) (v : jvalue)
  : WorkflowState :=
  {| user_intent := user_intent state;
     current_iteration := current_iteration state;
     max_iterations := max_iterations state;
     satisfaction_threshold := satisfaction_threshold state;
     screenshot_base64 := screenshot_base64 state;
     quality_score := quality_score state;
     visual_feedback := visual_feedback state;
     is_satisfied := v;
     iteration_history := iteration_history state |}.

(** [x or y] where [x] is a [bool]: [True] when [x] holds, else [y]
    itself. *)
Definition bool_or (x : bool) (y : jvalue) : jvalue :=
  if x then JBool true else y.

(** The [except Exception] branch. *)
Definition evaluation_failed (state : WorkflowState) (e : PyExn)
  : WorkflowState :=
  set_feedback
    (set_quality_score state (JNumber (Finite (1 # 2))))
    (JDict [("error", JStr ("Vision model evaluation failed: " ++ exn_text e));
            ("issues", JList [JStr "Could not evaluate screenshot"]);
            ("specific_suggestions", JList [])]).

(** The assignments of the [try] block once [eval_data] is there; a
    raise keeps what was assigned before it. *)
Definition record_evaluation (state : WorkflowState) (eval_data : jvalue)
  : WorkflowState :=
  match get eval_data "overall_score" (JNumber (Finite 0)) with
  | Raise e => evaluation_failed state e
  | Ok score =>
      let state := set_quality_score state score in
      let state := set_feedback state eval_data in
      match py_ge (quality_score state) (satisfaction_threshold state) with
      | Raise e => evaluation_failed state e
      | Ok reached =>
          match (if reached then Ok (JBool true)
                 else get eval_data "is_satisfactory" (JBool false)) with
          | Raise e => evaluation_failed state e
          | Ok flag => set_is_satisfied state (bool_or reached flag)
          end
      end
  end.

Section Evaluator.
Variable World : Type.

(** [self.vision_client.analyze_scene(screenshot_base64, user_intent,
    iteration, max_iterations, previous_feedback)] *)
Variable analyze_scene :
  string -> string -> Z -> Z -> option jvalue -> World -> result jvalue * World.

(** [EvaluatorAgent.evaluate]; it catches every exception, so it always
    returns a state. *)
Definition evaluate (state : WorkflowState) (w : World)
  : WorkflowState * World :=
  match screenshot_base64 state with
  | None | Some EmptyString =>
      (set_feedback
         (set_quality_score state (JNumber (Finite 0)))
         (JDict [("error", JStr "No screenshot available for evaluation")]),
       w)
  | Some screenshot =>
      let previous_feedback := last (map Some (iteration_history state)) None in
      match analyze_scene screenshot (user_intent state)
              (current_iteration state) (max_iterations state)
              previous_feedback w with
      | (Raise e, w') => (evaluation_failed state e, w')
      | (Ok eval_data, w') => (record_evaluation state eval_data, w')
      end
  end.

End Evaluator.

(** ** Worked example: scores 8, 8, 9, 7, 8 give 0.80 overall *)

Definition example_state : WorkflowState :=
  {| user_intent := "a red cube on a plane";
     current_iteration := 0;
     max_iterations := 3;
     satisfaction_threshold := Finite (75 # 100);
     screenshot_base64 := Some "aGVsbG8=";
     quality_score := JNumber (Finite 0);
     visual_feedback := JDict [];
     is_satisfied := JBool false;
     iteration_history := [] |}.

Definition example_eval_data : list (string * jvalue) :=
  [("overall_score", JNumber (Finite (80 # 100)));
   ("is_satisfactory", JBool false)].

(** A vision client that answers with [example_eval_data]. *)
Definition example_client
  : string -> string -> Z -> Z -> option jvalue -> unit
    -> result jvalue * unit :=
  fun _ _ _ _ _ w => (Ok (JDict example_eval_data), w).

(** An answer below the threshold whose flag is set. *)
Definition flagged_eval_data : list (string * jvalue) :=
  [("overall_score", JNumber (Finite (40 # 100)));
   ("is_satisfactory", JBool true)].

(** An answer whose flag is set and whose overall score is [null]. *)
Definition unscored_eval_data : list (string * jvalue) :=
  [("overall_score", JNone); ("is_satisfactory", JBool true)].

(** A vision client that answers with [unscored_eval_data]. *)
Definition unscored_client
  : string -> string -> Z -> Z -> option jvalue -> unit
    -> result jvalue * unit :=
  fun _ _ _ _ _ w => (Ok (JDict unscored_eval_data), w).

End Orchestrator.

(* ================================================================== *)
(** * More [str] operations: [rstrip(chars)], [endswith], [lower]      *)
(* ================================================================== *)

Module PyStrMore.
Import PyStr.

(** [s.rstrip(ch)] for a one-character argument. *)
Fixpoint rstrip_char (ch : ascii) (s : string) : string :=
  match s with
  | EmptyString => EmptyString
  | String c s' =>
      match rstrip_char ch s' with
      | EmptyString => if Ascii.eqb c ch then EmptyString
                       else String c EmptyString
      | r => String c r
      end
  end.

(** [s.endswith(suffix)] *)
Definition endswith (suffix s : string) : bool :=
  (String.length suffix <=? String.length s)%nat
  && String.eqb (drop (String.length s - String.length suffix) s) suffix.

(** [c.lower()] on the code points below 256: A-Z and the accented
    capitals 0xC0-0xDE other than the multiplication sign 0xD7. *)
Definition lower_char (c : ascii) : ascii :=
  let n := nat_of_ascii c in
  if ((65 <=? n) && (n <=? 90)
      || (192 <=? n) && (n <=? 222) && negb (n =? 215))%nat
  then ascii_of_nat (n + 32)
  else c.

(** [s.lower()] *)
Fixpoint lower (s : string) : string :=
  match s with
  | EmptyString => EmptyString
  | String c s' => String (lower_char c) (lower s')
  end.

(** Every character of [s] passes the test [p]. *)
Fixpoint all_chars (p : ascii -> bool) (s : string) : bool :=
  match s with
  | EmptyString => true
  | String c s' => p c && all_chars p s'
  end.

Definition backtick : ascii := ascii_of_nat 96.

(** [s] holds no backtick. *)
Definition no_backtick (s : string) : bool :=
  all_chars (fun c => negb (Ascii.eqb c backtick)) s.

End PyStrMore.

(* ================================================================== *)
(** * vision_utils.py: endpoints and model lists                       *)
(* ================================================================== *)

Module VisionUtilsRest.
Import PyStr PyStrMore Orchestrator.

(** [normalize_vision_endpoint] *)
Definition normalize_vision_endpoint (endpoint : string) : string :=
  let normalized := rstrip_char "/" endpoint in
  if endswith "/v1" normalized then normalized
  else normalized ++ "/v1".

(** [item.get("id", "")] for each item of a list; an item that is not a
    [dict] has no [get]. *)
Fixpoint ids_of_items (items : list jvalue) : result (list jvalue) :=
  match items with
  | [] => Ok []
  | item :: rest =>
      bind (get item "id" (JStr EmptyString)) (fun id =>
      bind (ids_of_items rest) (fun ids => Ok (id :: ids)))
  end.

(** [_iter_model_ids]; [models_payload.get(key)] has the default [None]. *)
Definition _iter_model_ids (models_payload : jvalue) : result (list jvalue) :=
  if negb (truthy models_payload) then Ok []
  else
    bind (get models_payload "data" JNone) (fun data =>
    match data with
    | JList items => ids_of_items items
    | _ =>
        bind (get models_payload "models" JNone) (fun models =>
        match models with
        | JList items => ids_of_items items
        | _ => Ok []
        end)
    end).

(** [name == v] for a text [name]. *)
Definition equals_text (name : string) (v : jvalue) : bool :=
  match v with
  | JStr s => String.eqb name s
  | _ => false
  end.

(** [list_available_models]: the ids that are true. *)
Definition list_available_models (models_payload : jvalue)
  : result (list jvalue) :=
  bind (_iter_model_ids models_payload) (fun ids => Ok (filter truthy ids)).

(** [is_model_available]: [model_name in model_ids]. *)
Definition is_model_available (model_name : string) (models_payload : jvalue)
  : result bool :=
  bind (_iter_model_ids models_payload) (fun ids =>
  Ok (existsb (equals_text model_name) (filter truthy ids))).

(** A [/models] payload in the OpenAI shape, with one entry without id. *)
Definition example_models_payload : jvalue :=
  JDict [("data", JList [JDict [("id", JStr "Qwen2.5-VL-72B-Instruct")];
                         JDict [("object", JStr "model")];
                         JDict [("id", JStr "other")]])].

(** A payload that names its list [models], with an id that is a number
    and an id that is empty. *)
Definition numbered_models_payload : jvalue :=
  JDict [("object", JStr "list");
         ("models", JList [JDict [("id", JNumber (Int 7))];
                           JDict [("id", JStr EmptyString)];
                           JDict [("id", JStr "a")]])].

(** A payload with an entry that is a text, not an object. *)
Definition named_models_payload : jvalue :=
  JDict [("data", JList [JDict [("id", JStr "a")]; JStr "b"])].

End VisionUtilsRest.

(* ================================================================== *)
(** * memory.py: rendering the window into the prompt                  *)
(* ================================================================== *)

Module MemoryRest.
Import PyStr PyStrMore PyVal Memory VisionUtils.

(** The optional line of [to_prompt_str] for a field that is true. *)
Definition optional_part (label : string) (field : option string)
  (closing : string) : list string :=
  match field with
  | Some (String c v) => [label ++ String c v ++ closing]
  | _ => []
  end.

(** [IterationContext.to_prompt_str] *)
Definition to_prompt_str (self : IterationContext) : string :=
  let header := "## Iteration " ++ str_of_Z (iteration_id self) in
  let plan_part := optional_part "**Plan**: " (plan self) EmptyString in
  let code_part :=
    optional_part ("**Code Generated**: " ++ nl ++ "```python" ++ nl)
      (code self) (nl ++ "```") in
  let feedback_part :=
    optional_part "**Verifier Feedback**: " (visual_feedback self)
      EmptyString in
  join nl (header :: List.app plan_part (List.app code_part feedback_part)).

Definition prompt_header : string :=
  "### Interaction History (Recent)" ++ nl ++ nl.

(** The [for] loop of [get_full_prompt]. *)
Fixpoint render_records (window : list IterationContext) : string :=
  match window with
  | [] => EmptyString
  | ctx :: rest => (to_prompt_str ctx ++ nl ++ nl) ++ render_records rest
  end.

(** [VIGAMemory.get_full_prompt] *)
Definition get_full_prompt : method string :=
  fun self =>
    match get_context_window self with
    | (Ok window, self') => (Ok (prompt_header ++ render_records window), self')
    | (Raise e, self') => (Raise e, self')
    end.

(** ** Lookup in the static context *)

Fixpoint assoc_get (d : list (string * string)) (k : string) : option string :=
  match d with
  | [] => None
  | (k', v) :: d' => if String.eqb k' k then Some v else assoc_get d' k
  end.

(** A record as the generator leaves it, for the worked examples. *)
Definition example_record : IterationContext :=
  new_context 4 (Some "Add a cube, then a light.")
    (Some ("import bpy" ++ nl ++ "bpy.ops.mesh.primitive_cube_add()")).

End MemoryRest.

(* ================================================================== *)
(** * modern_models.py: the Gemini variant and the mock                *)
(* ================================================================== *)

Module ModernModelsRest.
Import PyStr PyStrMore PyVal Orchestrator VisionUtils ModernModels.

(** One element of the [parts] list of a Gemini request. *)
Inductive GeminiPart : Type :=
| InlineData (mime_type data : string)
| TextOnly (text : string).

(** What an indexing or a key lookup inside the [try] block gives: a
    value, a [KeyError] or [IndexError] (kept with its text, since the
    [except] clause catches exactly these two), or another exception. *)
Inductive Lookup : Type :=
| Found (v : jvalue)
| Missing (text : string)
| Failed (e : PyExn).

(** [v[0]] *)
Definition index0 (v : jvalue) : Lookup :=
  match v with
  | JList (x :: _) => Found x
  | JList [] => Missing "list index out of range"
  | JDict _ => Missing "0"
  | JStr (String c _) => Found (JStr (String c EmptyString))
  | JStr EmptyString => Missing "string index out of range"
  | _ => Failed (TypeError ("'" ++ type_name v
                            ++ "' object is not subscriptable"))
  end.

(** [v.get(key, default)] inside the [try] block. *)
Definition lookup_get (v : jvalue) (key : string) (default : jvalue) : Lookup :=
  match get v key default with
  | Ok x => Found x
  | Raise e => Failed e
  end.

Definition lookup_bind (l : Lookup) (k : jvalue -> Lookup) : Lookup :=
  match l with
  | Found v => k v
  | Missing text => Missing text
  | Failed e => Failed e
  end.

Section Gemini3Pro.
Variable PyFloat : Type.
Variable World : Type.

(** Python's [str] of the decoded reply, used in error messages only. *)
Variable show_data : jvalue -> string.

(** The JSON body of a request. *)
Record GeminiPayload : Type := {
  contents_parts : list GeminiPart;
  system_instruction : string;
  generation_temperature : PyFloat;
  max_output_tokens : Z
}.

Record GeminiResponse : Type := {
  gemini_status : Z;
  gemini_text : string;
  gemini_json : result jvalue
}.

(** The attributes of a [Gemini3Pro] object. *)
Record Gemini3Pro : Type := {
  variant : string;
  gemini_model_name : string;
  api_key : string;
  gemini_endpoint : string;
  gemini_timeout_s : PyFloat;
  gemini_temperature : PyFloat;
  gemini_max_tokens : Z
}.

Variable session_post :
  string -> GeminiPayload -> World -> result GeminiResponse * World.

Record GeminiNet : Type := {
  gemini_world : World;
  gemini_posts : list (string * GeminiPayload)
}.

Definition G (A : Type) : Type := GeminiNet -> result A * GeminiNet.

(** The image parts, in the order given; empty entries are skipped. *)
Fixpoint inline_images (images : list string) : list GeminiPart :=
  match images with
  | [] => []
  | img_b64 :: rest =>
      match img_b64 with
      | EmptyString => inline_images rest
      | _ => InlineData "image/png" img_b64 :: inline_images rest
      end
  end.

Definition gemini_payload (self : Gemini3Pro)
  (system_prompt user_prompt : string) (images : list string)
  : GeminiPayload :=
  {| contents_parts := (inline_images images ++ [TextOnly user_prompt])%list;
     system_instruction := system_prompt;
     generation_temperature := gemini_temperature self;
     max_output_tokens := gemini_max_tokens self |}.

Definition gemini_url (self : Gemini3Pro) : string :=
  gemini_endpoint self ++ "/models/" ++ gemini_model_name self
  ++ ":generateContent?key=" ++ api_key self.

(** The [try] block that reads the text out of the decoded reply. *)
Definition read_candidates (data : jvalue) : Lookup :=
  lookup_bind (lookup_get data "candidates" (JList [])) (fun candidates =>
  if negb (truthy candidates)
  then Failed (RuntimeError ("Gemini returned no candidates: "
                             ++ show_data data))
  else
    lookup_bind (index0 candidates) (fun first =>
    lookup_bind (lookup_get first "content" (JDict [])) (fun content =>
    lookup_bind (lookup_get content "parts" (JList [])) (fun parts =>
    if negb (truthy parts)
    then Failed (RuntimeError ("Gemini returned no parts: "
                               ++ show_data data))
    else
      lookup_bind (index0 parts) (fun part =>
      lookup_get part "text" (JStr EmptyString)))))).

(** The [except (KeyError, IndexError)] clause around it. *)
Definition read_gemini (data : jvalue) : result jvalue :=
  match read_candidates data with
  | Found v => Ok v
  | Missing text =>
      Raise (RuntimeError ("Failed to parse Gemini response: " ++ text
                           ++ ", data=" ++ show_data data))
  | Failed e => Raise e
  end.

(** [Gemini3Pro.generate_text] *)
Definition gemini_generate_text (self : Gemini3Pro)
  (system_prompt user_prompt : string) (images : list string) : G jvalue :=
  fun st =>
    match api_key self with
    | EmptyString =>
        (Raise (RuntimeError
                  "Gemini API key not configured. Set GOOGLE_AI_API_KEY or GEMINI_API_KEY env var."),
         st)
    | _ =>
        let payload := gemini_payload self system_prompt user_prompt images in
        let url := gemini_url self in
        let (r, w) := session_post url payload (gemini_world st) in
        let st' := {| gemini_world := w;
                      gemini_posts :=
                        (gemini_posts st ++ [(url, payload)])%list |} in
        match r with
        | Raise e => (Raise e, st')
        | Ok resp =>
            if negb (gemini_status resp =? 200)%Z
            then (Raise (RuntimeError
                           ("Gemini request failed ("
                            ++ str_of_Z (gemini_status resp) ++ "): "
                            ++ gemini_text resp)), st')
            else (bind (gemini_json resp) read_gemini, st')
        end
    end.

End Gemini3Pro.

Arguments gemini_world {PyFloat World} _.
Arguments gemini_posts {PyFloat World} _.

(** ** [MockModel] *)

Definition mock_plan_answer : string :=
  "```json" ++ nl ++ "{" ++ nl
  ++ "    " ++ dq ++ "subtasks" ++ dq ++ ": [{" ++ dq ++ "id" ++ dq ++ ": "
  ++ dq ++ "1" ++ dq ++ ", " ++ dq ++ "description" ++ dq ++ ": "
  ++ dq ++ "Create base mesh" ++ dq ++ "}]" ++ nl
  ++ "}" ++ nl ++ "```".

Definition mock_code_answer : string :=
  "```python" ++ nl ++ "import bpy" ++ nl ++ "# Mock generation" ++ nl
  ++ "bpy.ops.mesh.primitive_cube_add()" ++ nl ++ "```".

(** [MockModel.generate_text]: the answer depends on the user prompt
    only. *)
Definition mock_generate_text (system_prompt user_prompt : string)
  : string :=
  if contains "plan" (lower user_prompt) then mock_plan_answer
  else mock_code_answer.

(** ** Test doubles for the Gemini variant *)

Definition gemini_double : Gemini3Pro Q :=
  {| variant := "pro";
     gemini_model_name := "gemini-3.0-pro";
     api_key := "test-key";
     gemini_endpoint := "https://generativelanguage.googleapis.com/v1beta";
     gemini_timeout_s := (120 # 1)%Q;
     gemini_temperature := (4 # 10)%Q;
     gemini_max_tokens := 2048 |}.

(** A server that answers 400 to whatever it is sent. *)
Definition gemini_server_400
  : string -> GeminiPayload Q -> nat -> result GeminiResponse * nat :=
  fun _ _ served =>
    (Ok {| gemini_status := 400;
           gemini_text := "image input is not supported";
           gemini_json := Raise (ExternalError "not JSON") |},
     S served).

Definition gemini_fresh : GeminiNet Q nat :=
  {| gemini_world := 0; gemini_posts := [] |}.

End ModernModelsRest.

(* ================================================================== *)
(** * skills.py and agent.py: the skills and the two agents            *)
(* ================================================================== *)

Module VigaParts.
Import PyStr PyStrMore PyVal Memory MemoryRest VisionUtils Agent.

(** What the skills and the agents ask of the outside, in order. *)
Inductive Event : Type :=
| EvModel (system_prompt user_prompt : string) (images : list value)
| EvExecute (code : option string)
| EvSceneInfo
| EvScreenshot.

Definition is_model_event (e : Event) : bool :=
  match e with EvModel _ _ _ => true | _ => false end.

Definition is_host_event (e : Event) : bool :=
  match e with EvModel _ _ _ => false | _ => true end.

(** The code of an execute request holds the text [bpy]. *)
Definition executes_bpy_only (e : Event) : bool :=
  match e with
  | EvExecute (Some code) => contains "bpy" code
  | EvExecute None => false
  | _ => true
  end.

(** The table [quick_commands] of [investigate], in insertion order. *)
Definition quick_commands : list (string * string) :=
  [("rotate left", "bpy.context.scene.camera.rotation_euler[2] += 0.2");
   ("rotate right", "bpy.context.scene.camera.rotation_euler[2] -= 0.2");
   ("zoom in", "bpy.context.scene.camera.location[1] += 2.0");
   ("zoom out", "bpy.context.scene.camera.location[1] -= 2.0");
   ("look up", "bpy.context.scene.camera.rotation_euler[0] -= 0.1");
   ("look down", "bpy.context.scene.camera.rotation_euler[0] += 0.1");
   ("move up", "bpy.context.scene.camera.location[2] += 1.0");
   ("move down", "bpy.context.scene.camera.location[2] -= 1.0");
   ("front view", "bpy.context.scene.camera.rotation_euler = (1.5708, 0, 0)");
   ("side view",
    "bpy.context.scene.camera.rotation_euler = (1.5708, 0, 1.5708)");
   ("top view", "bpy.context.scene.camera.rotation_euler = (0, 0, 0)")].

(** The first entry of the table whose command occurs in the text. *)
Fixpoint first_quick_command (table : list (string * string))
  (instruction_lower : string) : option (string * string) :=
  match table with
  | [] => None
  | (cmd, code) :: rest =>
      if contains cmd instruction_lower then Some (cmd, code)
      else first_quick_command rest instruction_lower
  end.

(** The prompt that [investigate] sends to the model. *)
Definition investigate_prompt (instruction : string) : string :=
  "Generate Blender Python code to adjust the camera based on this instruction:"
  ++ nl ++ dq ++ instruction ++ dq ++ nl
  ++ nl
  ++ "Return ONLY the Python code, no explanation. The code should:" ++ nl
  ++ "1. Import bpy" ++ nl
  ++ "2. Access bpy.context.scene.camera" ++ nl
  ++ "3. Modify location and/or rotation_euler as needed" ++ nl
  ++ nl
  ++ "Example output:" ++ nl
  ++ "```python" ++ nl
  ++ "import bpy" ++ nl
  ++ "cam = bpy.context.scene.camera" ++ nl
  ++ "cam.location[0] += 5.0" ++ nl
  ++ "```".

(** The prompt of [make_plan]. *)
Definition plan_prompt (task_description context_memory : string) : string :=
  "Task: " ++ task_description ++ nl
  ++ "Context: " ++ context_memory ++ nl
  ++ "Create a step-by-step plan for the next iteration of Blender editing.".

(** The user prompt of [GeneratorAgent.generate_step]. *)
Definition synthesis_prompt (task plan context_str latest_code : string)
  : string :=
  "Task: " ++ task ++ nl
  ++ "Current Plan: " ++ plan ++ nl
  ++ "Context History:" ++ nl
  ++ context_str ++ nl
  ++ nl
  ++ "Latest Code:" ++ nl
  ++ "```python" ++ nl
  ++ latest_code ++ nl
  ++ "```" ++ nl
  ++ nl
  ++ "Generate the next version of the code. Output full executable python code.".

(** The user prompt of [VerifierAgent.verify_step]. *)
Definition verification_prompt (task scene_info : string) : string :=
  "Task: " ++ task ++ nl
  ++ "Scene Info: " ++ scene_info ++ nl
  ++ "Verify if the rendered image matches the task. " ++ nl
  ++ "Provide specific feedback on geometry, placement, and materials." ++ nl
  ++ "Suggest specific fixes.".

Definition planner_system : string := "You are a 3D planning agent.".
Definition generator_system : string :=
  "You are an expert Blender Python scripter. Generate robust code.".
Definition verifier_system : string :=
  "You are a Vision-as-Inverse-Graphics Verifier.".
Definition camera_system : string :=
  "You are a Blender Python expert. Output only valid Python code.".

(** [d.get(key, default)] on a host reply. *)
Definition dict_get_default (d : dict) (key : string) (default : value)
  : value :=
  match dict_lookup d key with
  | Some v => v
  | None => default
  end.

Section Parts.
Variable World : Type.

(** [self.model.generate_text(system, user, images)] *)
Variable model_generate_text :
  string -> string -> list value -> World -> result string * World.
(** [self.mcp.execute_code(code)] *)
Variable mcp_execute_code : option string -> World -> result dict * World.
(** [self.mcp.get_scene_info()] *)
Variable mcp_get_scene_info : World -> result dict * World.
(** [self.mcp.get_viewport_screenshot()] *)
Variable mcp_get_viewport_screenshot : World -> result dict * World.
(** [json.dumps(info, indent=2)] *)
Variable json_dumps : dict -> string.
(** The script that [initialize_viewpoint] sends, a constant text. *)
Variable viewpoint_code : string.

(** The world together with the log of what was asked of it. *)
Record Outside : Type := {
  outside_world : World;
  events : list Event
}.

Definition P (A : Type) : Type := Outside -> result A * Outside.

Definition pret {A : Type} (a : A) : P A := fun st => (Ok a, st).

Definition pbind {A B : Type} (m : P A) (k : A -> P B) : P B :=
  fun st =>
    match m st with
    | (Ok a, st') => k a st'
    | (Raise e, st') => (Raise e, st')
    end.

(** A request to the outside, entered in the log. *)
Definition ask {A : Type} (e : Event) (f : World -> result A * World) : P A :=
  fun st =>
    let (r, w) := f (outside_world st) in
    (r, {| outside_world := w; events := (events st ++ [e])%list |}).

(** The result of a getter of the memory. *)
Definition read_memory {A : Type} (m : method A) (memory : VIGAMemory) : P A :=
  fun st => (fst (m memory), st).

Definition model (system_prompt user_prompt : string) (images : list value)
  : P string :=
  ask (EvModel system_prompt user_prompt images)
    (model_generate_text system_prompt user_prompt images).

(** ** [SkillLibrary] *)

Definition make_plan (task_description context_memory : string) : P string :=
  model planner_system (plan_prompt task_description context_memory) [].

Definition execute_code (code : option string) : P dict :=
  ask (EvExecute code) (mcp_execute_code code).

Definition get_scene_info_text : P string :=
  pbind (ask EvSceneInfo mcp_get_scene_info) (fun info =>
  pret (json_dumps info)).

Definition initialize_viewpoint : P unit :=
  pbind (execute_code (Some viewpoint_code)) (fun _ => pret tt).

(** [investigate] *)
Definition investigate (instruction : string) : P unit :=
  let instruction_lower := strip (lower instruction) in
  match first_quick_command quick_commands instruction_lower with
  | Some (_, code) =>
      pbind (execute_code (Some ("import bpy" ++ nl ++ code))) (fun _ =>
      pret tt)
  | None =>
      pbind (model camera_system (investigate_prompt instruction) [])
        (fun response =>
      let code := extract_code_from_response response in
      if negb (String.eqb code EmptyString) && contains "bpy" code
      then pbind (execute_code (Some code)) (fun _ => pret tt)
      else pret tt)
  end.

(** ** [GeneratorAgent.generate_step] *)
Definition generate_step (task : string) (memory : VIGAMemory) (iteration : Z)
  : P IterationContext :=
  pbind (read_memory get_full_prompt memory) (fun context_str =>
  pbind (make_plan task context_str) (fun plan =>
  pbind (read_memory get_latest_code memory) (fun latest_code =>
  pbind (model generator_system
           (synthesis_prompt task plan context_str latest_code) [])
    (fun response =>
  let code := extract_code_from_response response in
  pret (new_context iteration (Some plan) (Some code)))))).

(** ** [VerifierAgent.verify_step] *)
Definition verify_step (task : string) (ctx : IterationContext) : P string :=
  pbind initialize_viewpoint (fun _ =>
  pbind get_scene_info_text (fun scene_info =>
  pbind (ask EvScreenshot mcp_get_viewport_screenshot) (fun screenshot_res =>
  let img_data :=
    dict_get_default screenshot_res "image_data" (VStr EmptyString) in
  model verifier_system (verification_prompt task scene_info) [img_data]))).

(** ** [VIGAAgent]: the loop with its own generator, skills and verifier *)
Definition viga_run_loop (task_instruction : string) (max_iterations : Z)
  : AgentState Outside -> result VIGAMemory * AgentState Outside :=
  run_loop Outside generate_step execute_code verify_step
    task_instruction max_iterations.

End Parts.

Arguments outside_world {World} _.
Arguments events {World} _.

(** ** Test doubles: the mock model and a host that always succeeds *)

Definition mock_model
  : string -> string -> list value -> unit -> result string * unit :=
  fun system_prompt user_prompt _ w =>
    (Ok (ModernModelsRest.mock_generate_text system_prompt user_prompt), w).

Definition mock_execute : option string -> unit -> result dict * unit :=
  fun _ w =>
    (Ok [("status", VStr "success"); ("output", VStr "Code executed")], w).

Definition mock_scene_info : unit -> result dict * unit :=
  fun w => (Ok [("objects", VList [])], w).

Definition mock_screenshot : unit -> result dict * unit :=
  fun w =>
    (Ok [("status", VStr "success"); ("image_data", VStr "fake_base64_image")],
     w).

Definition quiet_outside : Outside unit :=
  {| outside_world := tt; events := [] |}.

End VigaParts.

(* ================================================================== *)
(** * game_asset_config.py: profiles, their registry, validation       *)
(* ================================================================== *)

Module GameAssetConfig.
Import PyStr PyStrMore PyVal Agent.

Inductive GameEngine : Type :=
| WAR_THUNDER | WORLD_OF_WARSHIPS | UNITY | UNREAL | ASSET_STORE | CUSTOM.

Inductive ExportFormat : Type := FBX | GLTF | GLB | OBJ | BLEND.

(** [LODLevel]; the distances are given as integers everywhere in the
    module. *)
Record LODLevel : Type := {
  lod_name : string;
  max_triangles : Z;
  reduction_ratio : Q;
  distance_min : Z;
  distance_max : Z;
  lod_description : string
}.

Record TextureSettings : Type := {
  albedo_size : Z;
  normal_size : Z;
  roughness_size : Z;
  metallic_size : Z;
  ao_size : Z;
  format : string;
  compression : bool
}.

(** [MaterialProfile]; decimal literals are kept as the fractions they
    are written as. *)
Record MaterialProfile : Type := {
  material_name : string;
  base_color : Q * Q * Q * Q;
  metallic : Q;
  roughness : Q;
  material_description : string
}.

(** A value of the [export_settings] dict. *)
Inductive Setting : Type :=
| SBool (b : bool)
| SStr (s : string)
| SFloat (q : Q).

Record GameAssetProfile : Type := {
  name : string;
  engine : GameEngine;
  lod_levels : list LODLevel;
  textures : TextureSettings;
  materials : list (string * MaterialProfile);
  export_format : ExportFormat;
  export_settings : list (string * Setting);
  max_texture_memory_mb : Q;
  requires_uv_unwrap : bool;
  requires_lods : bool;
  requires_collision_mesh : bool;
  min_uv_coverage : Q;
  allow_ngons : bool;
  allow_tris : bool;
  prefer_quads : bool;
  description : string;
  target_performance : string
}.

(** A colour tuple. *)
Definition rgba (r g b a : Q) : Q * Q * Q * Q := (r, g, b, a).

Definition NAVAL_MATERIALS : list (string * MaterialProfile) :=
  [("steel_hull",
    {| material_name := "Naval Steel Hull";
       base_color := rgba (29 # 100) (33 # 100) (41 # 100) 1;
       metallic := 1; roughness := 4 # 10;
       material_description := "Painted steel hull exterior" |});
   ("deck_wood",
    {| material_name := "Teak Deck Wood";
       base_color := rgba (55 # 100) (45 # 100) (34 # 100) 1;
       metallic := 0; roughness := 8 # 10;
       material_description := "Weathered teak deck planking" |});
   ("rust_weathering",
    {| material_name := "Rust and Weathering";
       base_color := rgba (52 # 100) (31 # 100) (18 # 100) 1;
       metallic := 3 # 10; roughness := 9 # 10;
       material_description := "Rust and corrosion effects" |});
   ("superstructure",
    {| material_name := "Superstructure Gray";
       base_color := rgba (60 # 100) (60 # 100) (62 # 100) 1;
       metallic := 8 # 10; roughness := 3 # 10;
       material_description := "Superstructure and bridge structures" |});
   ("gun_metal",
    {| material_name := "Gun Barrel Metal";
       base_color := rgba (18 # 100) (18 # 100) (20 # 100) 1;
       metallic := 1; roughness := 2 # 10;
       material_description := "Gun barrels and turrets" |})].

Definition lod (lod_name : string) (max_triangles : Z) (reduction_ratio : Q)
  (distance_min distance_max : Z) (lod_description : string) : LODLevel :=
  {| lod_name := lod_name; max_triangles := max_triangles;
     reduction_ratio := reduction_ratio; distance_min := distance_min;
     distance_max := distance_max; lod_description := lod_description |}.

Definition texture_settings (albedo normal roughness metallic ao : Z)
  (format : string) (compression : bool) : TextureSettings :=
  {| albedo_size := albedo; normal_size := normal;
     roughness_size := roughness; metallic_size := metallic; ao_size := ao;
     format := format; compression := compression |}.

(** The constructor of [GameAssetProfile] with the defaults of the
    fields that no profile of the module sets. *)
Definition profile (name : string) (engine : GameEngine)
  (lod_levels : list LODLevel) (textures : TextureSettings)
  (export_format : ExportFormat) (export_settings : list (string * Setting))
  (max_texture_memory_mb : Q) (requires_collision_mesh : bool)
  (target_performance description : string) : GameAssetProfile :=
  {| name := name; engine := engine; lod_levels := lod_levels;
     textures := textures; materials := NAVAL_MATERIALS;
     export_format := export_format; export_settings := export_settings;
     max_texture_memory_mb := max_texture_memory_mb;
     requires_uv_unwrap := true; requires_lods := true;
     requires_collision_mesh := requires_collision_mesh;
     min_uv_coverage := 80 # 100;
     allow_ngons := false; allow_tris := true; prefer_quads := true;
     description := description;
     target_performance := target_performance |}.

Definition WAR_THUNDER_PROFILE : GameAssetProfile :=
  profile "War Thunder" WAR_THUNDER
    [lod "LOD0" 80000 1 0 50 "Close-up detail (cockpit view, close combat)";
     lod "LOD1" 40000 (5 # 10) 50 200 "Medium distance (normal combat range)";
     lod "LOD2" 20000 (25 # 100) 200 500
       "Far distance (reconnaissance, air superiority)";
     lod "LOD3" 10000 (125 # 1000) 500 2000
       "Very far distance (strategic map view)"]
    (texture_settings 4096 4096 2048 2048 2048 "PNG" true)
    FBX
    [("apply_modifiers", SBool true); ("use_mesh_modifiers", SBool true);
     ("use_armature_deform_only", SBool false); ("bake_anim", SBool false);
     ("path_mode", SStr "COPY"); ("embed_textures", SBool true);
     ("axis_forward", SStr "-Z"); ("axis_up", SStr "Y");
     ("global_scale", SFloat 1)]
    512 true "high"
    "War Thunder naval vessel profile (Gaijin Entertainment)".

Definition WORLD_OF_WARSHIPS_PROFILE : GameAssetProfile :=
  profile "World of Warships" WORLD_OF_WARSHIPS
    [lod "LOD0" 50000 1 0 100 "Close-up detail (port view, close quarters)";
     lod "LOD1" 25000 (5 # 10) 100 300 "Medium distance (engagement range)";
     lod "LOD2" 12000 (24 # 100) 300 800
       "Far distance (long-range artillery)";
     lod "LOD3" 6000 (12 # 100) 800 2000 "Maximum render distance"]
    (texture_settings 4096 4096 2048 2048 2048 "PNG" true)
    FBX
    [("apply_modifiers", SBool true); ("use_mesh_modifiers", SBool true);
     ("bake_anim", SBool false); ("path_mode", SStr "COPY");
     ("embed_textures", SBool true); ("axis_forward", SStr "-Z");
     ("axis_up", SStr "Y")]
    384 true "high"
    "World of Warships profile (Wargaming.net)".

Definition UNITY_ASSET_STORE_PROFILE : GameAssetProfile :=
  profile "Unity Asset Store" UNITY
    [lod "LOD0" 50000 1 0 100 "High detail";
     lod "LOD1" 25000 (5 # 10) 100 250 "Medium detail";
     lod "LOD2" 12000 (24 # 100) 250 500 "Low detail";
     lod "LOD3" 6000 (12 # 100) 500 1000 "Culling LOD"]
    (texture_settings 4096 4096 2048 2048 2048 "PNG" false)
    FBX
    [("apply_modifiers", SBool true); ("use_mesh_modifiers", SBool true);
     ("bake_anim", SBool false); ("path_mode", SStr "COPY");
     ("embed_textures", SBool false); ("axis_forward", SStr "-Z");
     ("axis_up", SStr "Y"); ("apply_scale_options", SStr "FBX_SCALE_ALL")]
    256 false "medium"
    "Unity Asset Store general-purpose profile".

Definition UNREAL_ENGINE_PROFILE : GameAssetProfile :=
  profile "Unreal Engine" UNREAL
    [lod "LOD0" 80000 1 0 100 "Nanite detail (UE5+)";
     lod "LOD1" 40000 (5 # 10) 100 300 "High detail";
     lod "LOD2" 20000 (25 # 100) 300 700 "Medium detail";
     lod "LOD3" 10000 (125 # 1000) 700 1500 "Low detail"]
    (texture_settings 4096 4096 4096 4096 4096 "TGA" false)
    FBX
    [("apply_modifiers", SBool true); ("use_mesh_modifiers", SBool true);
     ("bake_anim", SBool false); ("path_mode", SStr "COPY");
     ("embed_textures", SBool false); ("axis_forward", SStr "X");
     ("axis_up", SStr "Z"); ("apply_scale_options", SStr "FBX_SCALE_ALL")]
    512 true "ultra"
    "Unreal Engine 5+ profile with Nanite support".

(** The registry, in insertion order. *)
Definition GAME_PROFILES : list (string * GameAssetProfile) :=
  [("war_thunder", WAR_THUNDER_PROFILE);
   ("world_of_warships", WORLD_OF_WARSHIPS_PROFILE);
   ("unity", UNITY_ASSET_STORE_PROFILE);
   ("unreal", UNREAL_ENGINE_PROFILE);
   ("asset_store", UNITY_ASSET_STORE_PROFILE)].

(** [GAME_PROFILES[key]] *)
Fixpoint registry_lookup (registry : list (string * GameAssetProfile))
  (key : string) : option GameAssetProfile :=
  match registry with
  | [] => None
  | (k, p) :: rest =>
      if String.eqb k key then Some p else registry_lookup rest key
  end.

(** [s.replace(old, new)] for one-character arguments. *)
Fixpoint replace_char (old new : ascii) (s : string) : string :=
  match s with
  | EmptyString => EmptyString
  | String c s' =>
      String (if Ascii.eqb c old then new else c) (replace_char old new s')
  end.

(** [profile_name.lower().replace(" ", "_").replace("-", "_")] *)
Definition normalized (profile_name : string) : string :=
  replace_char "-" "_" (replace_char " " "_" (lower profile_name)).

(** What the functions of the module raise. *)
Inductive ConfigExn : Type :=
| ValueError (msg : string).

Inductive outcome (A : Type) : Type :=
| Returns (a : A)
| Raises (e : ConfigExn).

Arguments Returns {A} a.
Arguments Raises {A} e.

(** [list_profiles] *)
Definition list_profiles : list string := map fst GAME_PROFILES.

(** [get_profile] *)
Definition get_profile (profile_name : string) : outcome GameAssetProfile :=
  let profile_name := normalized profile_name in
  match registry_lookup GAME_PROFILES profile_name with
  | None =>
      Raises (ValueError ("Unknown profile: " ++ profile_name ++ ". "
                          ++ "Available profiles: "
                          ++ join ", " (map fst GAME_PROFILES)))
  | Some p => Returns p
  end.

(** [int(lod0_triangles * 0.5 ** i)].  For [lod0_triangles] of absolute
    value at most 2^53 the conversion to a float and the product with a
    power of two are exact (a product too small to be a normal float is
    below one in absolute value anyway), and [int] cuts toward zero. *)
Definition scaled_triangles (lod0_triangles i : Z) : Z :=
  Z.quot lod0_triangles (2 ^ i).

(** [0.5 ** i] for [i >= 0]: exact down to the smallest float 2^-1074,
    and 0.0 below it. *)
Definition reduction (i : Z) : Q :=
  if (i <=? 1074)%Z then Qpower (1 # 2) i else 0%Q.

(** One step of the loop of [create_custom_profile]. *)
Definition custom_lod (lod0_triangles i : Z) : LODLevel :=
  {| lod_name := "LOD" ++ str_of_Z i;
     max_triangles := scaled_triangles lod0_triangles i;
     reduction_ratio := reduction i;
     distance_min := i * 100;
     distance_max := (i + 1) * 250;
     lod_description := "LOD level " ++ str_of_Z i |}.

(** [create_custom_profile] *)
Definition create_custom_profile (name : string)
  (lod0_triangles lod_count texture_size : Z) (export_format : ExportFormat)
  : GameAssetProfile :=
  {| name := name; engine := CUSTOM;
     lod_levels := map (custom_lod lod0_triangles) (range lod_count);
     textures :=
       {| albedo_size := texture_size; normal_size := texture_size;
          roughness_size := texture_size / 2;
          metallic_size := texture_size / 2;
          ao_size := texture_size / 2;
          format := "PNG"; compression := true |};
     materials := NAVAL_MATERIALS;
     export_format := export_format; export_settings := [];
     max_texture_memory_mb := 256;
     requires_uv_unwrap := true; requires_lods := true;
     requires_collision_mesh := false;
     min_uv_coverage := 80 # 100;
     allow_ngons := false; allow_tris := true; prefer_quads := true;
     description := "Custom profile: " ++ name;
     target_performance := "high" |}.

(** [prev_tris]: [float('inf')] before the first level, then an [int]. *)
Inductive Bound : Type :=
| Infinity
| Triangles (n : Z).

(** [lod.max_triangles > prev_tris] *)
Definition exceeds (n : Z) (prev_tris : Bound) : bool :=
  match prev_tris with
  | Infinity => false
  | Triangles p => (p <? n)%Z
  end.

Definition show_bound (prev_tris : Bound) : string :=
  match prev_tris with
  | Infinity => "inf"
  | Triangles p => str_of_Z p
  end.

(** The loop over the levels in [validate_profile]. *)
Fixpoint lod_issues (prev_tris : Bound) (levels : list LODLevel)
  : list string :=
  match levels with
  | [] => []
  | level :: rest =>
      let issue :=
        lod_name level ++ " has more triangles ("
        ++ str_of_Z (max_triangles level) ++ ") "
        ++ "than previous LOD (" ++ show_bound prev_tris ++ ")" in
      List.app
        (if exceeds (max_triangles level) prev_tris then [issue] else [])
        (lod_issues (Triangles (max_triangles level)) rest)
  end.

(** [size & (size - 1) != 0] *)
Definition fails_power_of_two_check (size : Z) : bool :=
  negb (Z.land size (size - 1) =? 0)%Z.

(** The five sizes that [validate_profile] reads, with their names. *)
Definition texture_sizes (t : TextureSettings) : list (string * Z) :=
  [("albedo_size", albedo_size t); ("normal_size", normal_size t);
   ("roughness_size", roughness_size t); ("metallic_size", metallic_size t);
   ("ao_size", ao_size t)].

Fixpoint texture_issues (sizes : list (string * Z)) : list string :=
  match sizes with
  | [] => []
  | (attr, size) :: rest =>
      let issue :=
        "Texture " ++ attr ++ " (" ++ str_of_Z size
        ++ ") is not a power of 2" in
      List.app (if fails_power_of_two_check size then [issue] else [])
        (texture_issues rest)
  end.

(** [validate_profile] *)
Definition validate_profile (profile : GameAssetProfile) : list string :=
  (lod_issues Infinity (lod_levels profile)
   ++ texture_issues (texture_sizes (textures profile))
   ++ match materials profile with
      | [] => ["No materials defined in profile"]
      | _ => []
      end)%list.

(** The budgets of the levels never go up from one level to the next. *)
Definition budgets_never_increase (levels : list LODLevel) : Prop :=
  forall i a b,
    nth_error levels i = Some a -> nth_error levels (S i) = Some b ->
    (max_triangles b <= max_triangles a)%Z.

(** Zero, or a power of two. *)
Definition zero_or_power_of_two (size : Z) : Prop :=
  size = 0%Z \/ exists k, (0 <= k)%Z /\ size = (2 ^ k)%Z.

End GameAssetConfig.

(* ================================================================== *)
(** * orchestrator.py and vision_evaluator.py: the D5 workflow          *)
(* ================================================================== *)

Module Workflow.
Import PyStr PyStrMore PyVal VisionUtils Orchestrator ModernModelsRest.

(** ** The extraction that [design] and [refine] do inline

    [code_blocks = code_content.split("```python")[1:]] and
    [code_blocks[0].split("```")[0].strip()] when the tag is present,
    else [code_content] as it is. *)
Definition python_block (code_content : string) : result string :=
  if contains python_tag code_content then
    bind (list_index (tl (split python_tag code_content)) 0) (fun block =>
    bind (list_index (split fence block) 0) (fun code =>
    Ok (strip code)))
  else Ok code_content.

(** Inputs on which the inline extraction and
    [extract_code_from_response] differ. *)
Definition empty_tagged_block : string := "```python```".
Definition unclosed_tagged_block : string :=
  "Here: ```python" ++ nl ++ "import bpy".
Definition untagged_block : string :=
  "```" ++ nl ++ "import bpy" ++ nl ++ "```".
Definition tag_inside_closing_fence : string := "```python1````python".

(** ** Reading the reply of the vision API ([analyze_scene]) *)

(** [ComparisonVisionClient._create_fallback_response] *)
Definition _create_fallback_response (error_msg : string) : jvalue :=
  JDict
    [("overall_score", JNumber (Finite (5 # 10)));
     ("is_satisfactory", JBool false);
     ("discrepancies", JList []);
     ("measurements",
      JDict [("length_accuracy", JNumber (Finite (5 # 10)));
             ("beam_accuracy", JNumber (Finite (5 # 10)));
             ("proportions_match", JNumber (Finite (5 # 10)))]);
     ("positive_aspects", JList []);
     ("issues",
      JList [JStr ("Vision model response parsing failed: " ++ error_msg)]);
     ("specific_suggestions", JList [JStr "Review vision model output format"]);
     ("error", JStr error_msg)].

(** [v[key]] for a text key. *)
Definition subscript (v : jvalue) (key : string) : Lookup :=
  match v with
  | JDict d =>
      match dict_lookup d key with
      | Some x => Found x
      | None => Missing (repr_str key)
      end
  | JList _ =>
      Failed (TypeError "list indices must be integers or slices, not str")
  | JStr _ => Failed (TypeError "string indices must be integers, not 'str'")
  | _ => Failed (TypeError ("'" ++ type_name v
                            ++ "' object is not subscriptable"))
  end.

(** [response["choices"][0]["message"]["content"]] *)
Definition read_content (response : jvalue) : Lookup :=
  lookup_bind (subscript response "choices") (fun choices =>
  lookup_bind (index0 choices) (fun choice =>
  lookup_bind (subscript choice "message") (fun message =>
  subscript message "content"))).

(** [x in v] for a list or a dict. *)
Definition member (x : string) (v : jvalue) : bool :=
  match v with
  | JList items =>
      existsb (fun item => match item with
                           | JStr s => String.eqb s x
                           | _ => false
                           end) items
  | JDict d => existsb (fun entry => String.eqb (fst entry) x) d
  | _ => false
  end.

(** The [str] method that [extract_json_from_content] reaches first on a
    list or a dict. *)
Definition missing_attribute (content : jvalue) : string :=
  if member json_tag content then "split"
  else if member "{" content && member "}" content then "find"
  else "strip".

(** How a call of [json.loads] ends: with a value, with a [ValueError]
    ([json.JSONDecodeError] is one), kept with its text, or with another
    exception, such as the [RecursionError] of a deeply nested text. *)
Inductive Loaded : Type :=
| Value (v : jvalue)
| Rejected (text : string)
| Escaped (e : PyExn).

(** [except (json.JSONDecodeError, KeyError, IndexError, ValueError)] *)
Definition caught_by_analysis (e : PyExn) : bool :=
  match e with
  | JSONDecodeError | KeyError _ | IndexError => true
  | _ => false
  end.

(** An exception under that [except] clause. *)
Definition under_except (e : PyExn) : result jvalue :=
  if caught_by_analysis e
  then Ok (_create_fallback_response (exn_text e))
  else Raise e.

Section ReadAnalysis.
(** [json.loads] *)
Variable json_loads : string -> Loaded.

(** [extract_json_from_content(content)], under the [except] clause of
    [analyze_scene].  The parser is handed over as one that always
    answers, its answer telling how the call of [json.loads] ended: a
    [ValueError] gives the fallback response, and so do a [KeyError] and
    an [IndexError]; anything else is passed on. *)
Definition analysis_of_content (content : jvalue) : result jvalue :=
  match content with
  | JStr s =>
      match extract_json_from_content Loaded
              (fun candidate => Some (json_loads candidate)) s with
      | Ok (Value analysis) => Ok analysis
      | Ok (Rejected text) => Ok (_create_fallback_response text)
      | Ok (Escaped e) => under_except e
      | Raise e => under_except e
      end
  | JList _ | JDict _ =>
      Raise (AttributeError ("'" ++ type_name content
                             ++ "' object has no attribute '"
                             ++ missing_attribute content ++ "'"))
  | _ => Raise (TypeError ("argument of type '" ++ type_name content
                           ++ "' is not iterable"))
  end.

(** The [try] block at the end of [analyze_scene]. *)
Definition read_analysis (response : jvalue) : result jvalue :=
  match read_content response with
  | Found content => analysis_of_content content
  | Missing text => Ok (_create_fallback_response text)
  | Failed e => under_except e
  end.

Section AnalyzeScene.
Variable World : Type.
(** The prompt of [analyze_scene] and the awaited [_call_vision_api]. *)
Variable call_vision_api :
  string -> string -> Z -> Z -> option jvalue -> World -> result jvalue * World.

(** [ComparisonVisionClient.analyze_scene] *)
Definition analyze_scene (screenshot_base64 user_intent : string)
  (iteration max_iterations : Z) (previous_feedback : option jvalue)
  (w : World) : result jvalue * World :=
  match call_vision_api screenshot_base64 user_intent iteration
          max_iterations previous_feedback w with
  | (Ok response, w') => (read_analysis response, w')
  | (Raise e, w') => (Raise e, w')
  end.

End AnalyzeScene.
End ReadAnalysis.

(** A parser double that rejects every text, and one that gives up on
    every text with a [RecursionError]. *)
Definition loads_nothing : string -> Loaded :=
  fun _ => Rejected "Expecting value: line 1 column 1 (char 0)".

Definition too_deep : PyExn :=
  RuntimeError "maximum recursion depth exceeded while decoding a JSON array from a unicode string".

Definition loads_too_deep : string -> Loaded := fun _ => Escaped too_deep.

(** The text stored under a key of a dict, if there is one. *)
Definition dict_get_text (v : jvalue) (key : string) : option string :=
  match v with
  | JDict d =>
      match dict_lookup d key with
      | Some (JStr s) => Some s
      | _ => None
      end
  | _ => None
  end.

(** A reply without [choices], and one whose content is no JSON. *)
Definition reply_without_choices : jvalue :=
  JDict [("error", JStr "model not loaded")].

Definition reply_with_content (content : string) : jvalue :=
  JDict [("choices",
          JList [JDict [("message", JDict [("content", JStr content)])]])].

(** ** The state that the agents of [orchestrator.py] pass on

    [core] holds the fields of [WorkflowState] that the evaluator reads or
    writes.  [dependency_graph] and [conversation_history] are used by
    the planner only; [code_metadata] is written by the designer and read
    by nobody, and is not kept. *)
Record D5State : Type := {
  core : WorkflowState;
  subtasks : jvalue;
  blender_code : string;
  execution_result : list (string * jvalue);
  refinement_suggestions : jvalue
}.

Definition with_core (state : D5State) (c : WorkflowState) : D5State :=
  {| core := c; subtasks := subtasks state;
     blender_code := blender_code state;
     execution_result := execution_result state;
     refinement_suggestions := refinement_suggestions state |}.

Definition with_code (state : D5State) (code : string) : D5State :=
  {| core := core state; subtasks := subtasks state;
     blender_code := code;
     execution_result := execution_result state;
     refinement_suggestions := refinement_suggestions state |}.

Definition with_execution_result (state : D5State)
  (r : list (string * jvalue)) : D5State :=
  {| core := core state; subtasks := subtasks state;
     blender_code := blender_code state;
     execution_result := r;
     refinement_suggestions := refinement_suggestions state |}.

Definition with_suggestions (state : D5State) (v : jvalue) : D5State :=
  {| core := core state; subtasks := subtasks state;
     blender_code := blender_code state;
     execution_result := execution_result state;
     refinement_suggestions := v |}.

Definition set_current_iteration (state : WorkflowState) (i : Z)
  : WorkflowState :=
  {| user_intent := user_intent state;
     current_iteration := i;
     max_iterations := max_iterations state;
     satisfaction_threshold := satisfaction_threshold state;
     screenshot_base64 := screenshot_base64 state;
     quality_score := quality_score state;
     visual_feedback := visual_feedback state;
     is_satisfied := is_satisfied state;
     iteration_history := iteration_history state |}.

Definition set_screenshot (state : WorkflowState) (v : option string)
  : WorkflowState :=
  {| user_intent := user_intent state;
     current_iteration := current_iteration state;
     max_iterations := max_iterations state;
     satisfaction_threshold := satisfaction_threshold state;
     screenshot_base64 := v;
     quality_score := quality_score state;
     visual_feedback := visual_feedback state;
     is_satisfied := is_satisfied state;
     iteration_history := iteration_history state |}.

(** [state.iteration_history.append(entry)] *)
Definition append_history (state : WorkflowState) (entry : jvalue)
  : WorkflowState :=
  {| user_intent := user_intent state;
     current_iteration := current_iteration state;
     max_iterations := max_iterations state;
     satisfaction_threshold := satisfaction_threshold state;
     screenshot_base64 := screenshot_base64 state;
     quality_score := quality_score state;
     visual_feedback := visual_feedback state;
     is_satisfied := is_satisfied state;
     iteration_history := (iteration_history state ++ [entry])%list |}.

(** What the workflow asks of the outside, in order. *)
Inductive Asked : Type :=
| AskDesigner (iteration : Z)
| AskHost (code : string)
| AskScreenshot
| AskVision
| AskRefiner (iteration : Z).

Definition is_ask_designer (a : Asked) : bool :=
  match a with AskDesigner _ => true | _ => false end.
Definition is_ask_host (a : Asked) : bool :=
  match a with AskHost _ => true | _ => false end.
Definition is_ask_screenshot (a : Asked) : bool :=
  match a with AskScreenshot => true | _ => false end.
Definition is_ask_vision (a : Asked) : bool :=
  match a with AskVision => true | _ => false end.
Definition is_ask_refiner (a : Asked) : bool :=
  match a with AskRefiner _ => true | _ => false end.

Definition count_asked (p : Asked -> bool) (l : list Asked) : nat :=
  List.length (filter p l).

(** [v == text] *)
Definition is_text (v : jvalue) (text : string) : bool :=
  match v with
  | JStr s => String.eqb s text
  | _ => false
  end.

(** The [image_data] of a screenshot reply: a text, or [None] when the
    entry is missing or [None], as [get_viewport_screenshot] documents
    it. *)
Definition image_data_text (v : jvalue) : option string :=
  match v with
  | JStr s => Some s
  | _ => None
  end.

(** The reply carries a text under [image_data], or [None], or nothing. *)
Definition documented_screenshot (reply : list (string * jvalue)) : Prop :=
  match dict_get reply "image_data" JNone with
  | JStr _ | JNone => True
  | _ => False
  end.

(** The execution result stored by the [except] branch of [execute]. *)
Definition error_result (e : PyExn) : list (string * jvalue) :=
  [("status", JStr "error"); ("output", JStr EmptyString);
   ("errors", JList [JStr (exn_text e)])].

(** The entries that [run] appends to the history. *)
Definition failed_entry (iteration : Z) (errors : jvalue) : jvalue :=
  JDict [("iteration", JNumber (Int iteration));
         ("execution_failed", JBool true);
         ("errors", errors)].

Definition evaluated_entry (iteration : Z)
  (score issues suggestions satisfied : jvalue) : jvalue :=
  JDict [("iteration", JNumber (Int iteration));
         ("quality_score", score);
         ("issues", issues);
         ("suggestions", suggestions);
         ("is_satisfied", satisfied)].

Inductive Flow : Type :=
| Continue
| Break.

(** ** Operations of Python on decoded values *)

(** The characters of a text, each as a text. *)
Fixpoint chars (s : string) : list string :=
  match s with
  | EmptyString => []
  | String c s' => String c EmptyString :: chars s'
  end.

(** [iter(v)]: the items of a list, the keys of a dict, the characters
    of a text. *)
Definition py_iter (v : jvalue) : result (list jvalue) :=
  match v with
  | JList items => Ok items
  | JDict d => Ok (map (fun entry => JStr (fst entry)) d)
  | JStr s => Ok (map JStr (chars s))
  | _ => Raise (TypeError ("'" ++ type_name v ++ "' object is not iterable"))
  end.

(** [len(v)] *)
Definition py_len (v : jvalue) : result Z :=
  match v with
  | JList items => Ok (Z.of_nat (List.length items))
  | JDict d => Ok (Z.of_nat (List.length d))
  | JStr s => Ok (len s)
  | _ => Raise (TypeError ("object of type '" ++ type_name v
                           ++ "' has no len()"))
  end.

(** The texts of the items that [join] is given, from item [i] on. *)
Fixpoint str_items (i : nat) (items : list jvalue) : result (list string) :=
  match items with
  | [] => Ok []
  | JStr s :: rest =>
      bind (str_items (S i) rest) (fun texts => Ok (s :: texts))
  | item :: _ =>
      Raise (TypeError ("sequence item " ++ str_of_Z (Z.of_nat i)
                        ++ ": expected str instance, " ++ type_name item
                        ++ " found"))
  end.

(** [sep.join(v)] *)
Definition py_join (sep : string) (v : jvalue) : result string :=
  match py_iter v with
  | Raise _ => Raise (TypeError "can only join an iterable")
  | Ok items => bind (str_items 0 items) (fun texts => Ok (join sep texts))
  end.

(** [v[key]] outside a [try] block. *)
Definition getitem (v : jvalue) (key : string) : result jvalue :=
  match subscript v key with
  | Found x => Ok x
  | Missing text => Raise (KeyError text)
  | Failed e => Raise e
  end.

Section Agents.
Variable World : Type.

(** [self.system_prompt] and [self.gpu_mode], which the orchestrator
    hands to its agents. *)
Variable system_prompt : string.
Variable gpu_mode : string.
(** [format(value, format_spec)], the builtin behind a replacement field
    of an f-string; the specification of a plain field is empty. *)
Variable py_format : jvalue -> string -> result string.
(** [print(text)] *)
Variable py_print : string -> World -> result unit * World.
(** The awaited [self.llm.ainvoke([system, user])] of the designer and of
    the refiner, given the contents of the two messages; the result is
    [response.content]. *)
Variable designer_ainvoke : string -> string -> World -> result string * World.
Variable refiner_ainvoke : string -> string -> World -> result string * World.
(** [self.mcp.execute_code(state.blender_code)] *)
Variable mcp_execute_code :
  string -> World -> result (list (string * jvalue)) * World.
(** [self.mcp.get_viewport_screenshot(max_size=1024)] *)
Variable mcp_get_viewport_screenshot :
  World -> result (list (string * jvalue)) * World.
(** [self.vision_client.analyze_scene(...)] *)
Variable vision_analyze_scene :
  string -> string -> Z -> Z -> option jvalue -> World -> result jvalue * World.

(** The world together with the log of what was asked of it. *)
Record Env : Type := {
  env_world : World;
  asked : list Asked
}.

Definition W (A : Type) : Type := Env -> result A * Env.

Definition wret {A : Type} (a : A) : W A := fun env => (Ok a, env).

Definition wbind {A B : Type} (m : W A) (k : A -> W B) : W B :=
  fun env =>
    match m env with
    | (Ok a, env') => k a env'
    | (Raise e, env') => (Raise e, env')
    end.

Definition wlift {A : Type} (r : result A) : W A := fun env => (r, env).

(** An awaited call, entered in the log. *)
Definition wask {A : Type} (a : Asked) (f : World -> result A * World)
  : W A :=
  fun env =>
    let (r, w) := f (env_world env) in
    (r, {| env_world := w; asked := (asked env ++ [a])%list |}).

(** A plain replacement field [{v}]; a text stands for itself. *)
Definition plain (v : jvalue) : result string :=
  match v with
  | JStr s => Ok s
  | _ => py_format v EmptyString
  end.

(** [print(f"..")]: the text is built, which can raise, and then
    printed.  A [print] is no request, so the log stays as it is. *)
Definition wprint (text : result string) : W unit :=
  wbind (wlift text) (fun line env =>
    let (r, w) := py_print line (env_world env) in
    (r, {| env_world := w; asked := asked env |})).

(** The local variable [context] of [design]. *)
Definition design_context (state : D5State) : result string :=
  match last (map Some (iteration_history (core state))) None with
  | None => Ok EmptyString
  | Some last_iter =>
      bind (get last_iter "quality_score" (JNumber (Int 0))) (fun score =>
      bind (py_format score ".2f") (fun score_text =>
      bind (get last_iter "issues" (JList [])) (fun issues =>
      bind (py_join ", " issues) (fun issues_text =>
      bind (get last_iter "suggestions" (JList [])) (fun suggestions =>
      bind (py_join ", " suggestions) (fun suggestions_text =>
      Ok (nl ++ "Previous iteration feedback:" ++ nl
          ++ "- Quality score: " ++ score_text ++ nl
          ++ "- Issues: " ++ issues_text ++ nl
          ++ "- Suggestions: " ++ suggestions_text ++ nl)))))))
  end.

(** [[f"- {task['description']}" for task in ..]] *)
Fixpoint task_lines (tasks : list jvalue) : result (list string) :=
  match tasks with
  | [] => Ok []
  | task :: rest =>
      bind (getitem task "description") (fun description =>
      bind (plain description) (fun text =>
      bind (task_lines rest) (fun lines => Ok (("- " ++ text) :: lines))))
  end.

(** The local variable [prompt] of [design]. *)
Definition design_prompt (state : D5State) : result string :=
  bind (design_context state) (fun context =>
  bind (py_iter (subtasks state)) (fun tasks =>
  bind (task_lines tasks) (fun lines =>
  let task_descriptions := join nl lines in
  Ok ("Generate Blender Python code to accomplish the following:" ++ nl
      ++ nl
      ++ "User Intent: " ++ user_intent (core state) ++ nl
      ++ nl
      ++ "Tasks to implement:" ++ nl
      ++ task_descriptions ++ nl
      ++ nl
      ++ "GPU Mode: " ++ gpu_mode ++ nl
      ++ nl
      ++ context ++ nl
      ++ nl
      ++ "Requirements:" ++ nl
      ++ "1. Use the code templates from the system prompt" ++ nl
      ++ "2. Configure GPU settings for " ++ gpu_mode ++ nl
      ++ "3. Return JSON metadata for MCP communication" ++ nl
      ++ "4. Include error handling" ++ nl
      ++ "5. Optimize for vision-based evaluation (good camera angles, lighting)"
      ++ nl
      ++ nl
      ++ "Generate complete, executable Python code wrapped in ```python blocks."
      ++ nl)))).

(** [DesignerAgent.design]; the last step before the return is the
    [len(state.subtasks)] of the metadata. *)
Definition design (state : D5State) : W D5State :=
  wbind (wlift (design_prompt state)) (fun prompt =>
  wbind (wask (AskDesigner (current_iteration (core state)))
           (designer_ainvoke system_prompt prompt)) (fun code_content =>
  wbind (wlift (python_block code_content)) (fun code =>
  wbind (wlift (py_len (subtasks state))) (fun _ =>
  wret (with_code state code))))).

(** [ExecutorAgent.execute]; it catches every exception. *)
Definition execute (state : D5State) (env : Env) : D5State * Env :=
  match wask (AskHost (blender_code state))
          (mcp_execute_code (blender_code state)) env with
  | (Raise e, env1) => (with_execution_result state (error_result e), env1)
  | (Ok exec_result, env1) =>
      let state1 :=
        with_execution_result state
          [("status", dict_get exec_result "status" (JStr "unknown"));
           ("output", dict_get exec_result "output" (JStr EmptyString));
           ("errors", dict_get exec_result "errors" (JList []))] in
      if is_text (dict_get exec_result "status" JNone) "success" then
        match wask AskScreenshot mcp_get_viewport_screenshot env1 with
        | (Raise e, env2) =>
            (with_execution_result state1 (error_result e), env2)
        | (Ok screenshot_result, env2) =>
            (with_core state1
               (set_screenshot (core state1)
                  (image_data_text
                     (dict_get screenshot_result "image_data" JNone))),
             env2)
        end
      else (state1, env1)
  end.

(** [EvaluatorAgent.evaluate] on the state of the workflow, with its call
    to the vision client entered in the log. *)
Definition evaluate_logged (state : D5State) (env : Env) : D5State * Env :=
  let (c, env') :=
    evaluate Env
      (fun screenshot intent iteration limit previous =>
         wask AskVision
           (vision_analyze_scene screenshot intent iteration limit previous))
      (core state) env in
  (with_core state c, env').

(** [[f"- {item}" for item in ..]] *)
Fixpoint bullet_lines (items : list jvalue) : result (list string) :=
  match items with
  | [] => Ok []
  | item :: rest =>
      bind (plain item) (fun text =>
      bind (bullet_lines rest) (fun lines => Ok (("- " ++ text) :: lines)))
  end.

(** The local variable [prompt] of [refine]. *)
Definition refine_prompt (state : D5State) (issues suggestions : jvalue)
  : result string :=
  bind (py_format (quality_score (core state)) ".2f") (fun score_text =>
  bind (plain (JNumber (satisfaction_threshold (core state))))
    (fun threshold_text =>
  bind (py_iter issues) (fun issue_items =>
  bind (bullet_lines issue_items) (fun issue_lines =>
  bind (py_iter suggestions) (fun suggestion_items =>
  bind (bullet_lines suggestion_items) (fun suggestion_lines =>
  Ok ("The current Blender scene needs improvement." ++ nl
      ++ nl
      ++ "Original Goal: " ++ user_intent (core state) ++ nl
      ++ "Quality Score: " ++ score_text
      ++ " (threshold: " ++ threshold_text ++ ")" ++ nl
      ++ nl
      ++ "Issues Identified:" ++ nl
      ++ join nl issue_lines ++ nl
      ++ nl
      ++ "Specific Suggestions:" ++ nl
      ++ join nl suggestion_lines ++ nl
      ++ nl
      ++ "Generate Python code that applies ONLY these specific improvements."
      ++ nl
      ++ "Do NOT recreate the entire scene - just modify existing objects."
      ++ nl
      ++ nl
      ++ "Focus on:" ++ nl
      ++ "1. Adjusting lighting (energy, color, position)" ++ nl
      ++ "2. Moving camera (location, rotation)" ++ nl
      ++ "3. Tweaking materials (color, roughness, metallic)" ++ nl
      ++ "4. Small geometry adjustments" ++ nl
      ++ nl
      ++ "Provide concise, targeted code that fixes the issues." ++ nl))))))).

(** [RefinerAgent.refine] *)
Definition refine (state : D5State) : W D5State :=
  if truthy (is_satisfied (core state))
  then wret (with_suggestions state (JList []))
  else
    wbind (wlift (get (visual_feedback (core state)) "issues" (JList [])))
      (fun issues =>
    wbind (wlift (get (visual_feedback (core state)) "specific_suggestions"
                    (JList []))) (fun suggestions =>
    wbind (wlift (refine_prompt state issues suggestions)) (fun prompt =>
    wbind (wask (AskRefiner (current_iteration (core state)))
             (refiner_ainvoke system_prompt prompt)) (fun code_content =>
    wbind (wlift (python_block code_content)) (fun refinement_code =>
    wret (with_suggestions (with_code state refinement_code)
            suggestions)))))).

(** The body of the [for] loop of [ColossusD5Orchestrator.run]; the
    result tells whether the loop breaks. *)
Definition iteration_body (iteration : Z) (state : D5State)
  : W (D5State * Flow) :=
  let state := with_core state (set_current_iteration (core state) iteration) in
  wbind (wprint (Ok (nl ++ "=== Iteration " ++ str_of_Z (iteration + 1) ++ "/"
                     ++ str_of_Z (max_iterations (core state)) ++ " ===")))
    (fun _ =>
  wbind (wprint (Ok "[DESIGNER] Generating Blender code...")) (fun _ =>
  wbind (design state) (fun state =>
  wbind (wprint (Ok ("[DESIGNER] Code generated ("
                     ++ str_of_Z (len (blender_code state)) ++ " chars)")))
    (fun _ =>
  wbind (wprint (Ok "[EXECUTOR] Running code in Blender...")) (fun _ =>
  fun env =>
    let (state, env) := execute state env in
    if negb (is_text (dict_get (execution_result state) "status" JNone)
               "success")
    then
      wbind (wprint
               (bind (plain (dict_get (execution_result state) "errors" JNone))
                  (fun errors => Ok ("[EXECUTOR] Execution failed: " ++ errors))))
        (fun _ =>
      wret (with_core state
              (append_history (core state)
                 (failed_entry iteration
                    (dict_get (execution_result state) "errors" (JList [])))),
            Continue)) env
    else
      wbind (wprint (Ok "[EXECUTOR] Execution succeeded, screenshot captured"))
        (fun _ =>
      wbind (wprint (Ok "[EVALUATOR] Analyzing screenshot...")) (fun _ =>
      fun env =>
        let (state, env) := evaluate_logged state env in
        wbind (wprint
                 (bind (py_format (quality_score (core state)) ".2%")
                    (fun score => Ok ("[EVALUATOR] Quality score: " ++ score))))
          (fun _ =>
        wbind (wlift (get (visual_feedback (core state)) "issues" (JList [])))
          (fun issues =>
        wbind (wlift (get (visual_feedback (core state))
                        "specific_suggestions" (JList []))) (fun suggestions =>
        let state :=
          with_core state
            (append_history (core state)
               (evaluated_entry iteration (quality_score (core state)) issues
                  suggestions (is_satisfied (core state)))) in
        if truthy (is_satisfied (core state))
        then
          wbind (wprint (Ok "[ORCHESTRATOR] Quality threshold met! Stopping."))
            (fun _ => wret (state, Break))
        else if (iteration <? max_iterations (core state) - 1)%Z
        then
          wbind (wprint (Ok "[REFINER] Generating improvements...")) (fun _ =>
          wbind (refine state) (fun state =>
          wbind (wprint
                   (bind (py_len (refinement_suggestions state)) (fun count =>
                    Ok ("[REFINER] " ++ str_of_Z count
                        ++ " suggestions applied")))) (fun _ =>
          wret (state, Continue))))
        else wret (state, Continue)))) env)) env))))).

(** [for iteration in range(..): body] with its [break]. *)
Fixpoint iterate (ts : list Z) (state : D5State) : W D5State :=
  match ts with
  | [] => wret state
  | t :: ts' =>
      wbind (iteration_body t state) (fun outcome =>
      match snd outcome with
      | Break => wret (fst outcome)
      | Continue => iterate ts' (fst outcome)
      end)
  end.

(** [ColossusD5Orchestrator.run] from the [for] loop on, that is after
    the planner has returned: the loop and the final summary. *)
Definition run_iterations (state : D5State) : W D5State :=
  wbind (iterate (Agent.range (max_iterations (core state))) state)
    (fun state =>
  wbind (wprint (Ok (nl ++ "=== Workflow Complete ==="))) (fun _ =>
  wbind (wprint (bind (py_format (quality_score (core state)) ".1%")
                   (fun score => Ok ("Final Quality: " ++ score)))) (fun _ =>
  wbind (wprint (Ok ("Iterations Used: "
                     ++ str_of_Z (current_iteration (core state) + 1) ++ "/"
                     ++ str_of_Z (max_iterations (core state))))) (fun _ =>
  wbind (wprint (bind (plain (is_satisfied (core state)))
                   (fun satisfied => Ok ("Satisfied: " ++ satisfied))))
    (fun _ =>
  wret state))))).

End Agents.

Arguments env_world {World} _.
Arguments asked {World} _.

(** ** Test doubles for the workflow *)

Definition initial_state (threshold : number) (limit : Z) : D5State :=
  {| core :=
       {| user_intent := "a red cube on a plane";
          current_iteration := 0;
          max_iterations := limit;
          satisfaction_threshold := threshold;
          screenshot_base64 := None;
          quality_score := JNumber (Finite 0);
          visual_feedback := JDict [];
          is_satisfied := JBool false;
          iteration_history := [] |};
     subtasks :=
       JList [JDict [("id", JStr "task_1");
                     ("description", JStr "a red cube on a plane");
                     ("dependencies", JList [])]];
     blender_code := EmptyString;
     execution_result := [];
     refinement_suggestions := JList [] |}.

Definition llm_double : string -> string -> unit -> result string * unit :=
  fun _ _ w =>
    (Ok ("Here is the code:" ++ nl ++ "```python" ++ nl ++ "import bpy"
         ++ nl ++ "```"), w).

(** A formatter that answers every request with the same text. *)
Definition format_double : jvalue -> string -> result string :=
  fun _ _ => Ok "0.40".

(** A standard output that takes every line. *)
Definition print_double : string -> unit -> result unit * unit :=
  fun _ w => (Ok tt, w).

(** A formatter that cannot turn a number into a float. *)
Definition format_overflow : jvalue -> string -> result string :=
  fun v _ =>
    match v with
    | JNumber _ => Raise (ExternalError "int too large to convert to float")
    | _ => Ok "[]"
    end.

Definition host_double : string -> unit -> result (list (string * jvalue)) * unit :=
  fun _ w => (Ok [("status", JStr "success"); ("output", JStr "ok")], w).

Definition failing_host_double
  : string -> unit -> result (list (string * jvalue)) * unit :=
  fun _ w => (Ok [("status", JStr "error"); ("errors", JList [JStr "boom"])], w).

Definition screenshot_double
  : unit -> result (list (string * jvalue)) * unit :=
  fun w => (Ok [("status", JStr "success"); ("image_data", JStr "aGVsbG8=")], w).

(** A vision client that scores 0.40 and flags nothing. *)
Definition vision_double
  : string -> string -> Z -> Z -> option jvalue -> unit
    -> result jvalue * unit :=
  fun _ _ _ _ _ w =>
    (Ok (JDict [("overall_score", JNumber (Finite (40 # 100)));
                ("is_satisfactory", JBool false);
                ("issues", JList [JStr "too dark"]);
                ("specific_suggestions", JList [JStr "add a light"])]), w).

Definition fresh_env : Env unit := {| env_world := tt; asked := [] |}.

End Workflow.

(* ================================================================== *)
(** * mcp_client.py: the client of the Blender host                    *)
(* ================================================================== *)

Module McpClient.
Import PyStr PyVal VisionUtils Agent.

Inductive ConnectionMode : Type := SOCKET | MCP_TOOLS.

(** The fields of [BlenderMCPClient] that its methods test.  The socket
    object itself belongs to the world. *)
Record BlenderMCPClient : Type := {
  connection_mode : ConnectionMode;
  has_tool_caller : bool;
  _connected : bool
}.

Definition set_connected (self : BlenderMCPClient) (b : bool)
  : BlenderMCPClient :=
  {| connection_mode := connection_mode self;
     has_tool_caller := has_tool_caller self;
     _connected := b |}.

(** What goes over the wire, in order. *)
Inductive Wire : Type :=
| WireConnect
| WireSend (message : string)
| WireReceive
| WireTool (tool_name : string) (code : option string).

Definition is_wire_connect (x : Wire) : bool :=
  match x with WireConnect => true | _ => false end.

Definition is_wire_receive (x : Wire) : bool :=
  match x with WireReceive => true | _ => false end.

(** The reply built by the [except] branches. *)
Definition error_entries (text : string) : dict :=
  [("status", VStr "error"); ("output", VStr EmptyString);
   ("errors", VList [VStr text]); ("result", VNone)].

Definition error_reply (e : PyExn) : value := VDict (error_entries (exn_text e)).

Definition no_tool_caller : string := "No MCP tool caller configured".

(** [type(v).__name__] *)
Definition value_type_name (v : value) : string :=
  match v with
  | VNone => "NoneType"
  | VBool _ => "bool"
  | VInt _ => "int"
  | VFloat _ => "float"
  | VStr _ => "str"
  | VList _ => "list"
  | VDict _ => "dict"
  end.

(** What [MCPToolCaller.call_tool] raises. *)
Definition not_implemented : PyExn :=
  RuntimeError "Implement based on your LLM client".

Section Client.
Variable World : Type.

(** [socket.socket(..)], [settimeout] and the awaited [connect] *)
Variable socket_connect : World -> result unit * World.
(** the awaited [self.socket.sendall(message)] *)
Variable socket_sendall : string -> World -> result unit * World.
(** [self.socket.recv(buffer_size)] *)
Variable socket_recv : World -> result string * World.
(** [data.decode('utf-8')] *)
Variable decode : string -> result string.
(** [json.dumps({"command": "execute", "code": code})] *)
Variable json_dumps_message : option string -> string.
(** [json.loads] *)
Variable json_loads : string -> result value.
(** [self.mcp_tool_caller.call_tool(tool_name, {"code": code})] *)
Variable call_tool : string -> option string -> World -> result value * World.

(** The world together with the log of the wire. *)
Record Net : Type := {
  net_world : World;
  wire : list Wire
}.

Definition over_wire {A : Type} (x : Wire) (f : World -> result A * World)
  (net : Net) : result A * Net :=
  let (r, w) := f (net_world net) in
  (r, {| net_world := w; wire := (wire net ++ [x])%list |}).

(** [_connect_socket]; it catches every exception.  Its two [print]
    calls, of the address and of the text of the exception, are left
    out. *)
Definition _connect_socket (self : BlenderMCPClient) (net : Net)
  : bool * BlenderMCPClient * Net :=
  match over_wire WireConnect socket_connect net with
  | (Ok _, net') => (true, set_connected self true, net')
  | (Raise _, net') => (false, set_connected self false, net')
  end.

(** [connect] *)
Definition connect (self : BlenderMCPClient) (net : Net)
  : bool * BlenderMCPClient * Net :=
  match connection_mode self with
  | SOCKET => _connect_socket self net
  | MCP_TOOLS => (true, self, net)
  end.

(** The [while True] loop of [_recv_until_newline], with the number of
    chunks it may still read. *)
Fixpoint recv_loop (fuel : nat) (data : string) (net : Net)
  : option (result string * Net) :=
  match fuel with
  | O => None
  | S fuel' =>
      match over_wire WireReceive socket_recv net with
      | (Raise e, net') => Some (Raise e, net')
      | (Ok chunk, net') =>
          match chunk with
          | EmptyString => Some (decode data, net')
          | _ =>
              let data := data ++ chunk in
              if contains nl data then Some (decode data, net')
              else recv_loop fuel' data net'
          end
      end
  end.

(** [_recv_until_newline] *)
Definition _recv_until_newline (fuel : nat) (net : Net)
  : option (result string * Net) :=
  recv_loop fuel EmptyString net.

(** The opening statement of [_execute_code_socket]:
    [if not self._connected: await self.connect()]. *)
Definition ensure_connected (self : BlenderMCPClient) (net : Net)
  : BlenderMCPClient * Net :=
  if _connected self then (self, net)
  else let '(_, self', net') := connect self net in (self', net').

(** [_execute_code_socket]; it catches every exception of the [try]
    block.  It returns when [_recv_until_newline] does, which is given
    the number of chunks it may read. *)
Definition _execute_code_socket (fuel : nat) (self : BlenderMCPClient)
  (code : option string) (net : Net)
  : option (value * BlenderMCPClient * Net) :=
  let (self, net) := ensure_connected self net in
  let message_json := json_dumps_message code ++ nl in
  match over_wire (WireSend message_json) (socket_sendall message_json) net with
  | (Raise e, net1) => Some (error_reply e, self, net1)
  | (Ok _, net1) =>
      match _recv_until_newline fuel net1 with
      | None => None
      | Some (Raise e, net2) => Some (error_reply e, self, net2)
      | Some (Ok response_data, net2) =>
          match json_loads response_data with
          | Raise e => Some (error_reply e, self, net2)
          | Ok response => Some (response, self, net2)
          end
      end
  end.

(** [_execute_code_mcp_tools] *)
Definition _execute_code_mcp_tools (self : BlenderMCPClient)
  (code : option string) (net : Net) : value * BlenderMCPClient * Net :=
  if negb (has_tool_caller self)
  then (VDict (error_entries no_tool_caller), self, net)
  else
    match over_wire (WireTool "blender_execute_code" code)
            (call_tool "blender_execute_code" code) net with
    | (Ok result, net') => (result, self, net')
    | (Raise e, net') => (error_reply e, self, net')
    end.

(** [BlenderMCPClient.execute_code] *)
Definition execute_code (fuel : nat) (self : BlenderMCPClient)
  (code : option string) (net : Net)
  : option (value * BlenderMCPClient * Net) :=
  match connection_mode self with
  | SOCKET => _execute_code_socket fuel self code net
  | MCP_TOOLS => Some (_execute_code_mcp_tools self code net)
  end.

(** [create_blender_client] *)
Definition create_blender_client (mode : string) (mcp_tool_caller : bool)
  (net : Net) : BlenderMCPClient * Net :=
  let client :=
    {| connection_mode := if String.eqb mode "socket" then SOCKET
                          else MCP_TOOLS;
       has_tool_caller := mcp_tool_caller;
       _connected := false |} in
  let '(_, client, net) := connect client net in
  (client, net).

(** [SkillLibrary.execute_code] on this client, as [run_loop] sees it:
    the world of the loop holds the client and the wire, and a reply that
    is no dict makes [exec_result.get] raise in the loop. *)
Definition host_of_client (fuel : nat) (code : option string)
  (w : BlenderMCPClient * Net)
  : option (result dict * (BlenderMCPClient * Net)) :=
  match execute_code fuel (fst w) code (snd w) with
  | None => None
  | Some (reply, self, net) =>
      Some (match reply with
            | VDict d => Ok d
            | _ => Raise (AttributeError ("'" ++ value_type_name reply
                                          ++ "' object has no attribute 'get'"))
            end, (self, net))
  end.

End Client.

Arguments net_world {World} _.
Arguments wire {World} _.

(** ** A peer given as the chunks it sends before it closes *)

Definition scripted_recv (chunks : list string)
  : result string * list string :=
  match chunks with
  | [] => (Ok EmptyString, [])
  | chunk :: rest => (Ok chunk, rest)
  end.

(** The bytes of a run of chunks. *)
Fixpoint concat_chunks (chunks : list string) : string :=
  match chunks with
  | [] => EmptyString
  | chunk :: rest => chunk ++ concat_chunks rest
  end.

(** A host that cannot be reached: connecting and sending both fail. *)
Definition refused : PyExn := ExternalError "[Errno 111] Connection refused".

Definition unreachable_connect : unit -> result unit * unit :=
  fun w => (Raise refused, w).

Definition unreachable_sendall : string -> unit -> result unit * unit :=
  fun _ w => (Raise (ExternalError "[Errno 32] Broken pipe"), w).

Definition idle_recv : unit -> result string * unit :=
  fun w => (Ok EmptyString, w).

(** A generator and a verifier that always answer, in any world. *)
Definition steady_generator {W : Type}
  : string -> Memory.VIGAMemory -> Z -> W
    -> result Memory.IterationContext * W :=
  fun _ _ t w =>
    (Ok (Memory.new_context t (Some "plan") (Some "import bpy")), w).

Definition steady_verifier {W : Type}
  : string -> Memory.IterationContext -> W -> result string * W :=
  fun _ _ w => (Ok "Move the cube up.", w).

Definition shipped_call_tool
  : string -> option string -> unit -> result value * unit :=
  fun _ _ w => (Raise not_implemented, w).

Definition socket_client : BlenderMCPClient :=
  {| connection_mode := SOCKET; has_tool_caller := false;
     _connected := false |}.

Definition quiet_net : Net unit := {| net_world := tt; wire := [] |}.

(** The client on the host that cannot be reached, as a host of the
    loop: it answers as the client does. *)
Definition unreachable_host (code : option string)
  (w : BlenderMCPClient * Net unit)
  : result dict * (BlenderMCPClient * Net unit) :=
  match host_of_client unit unreachable_connect unreachable_sendall idle_recv
          (fun data => Ok data) (fun _ => "{}")
          (fun _ => Raise JSONDecodeError) shipped_call_tool 0 code w with
  | Some out => out
  | None => (Raise (ExternalError "no reply"), w)
  end.

End McpClient.

(* ================================================================== *)
(** * gpu_config.py: render settings per graphics card                 *)
(* ================================================================== *)

Module GpuConfig.

Inductive GPUModel : Type := RTX_3090 | RTX_5090 | AUTO.

Definition GPUModel_eqb (a b : GPUModel) : bool :=
  match a, b with
  | RTX_3090, RTX_3090 | RTX_5090, RTX_5090 | AUTO, AUTO => true
  | _, _ => false
  end.

Record GPUSpecs : Type := {
  model : string;
  vram_gb : Z;
  cuda_cores : Z;
  tensor_cores : Z;
  memory_bandwidth_gbps : Z;
  max_tile_size : Z;
  recommended_samples : Z
}.

Definition GPU_SPECS : list (GPUModel * GPUSpecs) :=
  [(RTX_3090,
    {| model := "RTX 3090"; vram_gb := 24; cuda_cores := 10496;
       tensor_cores := 328; memory_bandwidth_gbps := 936;
       max_tile_size := 256; recommended_samples := 128 |});
   (RTX_5090,
    {| model := "RTX 5090"; vram_gb := 32; cuda_cores := 21760;
       tensor_cores := 680; memory_bandwidth_gbps := 1400;
       max_tile_size := 512; recommended_samples := 256 |})].

Record RenderSettings : Type := {
  device : string;
  compute_device_type : string;
  samples : Z;
  adaptive_sampling : bool;
  adaptive_threshold : Q;
  denoising : bool;
  tile_size : Z;
  tile_x : Z;
  tile_y : Z;
  use_gpu_memory_limit : bool;
  gpu_memory_limit_mb : Z;
  max_subdivisions : Z;
  use_simplify : bool;
  simplify_subdivision : Z;
  volume_bounces : Z;
  subsurface_samples : Z;
  resolution_x : Z;
  resolution_y : Z;
  resolution_percentage : Z
}.

(** [RenderSettings(..)] as the quality profiles call it: every field
    but the resolution is passed, which keeps its default. *)
Definition profile_settings (samples : Z) (adaptive_threshold : Q)
  (tile : Z) (gpu_memory_limit_mb max_subdivisions : Z) (use_simplify : bool)
  (simplify_subdivision volume_bounces subsurface_samples
   resolution_percentage : Z) : RenderSettings :=
  {| device := "GPU"; compute_device_type := "CUDA";
     samples := samples; adaptive_sampling := true;
     adaptive_threshold := adaptive_threshold; denoising := true;
     tile_size := tile; tile_x := tile; tile_y := tile;
     use_gpu_memory_limit := true;
     gpu_memory_limit_mb := gpu_memory_limit_mb;
     max_subdivisions := max_subdivisions; use_simplify := use_simplify;
     simplify_subdivision := simplify_subdivision;
     volume_bounces := volume_bounces;
     subsurface_samples := subsurface_samples;
     resolution_x := 1920; resolution_y := 1080;
     resolution_percentage := resolution_percentage |}.

(** [quality_profiles.get(quality, default)] *)
Fixpoint profiles_get (quality_profiles : list (string * RenderSettings))
  (quality : string) (default : RenderSettings) : RenderSettings :=
  match quality_profiles with
  | [] => default
  | (k, s) :: rest =>
      if String.eqb k quality then s else profiles_get rest quality default
  end.

(** [_get_3090_settings] *)
Definition _get_3090_settings (quality : string) : RenderSettings :=
  let production :=
    profile_settings 128 (1 # 100)%Q 256 20480 2 true 2 2 2 100 in
  let quality_profiles :=
    [("preview",
      profile_settings 64 (2 # 100)%Q 256 20480 1 true 1 1 1 50);
     ("production", production);
     ("final",
      profile_settings 256 (5 # 1000)%Q 256 20480 3 false 3 4 3 100)] in
  profiles_get quality_profiles quality production.

(** [_get_5090_settings] *)
Definition _get_5090_settings (quality : string) : RenderSettings :=
  let production :=
    profile_settings 256 (5 # 1000)%Q 512 28672 4 false 3 4 3 100 in
  let quality_profiles :=
    [("preview",
      profile_settings 128 (1 # 100)%Q 512 28672 2 true 2 2 2 75);
     ("production", production);
     ("final",
      profile_settings 512 (1 # 1000)%Q 512 28672 6 false 4 8 4 100)] in
  profiles_get quality_profiles quality production.

(** [_get_fallback_settings]: ten fields are passed, the others keep the
    defaults of the dataclass. *)
Definition _get_fallback_settings (quality : string) : RenderSettings :=
  {| device := "GPU"; compute_device_type := "CUDA";
     samples := 64; adaptive_sampling := true;
     adaptive_threshold := (2 # 100)%Q; denoising := true;
     tile_size := 128; tile_x := 128; tile_y := 128;
     use_gpu_memory_limit := true; gpu_memory_limit_mb := 20480;
     max_subdivisions := 1; use_simplify := true;
     simplify_subdivision := 2; volume_bounces := 2;
     subsurface_samples := 2;
     resolution_x := 1920; resolution_y := 1080;
     resolution_percentage := 100 |}.

Record GPUConfigurator : Type := {
  gpu_model : GPUModel;
  specs : GPUSpecs
}.

(** What building a configurator gives: the object, or the [KeyError]
    of [GPU_SPECS[gpu_model]]. *)
Inductive construction : Type :=
| Built (self : GPUConfigurator)
| KeyError (key : GPUModel).

Fixpoint specs_lookup (table : list (GPUModel * GPUSpecs)) (key : GPUModel)
  : option GPUSpecs :=
  match table with
  | [] => None
  | (k, s) :: rest => if GPUModel_eqb k key then Some s
                      else specs_lookup rest key
  end.

(** [GPUConfigurator.__init__] *)
Definition GPUConfigurator_init (gpu_model : GPUModel) : construction :=
  match specs_lookup GPU_SPECS gpu_model with
  | Some s => Built {| gpu_model := gpu_model; specs := s |}
  | None => KeyError gpu_model
  end.

(** [get_optimal_settings] *)
Definition get_optimal_settings (self : GPUConfigurator) (quality : string)
  : RenderSettings :=
  if GPUModel_eqb (gpu_model self) RTX_3090 then _get_3090_settings quality
  else if GPUModel_eqb (gpu_model self) RTX_5090
       then _get_5090_settings quality
       else _get_fallback_settings quality.

(** [model_map.get(gpu_model, GPUModel.RTX_3090)] *)
Fixpoint model_map_get (model_map : list (string * GPUModel))
  (key : string) (default : GPUModel) : GPUModel :=
  match model_map with
  | [] => default
  | (k, m) :: rest =>
      if String.eqb k key then m else model_map_get rest key default
  end.

(** [get_gpu_config] *)
Definition get_gpu_config (gpu_model : string) : construction :=
  let model_map := [("3090", RTX_3090); ("5090", RTX_5090)] in
  GPUConfigurator_init (model_map_get model_map gpu_model RTX_3090).

End GpuConfig.

(* ================================================================== *)
(** * Vocabulary for the traces of the loop and of the requests        *)
(* ================================================================== *)

Module Traces.
Import Memory Agent.

(** An image entry that the request builders keep. *)
Definition nonempty_text (s : string) : bool :=
  negb (String.eqb s EmptyString).

Definition is_generator_call (c : Call) : bool :=
  match c with
  | CallGenerator _ => true
  | _ => false
  end.

Definition is_host_call (c : Call) : bool :=
  match c with
  | CallHost _ => true
  | _ => false
  end.

Definition count_calls (p : Call -> bool) (cs : list Call) : nat :=
  List.length (filter p cs).

(** The record that an iteration stores: what the generator built, with
    the text of the host reply and the feedback filled in. *)
Definition stored_record (ctx : IterationContext) (text feedback : string)
  : IterationContext :=
  set_visual_feedback (set_execution_result ctx (Some text)) (Some feedback).

(** The memory that holds [records] after the history of [self]. *)
Definition memory_after (self : VIGAMemory) (records : list IterationContext)
  : VIGAMemory :=
  {| history := (history self ++ records)%list;
     window_size := window_size self;
     static_context := static_context self |}.

End Traces.

(* ================================================================== *)
(** * Facts about the [str] operations                                 *)
(* ================================================================== *)

Module PyStrFacts.
Import PyStr.

Lemma take_drop (n : nat) (s : string) : take n s ++ drop n s = s.
Proof.
  revert s; induction n as [|n IH]; intros [|c s]; simpl; try reflexivity.
  now rewrite IH.
Qed.

Lemma drop_empty (n : nat) : drop n "" = "".
Proof. now destruct n. Qed.

Lemma take_empty (n : nat) : take n "" = "".
Proof. now destruct n. Qed.

Lemma length_append (a b : string) :
  String.length (a ++ b) = (String.length a + String.length b)%nat.
Proof. induction a as [|c a IH]; simpl; [reflexivity | now rewrite IH]. Qed.

Lemma append_assoc (a b c : string) : (a ++ b) ++ c = a ++ (b ++ c).
Proof. induction a as [|x a IH]; simpl; [reflexivity | now rewrite IH]. Qed.

Lemma append_empty_r (a : string) : a ++ "" = a.
Proof. induction a as [|x a IH]; simpl; [reflexivity | now rewrite IH]. Qed.

Lemma length_drop (n : nat) (s : string) :
  String.length (drop n s) = (String.length s - n)%nat.
Proof.
  revert s; induction n as [|n IH]; intros [|c s]; simpl; try reflexivity.
  apply IH.
Qed.

Lemma length_take (n : nat) (s : string) :
  String.length (take n s) = Nat.min n (String.length s).
Proof.
  revert s; induction n as [|n IH]; intros [|c s]; simpl; try reflexivity.
  now rewrite IH.
Qed.

Lemma drop_drop (a b : nat) (s : string) : drop a (drop b s) = drop (b + a) s.
Proof.
  revert s; induction b as [|b IH]; intros s; simpl; [reflexivity|].
  destruct s as [|c s]; [apply drop_empty | apply IH].
Qed.

Lemma drop_app_length (a b : string) : drop (String.length a) (a ++ b) = b.
Proof. induction a as [|c a IH]; simpl; [now destruct b | exact IH]. Qed.

Lemma take_app_length (a b : string) : take (String.length a) (a ++ b) = a.
Proof.
  induction a as [|c a IH]; simpl; [now destruct b | now rewrite IH].
Qed.

Lemma drop_all (n : nat) (s : string) :
  (String.length s <= n)%nat -> drop n s = "".
Proof.
  revert s; induction n as [|n IH]; intros [|c s] H; simpl in *;
    try reflexivity; try lia.
  apply IH; lia.
Qed.

Lemma take_all (n : nat) (s : string) :
  (String.length s <= n)%nat -> take n s = s.
Proof.
  revert s; induction n as [|n IH]; intros [|c s] H; simpl in *;
    try reflexivity; try lia.
  rewrite IH; [reflexivity | lia].
Qed.

Lemma startswith_length (p s : string) :
  startswith p s = true -> (String.length p <= String.length s)%nat.
Proof.
  revert s; induction p as [|a p IH]; intros [|b s] H; simpl in *;
    try lia; try discriminate.
  apply andb_true_iff in H as [_ H]. apply IH in H. lia.
Qed.

Lemma startswith_app (p r : string) : startswith p (p ++ r) = true.
Proof.
  induction p as [|a p IH]; simpl; [reflexivity|].
  now rewrite Ascii.eqb_refl, IH.
Qed.

Lemma startswith_decompose (p s : string) :
  startswith p s = true -> s = p ++ drop (String.length p) s.
Proof.
  revert s; induction p as [|a p IH]; intros [|b s] H; simpl in *;
    try reflexivity; try discriminate.
  apply andb_true_iff in H as [Hab H].
  apply Ascii.eqb_eq in Hab; subst b. f_equal. now apply IH.
Qed.

Lemma occurs_at_0 (sub s : string) :
  occurs_at sub s 0 <-> startswith sub s = true.
Proof.
  unfold occurs_at. destruct s; simpl; split; intros; try tauto;
    split; try tauto; lia.
Qed.

Lemma occurs_at_S (sub : string) (c : ascii) (s : string) (i : nat) :
  occurs_at sub (String c s) (S i) <-> occurs_at sub s i.
Proof. unfold occurs_at; simpl. split; intros [H1 H2]; split; auto; lia. Qed.

Lemma find_first_Some (sub s : string) (i : nat) :
  find_first sub s = Some i -> first_at sub s i.
Proof.
  revert i; induction s as [|c s IH]; intros i H.
  - simpl in H. destruct (startswith sub "") eqn:E; [|discriminate].
    injection H as <-. split; [now apply occurs_at_0 | intros j Hj; lia].
  - cbn [find_first] in H. destruct (startswith sub (String c s)) eqn:E.
    + injection H as <-. split; [now apply occurs_at_0 | intros j Hj; lia].
    + destruct (find_first sub s) as [k|] eqn:F; [|discriminate].
      simpl in H. injection H as <-.
      destruct (IH k eq_refl) as [Hk Hlt]. split.
      * now apply occurs_at_S.
      * intros [|j] Hj Hocc.
        -- apply occurs_at_0 in Hocc. congruence.
        -- apply occurs_at_S in Hocc. apply (Hlt j); [lia | exact Hocc].
Qed.

Lemma find_first_None (sub s : string) :
  find_first sub s = None -> absent sub s.
Proof.
  induction s as [|c s IH]; intros H j Hocc.
  - simpl in H. destruct (startswith sub "") eqn:E; [discriminate|].
    destruct Hocc as [Hle Hs]. rewrite drop_empty in Hs. congruence.
  - cbn [find_first] in H. destruct (startswith sub (String c s)) eqn:E;
      [discriminate|].
    destruct (find_first sub s) as [k|] eqn:F; [discriminate|].
    destruct j as [|j].
    + apply occurs_at_0 in Hocc. congruence.
    + apply occurs_at_S in Hocc. exact (IH eq_refl j Hocc).
Qed.

Lemma first_at_unique (sub s : string) (i j : nat) :
  first_at sub s i -> first_at sub s j -> i = j.
Proof.
  intros [Hi Li] [Hj Lj].
  destruct (Nat.lt_trichotomy i j) as [H|[H|H]]; [|exact H|].
  - exfalso. exact (Lj i H Hi).
  - exfalso. exact (Li j H Hj).
Qed.

Lemma first_at_find_first (sub s : string) (i : nat) :
  first_at sub s i -> find_first sub s = Some i.
Proof.
  intros H. destruct (find_first sub s) as [k|] eqn:F.
  - f_equal. apply find_first_Some in F. exact (first_at_unique _ _ _ _ F H).
  - apply find_first_None in F. destruct H as [H _]. now apply F in H.
Qed.

Lemma absent_find_first (sub s : string) :
  absent sub s -> find_first sub s = None.
Proof.
  intros H. destruct (find_first sub s) as [k|] eqn:F; [|reflexivity].
  apply find_first_Some in F. destruct F as [F _]. now apply H in F.
Qed.

Lemma find_from_nat (sub s : string) (k : nat) :
  (k <= String.length s)%nat ->
  find_from sub s (Z.of_nat k) =
  match find_first sub (drop k s) with
  | Some j => Z.of_nat (k + j)
  | None => (-1)%Z
  end.
Proof.
  intros Hk. unfold find_from, len.
  destruct (Z.ltb_spec (Z.of_nat k) 0) as [H|_]; [lia|].
  destruct (Z.gtb_spec (Z.of_nat k) (Z.of_nat (String.length s))) as [H|_];
    [lia|].
  rewrite Nat2Z.id. destruct (find_first sub (drop k s)); [|reflexivity].
  now rewrite Nat2Z.inj_add.
Qed.

Lemma slice_nat (s : string) (a b : nat) :
  (a <= String.length s)%nat -> (b <= String.length s)%nat ->
  slice s (Z.of_nat a) (Z.of_nat b) = take (b - a) (drop a s).
Proof.
  intros Ha Hb. unfold slice, clamp, len.
  destruct (Z.ltb_spec (Z.of_nat a) 0) as [H|_]; [lia|].
  destruct (Z.ltb_spec (Z.of_nat b) 0) as [H|_]; [lia|].
  rewrite !Z.min_l by lia.
  replace (Z.to_nat (Z.of_nat b - Z.of_nat a)) with (b - a)%nat by lia.
  now rewrite Nat2Z.id.
Qed.

Lemma find_last_None (sub s : string) :
  find_last sub s = None -> absent sub s.
Proof.
  induction s as [|c s IH]; intros H j Hocc.
  - simpl in H. destruct (startswith sub "") eqn:E; [discriminate|].
    destruct Hocc as [Hle Hs]. rewrite drop_empty in Hs. congruence.
  - cbn [find_last] in H.
    destruct (find_last sub s) as [k|] eqn:F; [discriminate|].
    destruct (startswith sub (String c s)) eqn:E; [discriminate|].
    destruct j as [|j].
    + apply occurs_at_0 in Hocc. congruence.
    + apply occurs_at_S in Hocc. exact (IH eq_refl j Hocc).
Qed.

Lemma find_last_Some (sub s : string) (i : nat) :
  find_last sub s = Some i -> last_at sub s i.
Proof.
  revert i; induction s as [|c s IH]; intros i H.
  - simpl in H. destruct (startswith sub "") eqn:E; [|discriminate].
    injection H as <-. split; [now apply occurs_at_0|].
    intros j Hj [Hle _]. simpl in Hle. lia.
  - cbn [find_last] in H. destruct (find_last sub s) as [k|] eqn:F.
    + injection H as <-. destruct (IH k eq_refl) as [Hk Hgt]. split.
      * now apply occurs_at_S.
      * intros [|j] Hj Hocc; [lia|].
        apply occurs_at_S in Hocc. apply (Hgt j); [lia | exact Hocc].
    + destruct (startswith sub (String c s)) eqn:E; [|discriminate].
      injection H as <-. split; [now apply occurs_at_0|].
      intros [|j] Hj Hocc; [lia|].
      apply occurs_at_S in Hocc. exact (find_last_None _ _ F j Hocc).
Qed.

Lemma last_at_unique (sub s : string) (i j : nat) :
  last_at sub s i -> last_at sub s j -> i = j.
Proof.
  intros [Hi Li] [Hj Lj].
  destruct (Nat.lt_trichotomy i j) as [H|[H|H]]; [|exact H|].
  - exfalso. exact (Li j H Hj).
  - exfalso. exact (Lj i H Hi).
Qed.

Lemma last_at_find_last (sub s : string) (i : nat) :
  last_at sub s i -> find_last sub s = Some i.
Proof.
  intros H. destruct (find_last sub s) as [k|] eqn:F.
  - f_equal. apply find_last_Some in F. exact (last_at_unique _ _ _ _ F H).
  - apply find_last_None in F. destruct H as [H _]. now apply F in H.
Qed.

Lemma absent_find_last (sub s : string) :
  absent sub s -> find_last sub s = None.
Proof.
  intros H. destruct (find_last sub s) as [k|] eqn:F; [|reflexivity].
  apply find_last_Some in F. destruct F as [F _]. now apply H in F.
Qed.

Lemma cut_at_before_first (sep x y : string) :
  cut_at sep x y <-> y = before_first sep x.
Proof.
  unfold cut_at, before_first. split.
  - intros [(k & Hk & ->)|[Hn ->]].
    + now rewrite (first_at_find_first _ _ _ Hk).
    + now rewrite (absent_find_first _ _ Hn).
  - intros ->. destruct (find_first sep x) as [k|] eqn:F.
    + left. exists k. split; [now apply find_first_Some | reflexivity].
    + right. split; [now apply find_first_None | reflexivity].
Qed.

Lemma split_first (sep s : string) :
  nth_error (split sep s) 0 = Some (before_first sep s).
Proof.
  unfold split, before_first. simpl. now destruct (find_first sep s).
Qed.

Lemma split_second (c : ascii) (sep s : string) (i : nat) :
  find_first (String c sep) s = Some i ->
  nth_error (split (String c sep) s) 1
  = Some (before_first (String c sep)
            (drop (i + String.length (String c sep)) s)).
Proof.
  intros F. unfold split. cbn [split_fuel]. rewrite F. cbn [nth_error].
  set (rest := drop (i + String.length (String c sep)) s).
  destruct s as [|d s]; [discriminate F|].
  cbn [String.length split_fuel]. unfold before_first.
  now destruct (find_first (String c sep) rest).
Qed.

(** The fuel of [split] never runs out: any fuel above the length of the
    text gives the same pieces, so [split] obeys its recursive equation. *)
Lemma split_fuel_enough (c : ascii) (sep : string) :
  forall (f1 f2 : nat) (s : string),
    (String.length s < f1)%nat -> (String.length s < f2)%nat ->
    split_fuel f1 (String c sep) s = split_fuel f2 (String c sep) s.
Proof.
  induction f1 as [|f1 IH]; intros f2 s H1 H2; [lia|].
  destruct f2 as [|f2]; [lia|]. cbn [split_fuel].
  destruct (find_first (String c sep) s) as [i|] eqn:F; [|reflexivity].
  f_equal. destruct s as [|d s]; [discriminate F|].
  apply IH; rewrite length_drop; cbn [String.length] in *; lia.
Qed.

Lemma split_unfold (c : ascii) (sep s : string) :
  split (String c sep) s
  = match find_first (String c sep) s with
    | None => [s]
    | Some i =>
        take i s
        :: split (String c sep) (drop (i + String.length (String c sep)) s)
    end.
Proof.
  unfold split at 1. cbn [split_fuel].
  destruct (find_first (String c sep) s) as [i|] eqn:F; [|reflexivity].
  f_equal. destruct s as [|d s]; [discriminate F|].
  apply split_fuel_enough; rewrite ?length_drop; cbn [String.length]; lia.
Qed.

End PyStrFacts.

(* ================================================================== *)
(** * Facts about the response parser                                  *)
(* ================================================================== *)

Module VisionUtilsFacts.
Import PyStr PyStrFacts VisionUtils.

(** The guarded return shared by both branches of
    [extract_code_from_response], with [k] the index just after the
    opening marker. *)
Lemma guarded_block (s : string) (k : nat) :
  (k <= String.length s)%nat ->
  (if (find_from fence s (Z.of_nat k) >? Z.of_nat k)%Z
   then strip (slice s (Z.of_nat k) (find_from fence s (Z.of_nat k)))
   else strip s)
  = match find_first fence (drop k s) with
    | Some (S j) => strip (take (S j) (drop k s))
    | _ => strip s
    end.
Proof.
  intros Hk. rewrite (find_from_nat fence s k Hk).
  destruct (find_first fence (drop k s)) as [[|j]|] eqn:F.
  - rewrite Nat.add_0_r.
    destruct (Z.gtb_spec (Z.of_nat k) (Z.of_nat k)); [lia | reflexivity].
  - destruct (Z.gtb_spec (Z.of_nat (k + S j)) (Z.of_nat k)) as [_|H]; [|lia].
    apply find_first_Some in F. destruct F as [[Hj _] _].
    rewrite length_drop in Hj.
    rewrite slice_nat by lia.
    now replace (k + S j - k)%nat with (S j) by lia.
  - destruct (Z.gtb_spec (-1) (Z.of_nat k)); [lia | reflexivity].
Qed.

Lemma extract_code_eq (s : string) :
  extract_code_from_response s =
  match find_first python_tag s with
  | Some i =>
      match find_first fence (drop (i + String.length python_tag) s) with
      | Some (S j) => strip (take (S j) (drop (i + String.length python_tag) s))
      | _ => strip s
      end
  | None =>
      match find_first fence s with
      | Some i =>
          match find_first fence (drop (i + String.length fence) s) with
          | Some (S j) => strip (take (S j) (drop (i + String.length fence) s))
          | _ => strip s
          end
      | None => strip s
      end
  end.
Proof.
  unfold extract_code_from_response, contains, find.
  destruct (find_first python_tag s) as [i|] eqn:P.
  - apply find_first_Some in P. destruct P as [[Hi Hs] _].
    apply startswith_length in Hs. rewrite length_drop in Hs.
    change (String.length python_tag) with 9%nat in *.
    change (len python_tag) with (Z.of_nat 9).
    rewrite <- Nat2Z.inj_add. apply guarded_block. lia.
  - destruct (find_first fence s) as [i|] eqn:F; [|reflexivity].
    apply find_first_Some in F. destruct F as [[Hi Hs] _].
    apply startswith_length in Hs. rewrite length_drop in Hs.
    change (String.length fence) with 3%nat in *.
    change 3%Z with (Z.of_nat 3).
    rewrite <- Nat2Z.inj_add. apply guarded_block. lia.
Qed.

(** ** Stripping keeps a marker that has no blank at either end *)

Lemma lstrip_app_nonspace (a x : string) :
  starts_nonspace x -> lstrip (a ++ x) = lstrip a ++ x.
Proof.
  intros Hx. induction a as [|d a IH]; simpl.
  - destruct x as [|c x]; [contradiction|]. simpl in *. now rewrite Hx.
  - destruct (isspace d); [exact IH | reflexivity].
Qed.

Lemma rstrip_app_nonspace (x b : string) :
  ends_nonspace x -> rstrip (x ++ b) = x ++ rstrip b.
Proof.
  intros (y & c & -> & Hc). rewrite !append_assoc. simpl.
  induction y as [|d y IH]; simpl.
  - rewrite Hc. now destruct (rstrip b).
  - rewrite IH. now destruct y.
Qed.

Lemma starts_nonspace_app (x y : string) :
  starts_nonspace x -> starts_nonspace (x ++ y).
Proof. now destruct x. Qed.

Lemma ends_nonspace_app (a x : string) :
  ends_nonspace x -> ends_nonspace (a ++ x).
Proof.
  intros (y & c & -> & Hc). exists (a ++ y), c.
  now rewrite append_assoc.
Qed.

Lemma occurs_at_decompose (sub s : string) (i : nat) :
  occurs_at sub s i ->
  s = take i s ++ sub ++ drop (i + String.length sub) s.
Proof.
  intros [_ H]. apply startswith_decompose in H.
  rewrite drop_drop in H. rewrite <- H. symmetry. apply take_drop.
Qed.

Lemma occurs_contains (sub s : string) (i : nat) :
  occurs_at sub s i -> contains sub s = true.
Proof.
  intros H. unfold contains.
  destruct (find_first sub s) eqn:F; [reflexivity|].
  apply find_first_None in F. now apply F in H.
Qed.

Lemma strip_keeps_marker (sub s : string) (i : nat) :
  starts_nonspace sub -> ends_nonspace sub ->
  occurs_at sub s i -> contains sub (strip s) = true.
Proof.
  intros Hs He H. apply occurs_at_decompose in H.
  set (a := take i s) in *. set (b := drop (i + String.length sub) s) in *.
  rewrite H. unfold strip.
  rewrite lstrip_app_nonspace by now apply starts_nonspace_app.
  rewrite <- append_assoc.
  rewrite rstrip_app_nonspace by now apply ends_nonspace_app.
  apply (occurs_contains _ _ (String.length (lstrip a))).
  split.
  - rewrite !length_append. lia.
  - rewrite !append_assoc, drop_app_length. apply startswith_app.
Qed.

(** ** The candidate of [extract_json_from_content] *)

Lemma json_content_eq (s : string) :
  json_content s
  = Ok match find_first json_tag s with
       | Some i =>
           strip (before_first fence
                    (before_first json_tag
                       (drop (i + String.length json_tag) s)))
       | None =>
           match find_first "{" s, find_last "}" s with
           | Some i, Some j => take (S j - i) (drop i s)
           | _, _ => strip s
           end
       end.
Proof.
  unfold json_content, contains, find, rfind.
  destruct (find_first json_tag s) as [i|] eqn:T.
  - unfold list_index, json_tag in *.
    rewrite (split_second _ _ _ _ T). cbn [bind].
    now rewrite split_first.
  - destruct (find_first "{" s) as [i|] eqn:O; cbn [andb].
    + destruct (find_first "}" s) as [k|] eqn:C.
      * destruct (find_last "}" s) as [j|] eqn:L.
        -- apply find_first_Some in O. destruct O as [[Hi Hs] _].
           apply find_last_Some in L. destruct L as [[Hj Ht] _].
           apply startswith_length in Ht. rewrite length_drop in Ht.
           simpl in Ht.
           replace (Z.of_nat j + 1)%Z with (Z.of_nat (S j)) by lia.
           rewrite slice_nat by lia. reflexivity.
        -- apply find_last_None in L. apply find_first_Some in C.
           destruct C as [C _]. now apply L in C.
      * destruct (find_last "}" s) as [j|] eqn:L; [|reflexivity].
        apply find_first_None in C. apply find_last_Some in L.
        destruct L as [L _]. now apply C in L.
    + now destruct (find_last "}" s).
Qed.

Section ExtractJsonFacts.
Variable JSON : Type.
Variable json_loads : string -> option JSON.

(** C5 (amended).  For every input text the candidate handed to the parser
    is chosen in this order: (a) when the [```json] tag is present, the
    text after the first tag, cut before the next [```json] tag if there
    is one, then cut before the first fence if there is one, and stripped
    (so with a single tag it is the text up to the next fence, or up to the
    end of the input when the tag is never closed); else (b) when both
    braces occur, the span from the first [{] to the last [}], which is
    not brace-matched and is empty when the last [}] precedes the first
    [{]; else (c) the stripped whole text.  A candidate is always chosen,
    and the extraction fails with a parse error exactly when the candidate
    does not parse.  On [prefix {"a":1} {"b":2} suffix] the candidate is
    the outer span [{"a":1} {"b":2}]. *)
Theorem extract_json_candidate_order :
  (forall s : string, exists cand : string,
      json_content s = Ok cand
      /\ (forall v, extract_json_from_content JSON json_loads s = Ok v
                    <-> json_loads cand = Some v)
      /\ (extract_json_from_content JSON json_loads s = Raise JSONDecodeError
          <-> json_loads cand = None)
      /\ (forall i,
            first_at json_tag s i ->
            exists after_tag block,
              cut_at json_tag (drop (i + String.length json_tag) s) after_tag
              /\ cut_at fence after_tag block
              /\ cand = strip block)
      /\ (forall i block,
            first_at json_tag s i ->
            absent json_tag (drop (i + String.length json_tag) s) ->
            cut_at fence (drop (i + String.length json_tag) s) block ->
            cand = strip block)
      /\ (forall i j,
            absent json_tag s ->
            first_at "{" s i -> last_at "}" s j ->
            cand = take (S j - i) (drop i s))
      /\ (absent json_tag s ->
          absent "{" s \/ absent "}" s ->
          cand = strip s))
  /\ json_content two_json_objects = Ok two_json_objects_span.
Proof.
  split; [|vm_compute; reflexivity].
  intros s. unfold extract_json_from_content. rewrite json_content_eq.
  eexists. split; [reflexivity|]. cbn [bind].
  split; [|split; [|split; [|split; [|split]]]].
  - intros v. destruct (json_loads _); split; intros H;
      try discriminate; congruence.
  - destruct (json_loads _); split; intros H; try discriminate; reflexivity.
  - intros i Hi. rewrite (first_at_find_first _ _ _ Hi).
    eexists; eexists. split; [|split; [|reflexivity]];
      now apply cut_at_before_first.
  - intros i block Hi Hn Hb. rewrite (first_at_find_first _ _ _ Hi).
    apply cut_at_before_first in Hb. subst block.
    unfold before_first at 2. now rewrite (absent_find_first _ _ Hn).
  - intros i j Hn Hi Hj. rewrite (absent_find_first _ _ Hn).
    rewrite (first_at_find_first _ _ _ Hi).
    now rewrite (last_at_find_last _ _ _ Hj).
  - intros Hn [Ho|Hc]; rewrite (absent_find_first _ _ Hn).
    + now rewrite (absent_find_first _ _ Ho).
    + rewrite (absent_find_last _ _ Hc). now destruct (find_first "{" s).
Qed.

End ExtractJsonFacts.

(** Witness for C5: the two-object text, whose braces span indices 7..21. *)
Lemma extract_json_candidate_order_witness :
  absent json_tag two_json_objects
  /\ first_at "{" two_json_objects 7
  /\ last_at "}" two_json_objects 21
  /\ exists cand,
      json_content two_json_objects = Ok cand
      /\ cand = take (S 21 - 7) (drop 7 two_json_objects).
Proof.
  assert (Hn : absent json_tag two_json_objects)
    by (apply find_first_None; reflexivity).
  assert (Hi : first_at "{" two_json_objects 7)
    by (apply find_first_Some; reflexivity).
  assert (Hj : last_at "}" two_json_objects 21)
    by (apply find_last_Some; reflexivity).
  split; [exact Hn | split; [exact Hi | split; [exact Hj|]]].
  destruct (proj1 (extract_json_candidate_order Z loads_only_one)
              two_json_objects) as (cand & Hc & _ & _ & _ & _ & Hb & _).
  exists cand. split; [exact Hc | exact (Hb 7%nat 21%nat Hn Hi Hj)].
Defined.

(** C5 as stated fails: in [```json1````json] the first tagged block is
    closed and holds [1], which parses, yet the candidate is cut at the
    second tag, keeps a backtick, and the extraction fails. *)
Lemma extract_json_block_counterexample :
  ~ (forall (JSON : Type) (json_loads : string -> option JSON) s i j,
        first_at json_tag s i ->
        first_at fence (drop (i + String.length json_tag) s) j ->
        extract_json_from_content JSON json_loads s
        = match json_loads
                  (strip (take j (drop (i + String.length json_tag) s))) with
          | Some v => Ok v
          | None => Raise JSONDecodeError
          end).
Proof.
  intros H.
  specialize (H Z loads_only_one json_block_then_backtick_tag 0%nat 1%nat).
  assert (H1 : first_at json_tag json_block_then_backtick_tag 0)
    by (apply find_first_Some; reflexivity).
  assert (H2 : first_at fence
                 (drop (0 + String.length json_tag)
                    json_block_then_backtick_tag) 1)
    by (apply find_first_Some; reflexivity).
  specialize (H H1 H2). vm_compute in H. discriminate H.
Qed.

Lemma fence_marker_shape : starts_nonspace fence /\ ends_nonspace fence.
Proof. split; [reflexivity | now exists "``", "`"%char]. Qed.

Lemma python_tag_marker_shape :
  starts_nonspace python_tag /\ ends_nonspace python_tag.
Proof. split; [reflexivity | now exists "```pytho", "n"%char]. Qed.

(** ** The search order of [extract_code_from_response] *)

(** The five cases of the extraction, by where the markers occur. *)
Lemma extract_code_cases (s : string) :
  (forall i j,
      first_at python_tag s i ->
      first_at fence (drop (i + String.length python_tag) s) (S j) ->
      extract_code_from_response s
      = strip (take (S j) (drop (i + String.length python_tag) s)))
  /\ (forall i j,
        absent python_tag s ->
        first_at fence s i ->
        first_at fence (drop (i + String.length fence) s) (S j) ->
        extract_code_from_response s
        = strip (take (S j) (drop (i + String.length fence) s)))
  /\ (forall i,
        first_at python_tag s i ->
        absent fence (drop (i + String.length python_tag) s)
        \/ first_at fence (drop (i + String.length python_tag) s) 0 ->
        extract_code_from_response s = strip s)
  /\ (forall i,
        absent python_tag s ->
        first_at fence s i ->
        absent fence (drop (i + String.length fence) s)
        \/ first_at fence (drop (i + String.length fence) s) 0 ->
        extract_code_from_response s = strip s)
  /\ (absent fence s -> extract_code_from_response s = strip s).
Proof.
  rewrite extract_code_eq. repeat split.
  - intros i j Hi Hj.
    rewrite (first_at_find_first _ _ _ Hi).
    now rewrite (first_at_find_first _ _ _ Hj).
  - intros i j Hp Hi Hj.
    rewrite (absent_find_first _ _ Hp).
    rewrite (first_at_find_first _ _ _ Hi).
    now rewrite (first_at_find_first _ _ _ Hj).
  - intros i Hi [Hn|H0]; rewrite (first_at_find_first _ _ _ Hi).
    + now rewrite (absent_find_first _ _ Hn).
    + now rewrite (first_at_find_first _ _ _ H0).
  - intros i Hp Hi [Hn|H0]; rewrite (absent_find_first _ _ Hp);
      rewrite (first_at_find_first _ _ _ Hi).
    + now rewrite (absent_find_first _ _ Hn).
    + now rewrite (first_at_find_first _ _ _ H0).
  - intros Hn.
    assert (Hp : find_first python_tag s = None).
    { destruct (find_first python_tag s) as [i|] eqn:P; [|reflexivity].
      apply find_first_Some in P. destruct P as [[Hi Hs] _].
      exfalso. apply (Hn i). split; [exact Hi|].
      apply startswith_decompose in Hs. rewrite Hs. reflexivity. }
    rewrite Hp. now rewrite (absent_find_first _ _ Hn).
Qed.

(** C4 (amended).  For every input text: (a) when the text contains the
    [```python] tag and a further fence occurs later with at least one
    character between the end of the first tag and that fence, the
    stripped text between them is returned; (b) when the text contains no
    [```python] tag but a fence followed later by another fence with at
    least one character between them, the stripped text between the first
    two fences is returned; (c) in every other case (the opener is not
    closed, or the closing fence follows the opener immediately, or there
    is no fence at all) the stripped whole input is returned.  Only the
    first block is returned, whatever follows it: a text that starts with a
    [```python] block of non-empty body yields that body stripped, and the
    two-block example yields exactly [X]. *)
Theorem extract_code_search_order :
  (forall s : string,
      (forall i j,
          first_at python_tag s i ->
          first_at fence (drop (i + String.length python_tag) s) (S j) ->
          extract_code_from_response s
          = strip (take (S j) (drop (i + String.length python_tag) s)))
      /\ (forall i j,
            absent python_tag s ->
            first_at fence s i ->
            first_at fence (drop (i + String.length fence) s) (S j) ->
            extract_code_from_response s
            = strip (take (S j) (drop (i + String.length fence) s)))
      /\ (forall i,
            first_at python_tag s i ->
            absent fence (drop (i + String.length python_tag) s)
            \/ first_at fence (drop (i + String.length python_tag) s) 0 ->
            extract_code_from_response s = strip s)
      /\ (forall i,
            absent python_tag s ->
            first_at fence s i ->
            absent fence (drop (i + String.length fence) s)
            \/ first_at fence (drop (i + String.length fence) s) 0 ->
            extract_code_from_response s = strip s)
      /\ (absent fence s -> extract_code_from_response s = strip s))
  /\ (forall body rest : string,
        body <> "" ->
        first_at fence (body ++ fence ++ rest) (String.length body) ->
        extract_code_from_response (python_tag ++ body ++ fence ++ rest)
        = strip body)
  /\ extract_code_from_response two_python_blocks = "X".
Proof.
  pose proof extract_code_cases as G.
  split; [exact G | split].
  - intros body rest Hne Hb.
    destruct body as [|c body]; [congruence|].
    destruct (G (python_tag ++ String c body ++ fence ++ rest)) as [Ha _].
    assert (H0 : first_at python_tag
                   (python_tag ++ String c body ++ fence ++ rest) 0).
    { split; [|intros j Hj; lia]. apply occurs_at_0, startswith_app. }
    specialize (Ha 0%nat (String.length body) H0).
    change (0 + String.length python_tag)%nat
      with (String.length python_tag) in Ha.
    rewrite drop_app_length in Ha. rewrite (Ha Hb).
    change (S (String.length body)) with (String.length (String c body)).
    now rewrite take_app_length.
  - vm_compute. reflexivity.
Qed.

(** Witness for C4: a tagged block followed by a second one. *)
Lemma extract_code_search_order_witness :
  first_at python_tag two_python_blocks 0
  /\ first_at fence (drop (0 + String.length python_tag) two_python_blocks) 3
  /\ extract_code_from_response two_python_blocks
     = strip (take 3 (drop (0 + String.length python_tag) two_python_blocks)).
Proof.
  assert (H1 : first_at python_tag two_python_blocks 0)
    by (apply find_first_Some; reflexivity).
  assert (H2 : first_at fence
                 (drop (0 + String.length python_tag) two_python_blocks) 3)
    by (apply find_first_Some; reflexivity).
  split; [exact H1 | split; [exact H2|]].
  exact (proj1 (proj1 extract_code_search_order two_python_blocks) 0%nat 2%nat
           H1 H2).
Defined.

(** C4 as stated fails: [```python```] holds a tagged block whose content,
    between the tag and the next fence, is empty, yet the whole input is
    returned. *)
Lemma extract_code_empty_block_counterexample :
  ~ (forall s i j,
        first_at python_tag s i ->
        first_at fence (drop (i + String.length python_tag) s) j ->
        extract_code_from_response s
        = strip (take j (drop (i + String.length python_tag) s))).
Proof.
  intros H.
  specialize (H empty_python_block 0%nat 0%nat).
  assert (H1 : first_at python_tag empty_python_block 0)
    by (apply find_first_Some; reflexivity).
  assert (H2 : first_at fence
                 (drop (0 + String.length python_tag) empty_python_block) 0)
    by (apply find_first_Some; reflexivity).
  specialize (H H1 H2). vm_compute in H. discriminate H.
Qed.

(** C10 (amended).  When the opening marker that the extraction selects
    (the first [```python] tag if the text has one, otherwise the first
    fence) is followed by no further fence, the function returns the
    stripped whole input, and the marker is still part of what is
    returned. *)
Theorem extract_code_unclosed_fence (s : string) (i : nat) :
  (first_at python_tag s i ->
   absent fence (drop (i + String.length python_tag) s) ->
   extract_code_from_response s = strip s
   /\ contains python_tag (extract_code_from_response s) = true)
  /\ (absent python_tag s ->
      first_at fence s i ->
      absent fence (drop (i + String.length fence) s) ->
      extract_code_from_response s = strip s
      /\ contains fence (extract_code_from_response s) = true).
Proof.
  destruct (extract_code_cases s) as (_ & _ & Ha & Hb & _).
  split.
  - intros Hi Hn. rewrite (Ha i Hi (or_introl Hn)). split; [reflexivity|].
    destruct python_tag_marker_shape as [Hs He].
    exact (strip_keeps_marker _ _ _ Hs He (proj1 Hi)).
  - intros Hp Hi Hn. rewrite (Hb i Hp Hi (or_introl Hn)).
    split; [reflexivity|].
    destruct fence_marker_shape as [Hs He].
    exact (strip_keeps_marker _ _ _ Hs He (proj1 Hi)).
Qed.

(** Witness for C10: an indented, unclosed [```python] block. *)
Lemma extract_code_unclosed_fence_witness :
  first_at python_tag unclosed_python_block 2
  /\ absent fence (drop (2 + String.length python_tag) unclosed_python_block)
  /\ extract_code_from_response unclosed_python_block
     = strip unclosed_python_block
  /\ contains python_tag (extract_code_from_response unclosed_python_block)
     = true.
Proof.
  assert (H1 : first_at python_tag unclosed_python_block 2)
    by (apply find_first_Some; reflexivity).
  assert (H2 : absent fence
                 (drop (2 + String.length python_tag) unclosed_python_block))
    by (apply find_first_None; reflexivity).
  split; [exact H1 | split; [exact H2|]].
  exact (proj1 (extract_code_unclosed_fence unclosed_python_block 2) H1 H2).
Defined.

(** C10 as stated fails: in a closed [```python] block followed by a
    second tag that is never closed, the second tag is an opener with no
    fence after it, yet the first block is returned and not the whole
    input. *)
Lemma extract_code_later_opener_counterexample :
  ~ (forall s i,
        occurs_at python_tag s i ->
        absent fence (drop (i + String.length python_tag) s) ->
        extract_code_from_response s = strip s
        /\ contains python_tag (extract_code_from_response s) = true).
Proof.
  intros H.
  destruct (H closed_then_unclosed_block 16) as [H1 _].
  - split; [vm_compute; lia | vm_compute; reflexivity].
  - apply find_first_None. vm_compute. reflexivity.
  - vm_compute in H1. discriminate H1.
Qed.

End VisionUtilsFacts.

(* ================================================================== *)
(** * Facts about the context memory                                   *)
(* ================================================================== *)

Module MemoryFacts.
Import Memory.

Lemma add_iteration_history (ctx : IterationContext) (self : VIGAMemory) :
  history (snd (add_iteration ctx self)) = (history self ++ [ctx])%list.
Proof. reflexivity. Qed.

Lemma append_all_history (records : list IterationContext) :
  forall self,
    history (append_all self records) = (history self ++ records)%list
    /\ window_size (append_all self records) = window_size self
    /\ static_context (append_all self records) = static_context self.
Proof.
  unfold append_all.
  induction records as [|r records IH]; intros self; cbn [fold_left].
  - now rewrite app_nil_r.
  - destruct (IH (snd (add_iteration r self))) as (H1 & H2 & H3).
    rewrite H1, H2, H3. simpl. now rewrite <- app_assoc.
Qed.

(** C8 (amended).  Appending a record adds it at the end of the history and
    never fails: the record's sequence number is not looked at, and the
    window size and the static context are left as they were.  Appending a
    list of records one after the other therefore extends the history by
    that list, in order, whatever their sequence numbers. *)
Theorem add_iteration_appends_unchecked :
  (forall (ctx : IterationContext) (self : VIGAMemory),
      exists self',
        add_iteration ctx self = (Ok tt, self')
        /\ history self' = (history self ++ [ctx])%list
        /\ window_size self' = window_size self
        /\ static_context self' = static_context self)
  /\ (forall (records : list IterationContext) (self : VIGAMemory),
        history (append_all self records) = (history self ++ records)%list).
Proof.
  split.
  - intros ctx self. eexists. repeat split.
  - intros records self. apply append_all_history.
Qed.

(** C8 as stated fails: a record numbered 7 is appended to an empty memory
    without any error. *)
Lemma add_iteration_sequence_counterexample :
  ~ (forall ctx self,
        iteration_id ctx <> Z.of_nat (List.length (history self)) ->
        exists e, add_iteration ctx self = (Raise e, self)).
Proof.
  intros H.
  destruct (H (new_context 7 None None) (VIGAMemory_init 3)) as [e He].
  - simpl. lia.
  - discriminate He.
Qed.

Lemma context_window_eq (k : Z) (records : list IterationContext) :
  (0 < k)%Z ->
  get_context_window (append_all (VIGAMemory_init k) records)
  = (Ok (skipn (List.length records - Z.to_nat k) records),
     append_all (VIGAMemory_init k) records).
Proof.
  intros Hk.
  destruct (append_all_history records (VIGAMemory_init k)) as (Hh & Hw & _).
  simpl in Hh, Hw.
  unfold get_context_window, list_slice_from. rewrite Hh, Hw.
  do 3 f_equal. unfold PyStr.clamp.
  destruct (Z.ltb_spec (- k) 0); lia.
Qed.

(** C6.  For every window size [k] fixed at construction (a positive
    integer, as the data model has it) and every list of [n] appended
    records, the context window has length [min k n], it is the suffix of
    that length of the appended records in their insertion order, and
    computing it leaves the memory as it was. *)
Theorem context_window_is_last_records
  (k : Z) (records : list IterationContext) :
  (0 < k)%Z ->
  let self := append_all (VIGAMemory_init k) records in
  exists window older,
    get_context_window self = (Ok window, self)
    /\ records = (older ++ window)%list
    /\ Z.of_nat (List.length window)
       = Z.min k (Z.of_nat (List.length records)).
Proof.
  intros Hk self. subst self. rewrite (context_window_eq k records Hk).
  set (d := (List.length records - Z.to_nat k)%nat).
  exists (skipn d records), (firstn d records).
  split; [reflexivity | split].
  - symmetry. apply firstn_skipn.
  - rewrite length_skipn. subst d. lia.
Qed.

(** Witness for C6: window size 2 after five appended records. *)
Lemma context_window_is_last_records_witness :
  let records := records_with_codes 0 [None; None; None; None; None] in
  let self := append_all (VIGAMemory_init 2) records in
  exists window older,
    get_context_window self = (Ok window, self)
    /\ records = (older ++ window)%list
    /\ Z.of_nat (List.length window)
       = Z.min 2 (Z.of_nat (List.length records)).
Proof.
  apply (context_window_is_last_records 2). lia.
Defined.

(** Outside the data model: with window size 0 the slice [history[-0:]]
    is the whole history. *)
Lemma context_window_zero_is_whole_history
  (records : list IterationContext) :
  fst (get_context_window (append_all (VIGAMemory_init 0) records))
  = Ok records.
Proof.
  destruct (append_all_history records (VIGAMemory_init 0)) as (Hh & Hw & _).
  simpl in Hh, Hw.
  unfold get_context_window, list_slice_from. rewrite Hh, Hw.
  cbn [fst]. unfold PyStr.clamp. cbn [Z.opp Z.ltb Z.compare].
  replace (Z.to_nat (Z.min 0 (Z.of_nat (List.length records)))) with 0%nat
    by lia.
  reflexivity.
Qed.

(** ** The latest code artifact *)

Lemma first_code_skips (l1 l2 : list IterationContext) :
  (forall x, In x l1 -> no_code x) ->
  first_code (l1 ++ l2)%list = first_code l2.
Proof.
  induction l1 as [|x l1 IH]; intros H; simpl; [reflexivity|].
  assert (Hx : truthy_text (code x) = false).
  { destruct (H x (or_introl eq_refl)) as [E|E]; now rewrite E. }
  rewrite Hx. apply IH. intros y Hy. apply H. now right.
Qed.

Lemma first_code_found (older newer : list IterationContext)
  (r : IterationContext) (c : string) :
  code r = Some c -> c <> EmptyString ->
  (forall x, In x newer -> no_code x) ->
  first_code (rev (older ++ r :: newer)%list) = c.
Proof.
  intros Hc Hne Hnew.
  rewrite rev_app_distr. simpl. rewrite <- app_assoc.
  rewrite first_code_skips.
  - simpl. rewrite Hc. destruct c; [congruence | reflexivity].
  - intros x Hx. apply Hnew. now apply in_rev.
Qed.

(** C7.  The latest-code lookup returns the code artifact of the newest
    record that carries a non-empty one, whatever the window size and
    however far back that record lies (the window may consist of newer
    records only); it returns the empty text, and never raises, when no
    record carries a non-empty code artifact.  After appending the code
    artifacts [None, "a", None, "b", None] it returns ["b"]; after
    [None, None] it returns the empty text. *)
Theorem latest_code_scans_backward :
  (forall self older r newer c,
      history self = (older ++ r :: newer)%list ->
      code r = Some c -> c <> EmptyString ->
      (forall x, In x newer -> no_code x) ->
      get_latest_code self = (Ok c, self))
  /\ (forall self,
        (forall x, In x (history self) -> no_code x) ->
        get_latest_code self = (Ok EmptyString, self))
  /\ (forall self, exists c, get_latest_code self = (Ok c, self))
  /\ (forall (k : Z) older r newer c,
        (0 < k <= Z.of_nat (List.length newer))%Z ->
        code r = Some c -> c <> EmptyString ->
        (forall x, In x newer -> no_code x) ->
        let self := append_all (VIGAMemory_init k) (older ++ r :: newer) in
        fst (get_latest_code self) = Ok c
        /\ exists skipped window,
            fst (get_context_window self) = Ok window
            /\ newer = (skipped ++ window)%list)
  /\ (forall k : Z,
        fst (get_latest_code
               (append_all (VIGAMemory_init k)
                  (records_with_codes 0
                     [None; Some "a"; None; Some "b"; None])))
        = Ok "b")
  /\ (forall k : Z,
        fst (get_latest_code
               (append_all (VIGAMemory_init k)
                  (records_with_codes 0 [None; None])))
        = Ok EmptyString).
Proof.
  split; [|split; [|split; [|split; [|split]]]].
  - intros self older r newer c Hh Hc Hne Hnew.
    unfold get_latest_code. rewrite Hh.
    now rewrite (first_code_found older newer r c Hc Hne Hnew).
  - intros self H. unfold get_latest_code.
    rewrite <- (app_nil_r (rev (history self))).
    rewrite first_code_skips; [reflexivity|].
    intros x Hx. apply H. now apply in_rev.
  - intros self. eexists. reflexivity.
  - intros k older r newer c [Hk Hlen] Hc Hne Hnew self. split.
    + unfold get_latest_code. cbn [fst]. subst self.
      destruct (append_all_history (older ++ r :: newer)
                  (VIGAMemory_init k)) as (Hh & _).
      simpl in Hh. rewrite Hh.
      now rewrite (first_code_found older newer r c Hc Hne Hnew).
    + subst self. rewrite (context_window_eq k _ Hk). cbn [fst].
      set (d := (List.length newer - Z.to_nat k)%nat).
      exists (firstn d newer), (skipn d newer). split.
      * f_equal. rewrite length_app. cbn [List.length].
        replace (List.length older + S (List.length newer) - Z.to_nat k)%nat
          with (List.length older + S d)%nat by (subst d; lia).
        rewrite skipn_app, skipn_all2 by lia.
        replace (List.length older + S d - List.length older)%nat
          with (S d) by lia.
        reflexivity.
      * symmetry. apply firstn_skipn.
  - intros k. reflexivity.
  - intros k. reflexivity.
Qed.

(** Witness for C7: the code ["a"] lies two records behind a window of
    size 1. *)
Lemma latest_code_scans_backward_witness :
  let older := records_with_codes 0 [None] in
  let r := new_context 1 None (Some "a") in
  let newer := records_with_codes 2 [None; Some EmptyString] in
  let self := append_all (VIGAMemory_init 1) (older ++ r :: newer) in
  fst (get_latest_code self) = Ok "a"
  /\ exists skipped window,
      fst (get_context_window self) = Ok window
      /\ newer = (skipped ++ window)%list.
Proof.
  intros older r newer.
  apply (proj1 (proj2 (proj2 (proj2 latest_code_scans_backward)))
           1%Z older r newer "a").
  - simpl. lia.
  - reflexivity.
  - discriminate.
  - intros x [<-|[<-|[]]]; [left | right]; reflexivity.
Defined.

End MemoryFacts.

(* ================================================================== *)
(** * Facts about the VIGA loop                                        *)
(* ================================================================== *)

Module AgentFacts.
Import PyStr Memory PyVal Agent.

Ltac unfold_loop :=
  unfold iteration, mbind, call, on_memory, get_memory, ret;
  cbv beta iota; cbn [memory world calls].

Section RunLoopFacts.
Variable World : Type.
Variable generate_step : string -> VIGAMemory -> Z -> external World IterationContext.
Variable execute_code : option string -> external World dict.
Variable verify_step : string -> IterationContext -> external World string.

Local Abbreviation iteration :=
  (iteration World generate_step execute_code verify_step).
Local Abbreviation for_each := (for_each World).
Local Abbreviation run_loop :=
  (run_loop World generate_step execute_code verify_step).

Lemma repr_dict_nonempty (d : dict) : repr (VDict d) <> EmptyString.
Proof. discriminate. Qed.

(** An iteration in which the host reports an error. *)
Lemma iteration_host_error (task : string) (t : Z) (st : AgentState World)
  (ctx : IterationContext) (w1 w2 : World) (r : dict) :
  generate_step task (memory st) t (world st) = (Ok ctx, w1) ->
  execute_code (code ctx) w1 = (Ok r, w2) ->
  status_is_error r = true ->
  let rec :=
    set_visual_feedback (set_execution_result ctx (Some (repr (VDict r))))
      (Some (execution_error_text r)) in
  iteration task t st
  = (Ok (carries_sentinel rec),
     {| memory := snd (add_iteration rec (memory st));
        world := w2;
        calls := (calls st ++ [CallGenerator t; CallHost (code ctx)])%list |}).
Proof.
  intros Hg Hh Hs rec. unfold_loop.
  rewrite Hg. cbn [memory world calls]. rewrite Hh. rewrite Hs.
  cbn [memory world calls add_iteration]. now rewrite <- app_assoc.
Qed.




Lemma range_length (n : nat) : List.length (range (Z.of_nat n)) = n.
Proof. unfold range. now rewrite length_map, length_seq, Nat2Z.id. Qed.

(** The state in which the [for] loop of [run_loop] starts. *)
Lemma run_loop_unfold (task : string) (n : Z) (st0 : AgentState World) :
  exists st0',
    history (memory st0') = history (memory st0)
    /\ calls st0' = calls st0
    /\ run_loop task n st0
       = match for_each (range n) (iteration task) st0' with
         | (Ok _, st') => (Ok (memory st'), st')
         | (Raise e, st') => (Raise e, st')
         end.
Proof.
  eexists. split; [|split]; [| |reflexivity]; reflexivity.
Qed.



(** A loop over [ts] whose host fails every time, with error texts that
    do not carry the sentinel. *)
Lemma for_each_host_always_fails (task : string) :
  (forall task mem t w, exists ctx w',
        generate_step task mem t w = (Ok ctx, w')) ->
  (forall code w, exists r w',
        execute_code code w = (Ok r, w')
        /\ status_is_error r = true
        /\ contains sentinel (execution_error_text r) = false) ->
  forall (ts : list Z) (st : AgentState World),
  exists st' new cs,
    for_each ts (iteration task) st = (Ok tt, st')
    /\ history (memory st') = (history (memory st) ++ new)%list
    /\ List.length new = List.length ts
    /\ (forall c, In c new -> recorded_failure c)
    /\ calls st' = (calls st ++ cs)%list
    /\ (forall c, In c cs -> is_verifier_call c = false).
Proof.
  intros Hgen Hhost. induction ts as [|t ts IH]; intros st.
  - exists st, [], []. rewrite !app_nil_r.
    split; [reflexivity|]. split; [reflexivity|]. split; [reflexivity|].
    split; [intros x []|]. split; [reflexivity | intros x []].
  - destruct (Hgen task (memory st) t (world st)) as (ctx & w1 & Hg).
    destruct (Hhost (code ctx) w1) as (r & w2 & Hh & Hs & Hno).
    pose proof (iteration_host_error task t st ctx w1 w2 r Hg Hh Hs) as E.
    cbv zeta in E.
    set (rec := set_visual_feedback
                  (set_execution_result ctx (Some (repr (VDict r))))
                  (Some (execution_error_text r))) in *.
    assert (Hc : carries_sentinel rec = false) by exact Hno.
    rewrite Hc in E.
    match type of E with _ = (_, ?s) => destruct (IH s)
      as (st' & new & cs & F & Hn & Hlen & Hall & Hcs & Hver) end.
    exists st', (rec :: new), (CallGenerator t :: CallHost (code ctx) :: cs).
    cbn [Agent.for_each]. unfold mbind. rewrite E.
    split; [exact F|]. cbn [memory calls add_iteration snd history] in Hn, Hcs.
    split; [rewrite Hn; now rewrite <- app_assoc|].
    split; [cbn; now rewrite Hlen|].
    split; [|split].
    + intros x [<-|Hx]; [|now apply Hall]. split.
      * exists (repr (VDict r)). split; [reflexivity | discriminate].
      * exists r. split; [exact Hs | reflexivity].
    + rewrite Hcs. now rewrite <- app_assoc.
    + intros x [<-|[<-|Hx]]; try reflexivity. now apply Hver.
Qed.

(** C2 (amended).  Whenever the host reports a failure (status [error]) for
    an iteration, the verifier is not called in that iteration, the
    failure is recorded on the iteration record (a non-empty execution
    result and the error text as feedback), the record is appended to
    memory, and the iteration ends normally.  With a generator that never
    raises and a host that always fails with error texts that do not carry
    the sentinel, the loop runs all [max_iterations] iterations, every
    appended record has a non-empty execution result and the host's error
    text as feedback, and the verifier is never called. *)
Theorem host_failure_is_absorbed :
  (forall (task : string) (t : Z) (st : AgentState World)
          (ctx : IterationContext) (w1 w2 : World) (reply : dict),
      generate_step task (memory st) t (world st) = (Ok ctx, w1) ->
      execute_code (code ctx) w1 = (Ok reply, w2) ->
      status_is_error reply = true ->
      exists rec,
        iteration task t st
        = (Ok (carries_sentinel rec),
           {| memory := snd (add_iteration rec (memory st));
              world := w2;
              calls := (calls st
                        ++ [CallGenerator t; CallHost (code ctx)])%list |})
        /\ rec = set_visual_feedback
                   (set_execution_result ctx (Some (repr (VDict reply))))
                   (Some (execution_error_text reply))
        /\ recorded_failure rec)
  /\ (forall (task : string) (max_iterations : nat) (st0 : AgentState World),
        (forall task mem t w, exists ctx w',
              generate_step task mem t w = (Ok ctx, w')) ->
        (forall code w, exists reply w',
              execute_code code w = (Ok reply, w')
              /\ status_is_error reply = true
              /\ contains sentinel (execution_error_text reply) = false) ->
        exists st' new cs,
          run_loop task (Z.of_nat max_iterations) st0 = (Ok (memory st'), st')
          /\ history (memory st') = (history (memory st0) ++ new)%list
          /\ List.length new = max_iterations
          /\ (forall c, In c new -> recorded_failure c)
          /\ calls st' = (calls st0 ++ cs)%list
          /\ (forall c, In c cs -> is_verifier_call c = false)).
Proof.
  split.
  - intros task t st ctx w1 w2 r Hg Hh Hs. eexists.
    split; [exact (iteration_host_error task t st ctx w1 w2 r Hg Hh Hs)|].
    split; [reflexivity|]. split.
    + exists (repr (VDict r)). split; [reflexivity | discriminate].
    + exists r. split; [exact Hs | reflexivity].
  - intros task n st0 Hgen Hhost.
    destruct (run_loop_unfold task (Z.of_nat n) st0) as (s0 & Hh0 & Hc0 & ->).
    destruct (for_each_host_always_fails task Hgen Hhost
                (range (Z.of_nat n)) s0)
      as (st' & new & cs & F & Hn & Hlen & Hall & Hcs & Hver).
    rewrite F. exists st', new, cs. rewrite <- Hh0, <- Hc0.
    rewrite range_length in Hlen.
    split; [reflexivity|]. split; [exact Hn|]. split; [exact Hlen|].
    split; [exact Hall|]. split; [exact Hcs | exact Hver].
Qed.

End RunLoopFacts.


(** Witness for C2: a host that always fails with an ordinary error. *)
Lemma host_failure_is_absorbed_witness :
  exists st' new cs,
    run_loop unit generator_double (host_failure ["NameError: bpy"])
      (verifier_sentinel_at 2) "Create a simple cube" (Z.of_nat 4)
      (empty_state 3)
    = (Ok (memory st'), st')
    /\ history (memory st')
       = (history (memory (empty_state 3)) ++ new)%list
    /\ List.length new = 4
    /\ (forall c, In c new -> recorded_failure c)
    /\ calls st' = (calls (empty_state 3) ++ cs)%list
    /\ (forall c, In c cs -> is_verifier_call c = false).
Proof.
  apply (proj2 (host_failure_is_absorbed unit generator_double
                  (host_failure ["NameError: bpy"])
                  (verifier_sentinel_at 2))).
  - intros task mem t w. eexists. eexists. reflexivity.
  - intros code w. eexists. eexists. repeat split.
Defined.

(** C2 as stated fails: with a generator that never raises and a host that
    always fails, five iterations allowed, the loop stops after one record
    when the host's error text carries the sentinel. *)
Lemma host_failure_sentinel_counterexample :
  ~ (forall (World : Type)
            (generate_step :
               string -> VIGAMemory -> Z -> external World IterationContext)
            (execute_code : option string -> external World dict)
            (verify_step : string -> IterationContext -> external World string)
            (task : string) (max_iterations : nat) (st0 : AgentState World),
        (forall task mem t w, exists ctx w',
              generate_step task mem t w = (Ok ctx, w')) ->
        (forall code w, exists reply w',
              execute_code code w = (Ok reply, w')
              /\ status_is_error reply = true) ->
        exists st',
          run_loop World generate_step execute_code verify_step
            task (Z.of_nat max_iterations) st0
          = (Ok (memory st'), st')
          /\ List.length (history (memory st'))
             = List.length (history (memory st0)) + max_iterations).
Proof.
  intros H.
  destruct (H unit generator_double (host_failure ["OBJECTIVE COMPLETE"])
              (verifier_sentinel_at 2) "Create a simple cube" 5
              (empty_state 3))
    as (st' & E & Hlen).
  - intros task mem t w. eexists. eexists. reflexivity.
  - intros code w. eexists. eexists. split; reflexivity.
  - vm_compute in E. injection E as E. subst st'. discriminate Hlen.
Qed.

End AgentFacts.

(* ================================================================== *)
(** * Facts about the model gateway                                    *)
(* ================================================================== *)

Module ModernModelsFacts.
Import ModernModels.

Section Qwen3VLFacts.
Variable PyFloat : Type.
Variable World : Type.
Variable session_post :
  string -> Payload PyFloat -> World -> result Response * World.

Local Abbreviation generate_text :=
  (generate_text PyFloat World session_post).

(** C3.  In a call with a non-empty images list whose first response has
    status 400, exactly one more request is posted, its messages are the
    text-only system and user messages, and the call ends with what that
    second response gives: its content on status 200, an error otherwise
    (also when the retry itself is answered 400), without a third request.
    In every other case (an empty images list, a first status other than
    400, a transport error) exactly one request is posted and the call
    ends with what the first response gives; any status other than 200
    is then an error. *)
Theorem multimodal_fallback_retries_once
  (self : Qwen3VL PyFloat) (system_prompt user_prompt : string)
  (images : list string) (st : Net PyFloat World) :
  let url := request_url PyFloat self in
  let first :=
    request_payload PyFloat self
      (request_messages system_prompt user_prompt images) in
  let retry :=
    request_payload PyFloat self
      (text_only_messages system_prompt user_prompt) in
  (images <> [] ->
   forall resp w1 r2 w2,
     session_post url first (world st) = (Ok resp, w1) ->
     status resp = 400%Z ->
     session_post url retry w1 = (r2, w2) ->
     generate_text self system_prompt user_prompt images st
     = (bind r2 read_response,
        {| world := w2;
           posts := (posts st ++ [(url, first); (url, retry)])%list |}))
  /\ (forall r w1,
        session_post url first (world st) = (r, w1) ->
        images = [] \/ (forall resp, r = Ok resp -> status resp <> 400%Z) ->
        generate_text self system_prompt user_prompt images st
        = (bind r read_response,
           {| world := w1; posts := (posts st ++ [(url, first)])%list |}))
  /\ forallb text_only (payload_messages PyFloat retry) = true
  /\ (forall resp,
        status resp <> 200%Z ->
        read_response resp = Raise (request_failed resp)).
Proof.
  intros url first retry. split; [|split; [|split]].
  - intros Himg resp w1 r2 w2 H1 H400 H2.
    unfold ModernModels.generate_text, mbind, post, lift.
    fold url first retry. rewrite H1. cbn [world posts].
    rewrite H400. destruct images as [|i images]; [congruence|].
    cbn [List.length Nat.eqb negb andb Z.eqb Pos.eqb world posts].
    rewrite H2. cbn [world posts]. rewrite <- app_assoc.
    now destruct r2.
  - intros r w1 H1 Hcase.
    unfold ModernModels.generate_text, mbind, post, lift.
    fold url first retry. rewrite H1. cbn [world posts].
    destruct r as [resp|e]; [|reflexivity].
    assert (Hc : ((status resp =? 400)%Z
                  && negb (Nat.eqb (List.length images) 0)) = false).
    { destruct Hcase as [->|Hne].
      - now rewrite andb_false_r.
      - apply andb_false_iff. left. apply Z.eqb_neq. now apply Hne. }
    now rewrite Hc.
  - reflexivity.
  - intros resp Hne. unfold read_response.
    apply Z.eqb_neq in Hne. now rewrite Hne.
Qed.

End Qwen3VLFacts.

(** Witness for C3: one image sent to a server that rejects images. *)
Lemma multimodal_fallback_retries_once_witness :
  let url := request_url Q qwen_double in
  let first :=
    request_payload Q qwen_double
      (request_messages "You are a verifier." "Compare." ["aGVsbG8="]) in
  let retry :=
    request_payload Q qwen_double
      (text_only_messages "You are a verifier." "Compare.") in
  generate_text Q nat server_rejecting_images qwen_double
    "You are a verifier." "Compare." ["aGVsbG8="] fresh_net
  = (Ok "The cube sits too low.",
     {| world := 2;
        posts := (posts fresh_net ++ [(url, first); (url, retry)])%list |}).
Proof.
  intros url first retry.
  refine (proj1 (multimodal_fallback_retries_once Q nat
                   server_rejecting_images qwen_double
                   "You are a verifier." "Compare." ["aGVsbG8="] fresh_net)
            _ _ 1 (Ok _) 2 eq_refl eq_refl eq_refl).
  discriminate.
Defined.

End ModernModelsFacts.

(* ================================================================== *)
(** * Facts about the evaluator stage                                  *)
(* ================================================================== *)

Module OrchestratorFacts.
Import Orchestrator.

Section EvaluatorFacts.
Variable World : Type.
Variable analyze_scene :
  string -> string -> Z -> Z -> option jvalue -> World -> result jvalue * World.

(** C9 (amended).  Whenever the vision client returns a result whose
    overall score is a number, the satisfaction flag that [evaluate]
    stores is true exactly when the score is at least the threshold or
    the result's own satisfactory flag is true (an OR: either condition is
    enough); the stored flag is the Boolean of that OR when the result's
    flag is a Boolean.  When the overall score is not a number the
    comparison raises, the fallback branch runs and the flag is left as it
    was.  A score of 0.80 at threshold 0.75 is satisfactory with the
    result's flag false, and a score of 0.40 is satisfactory with the
    result's flag true. *)
Theorem satisfaction_is_score_or_flag :
  (forall (state : WorkflowState) (w w' : World) (screenshot : string)
          (d : list (string * jvalue)) (score : number),
      screenshot_base64 state = Some screenshot ->
      screenshot <> EmptyString ->
      analyze_scene screenshot (user_intent state) (current_iteration state)
        (max_iterations state)
        (last (map Some (iteration_history state)) None) w
      = (Ok (JDict d), w') ->
      as_number (dict_get d "overall_score" (JNumber (Finite 0)))
      = Some score ->
      let flag := dict_get d "is_satisfactory" (JBool false) in
      let reached := number_ge score (satisfaction_threshold state) in
      let state' := fst (evaluate World analyze_scene state w) in
      truthy (is_satisfied state') = reached || truthy flag
      /\ (forall b, flag = JBool b -> is_satisfied state' = JBool (reached || b))
      /\ quality_score state'
         = dict_get d "overall_score" (JNumber (Finite 0))
      /\ visual_feedback state' = JDict d)
  /\ (forall (state : WorkflowState) (w w' : World) (screenshot : string)
             (d : list (string * jvalue)),
        screenshot_base64 state = Some screenshot ->
        screenshot <> EmptyString ->
        analyze_scene screenshot (user_intent state) (current_iteration state)
          (max_iterations state)
          (last (map Some (iteration_history state)) None) w
        = (Ok (JDict d), w') ->
        as_number (dict_get d "overall_score" (JNumber (Finite 0))) = None ->
        let state' := fst (evaluate World analyze_scene state w) in
        is_satisfied state' = is_satisfied state
        /\ quality_score state' = JNumber (Finite (1 # 2)))
  /\ number_ge (Finite (80 # 100)) (Finite (75 # 100)) = true
  /\ is_satisfied (fst (evaluate unit example_client example_state tt))
     = JBool true
  /\ is_satisfied
       (record_evaluation example_state (JDict flagged_eval_data))
     = JBool true.
Proof.
  split; [|split; [|repeat split]].
  2: { intros state w w' screenshot d Hshot Hne Han Hnum state'.
       subst state'. unfold evaluate. rewrite Hshot.
       destruct screenshot as [|c screenshot]; [congruence|].
       rewrite Han. cbn [fst]. unfold record_evaluation, get, py_ge.
       cbn [quality_score set_feedback set_quality_score
            satisfaction_threshold].
       rewrite Hnum. split; reflexivity. }
  intros state w w' screenshot d score Hshot Hne Han Hnum flag reached state'.
  assert (E : state' = set_is_satisfied
                         (set_feedback
                            (set_quality_score state
                               (dict_get d "overall_score"
                                  (JNumber (Finite 0))))
                            (JDict d))
                         (bool_or reached flag)).
  { subst state'. unfold evaluate. rewrite Hshot.
    destruct screenshot as [|c screenshot]; [congruence|].
    rewrite Han. cbn [fst]. unfold record_evaluation, get, py_ge.
    cbn [quality_score set_feedback set_quality_score
         satisfaction_threshold].
    rewrite Hnum. fold reached. now destruct reached. }
  rewrite E. cbn [is_satisfied quality_score visual_feedback
                  set_is_satisfied set_feedback set_quality_score].
  split; [|split; [|split]]; try reflexivity.
  - unfold bool_or. now destruct reached.
  - intros b Hb. rewrite Hb. unfold bool_or. now destruct reached.
Qed.

End EvaluatorFacts.

(** Witness for C9: the worked example, 0.80 against 0.75. *)
Lemma satisfaction_is_score_or_flag_witness :
  truthy (is_satisfied (fst (evaluate unit example_client example_state tt)))
  = number_ge (Finite (80 # 100)) (satisfaction_threshold example_state)
    || truthy (dict_get example_eval_data "is_satisfactory" (JBool false)).
Proof.
  refine (proj1 (proj1 (satisfaction_is_score_or_flag unit example_client)
                   example_state tt tt "aGVsbG8=" example_eval_data
                   (Finite (80 # 100)) eq_refl _ eq_refl eq_refl)).
  discriminate.
Defined.

(** C9 as stated fails: the client's result carries a true satisfactory
    flag, but its overall score is [null]; the comparison with the
    threshold raises, and the satisfaction flag stays false. *)
Lemma satisfaction_unscored_counterexample :
  ~ (forall (World : Type)
            (analyze_scene : string -> string -> Z -> Z -> option jvalue
                             -> World -> result jvalue * World)
            (state : WorkflowState) (w w' : World) (screenshot : string)
            (d : list (string * jvalue)),
        screenshot_base64 state = Some screenshot ->
        screenshot <> EmptyString ->
        analyze_scene screenshot (user_intent state) (current_iteration state)
          (max_iterations state)
          (last (map Some (iteration_history state)) None) w
        = (Ok (JDict d), w') ->
        truthy (dict_get d "is_satisfactory" (JBool false)) = true ->
        truthy (is_satisfied (fst (evaluate World analyze_scene state w)))
        = true).
Proof.
  intros H.
  specialize (H unit unscored_client example_state tt tt "aGVsbG8="
                unscored_eval_data eq_refl ltac:(discriminate) eq_refl
                eq_refl).
  vm_compute in H. discriminate H.
Qed.

End OrchestratorFacts.

(* ================================================================== *)
(** * Facts about the further [str] operations                         *)
(* ================================================================== *)

Module PyStrMoreFacts.
Import PyStr PyStrFacts PyStrMore.

Lemma endswith_app (a suffix : string) : endswith suffix (a ++ suffix) = true.
Proof.
  unfold endswith. rewrite length_append.
  replace (String.length a + String.length suffix - String.length suffix)%nat
    with (String.length a) by lia.
  rewrite drop_app_length, String.eqb_refl.
  rewrite andb_true_r. apply Nat.leb_le. lia.
Qed.

Lemma endswith_decompose (suffix s : string) :
  endswith suffix s = true -> exists a, s = a ++ suffix.
Proof.
  unfold endswith. intros H. apply andb_true_iff in H as [_ H].
  apply String.eqb_eq in H.
  set (k := (String.length s - String.length suffix)%nat) in *.
  exists (take k s).
  transitivity (take k s ++ drop k s);
    [symmetry; apply take_drop | now rewrite H].
Qed.

(** A text that ends with another character is left alone. *)
Lemma rstrip_char_keeps (ch c : ascii) (x : string) :
  c <> ch -> rstrip_char ch (x ++ String c "") = x ++ String c "".
Proof.
  intros Hc. induction x as [|d x IH]; simpl.
  - destruct (Ascii.eqb_spec c ch); [contradiction | reflexivity].
  - rewrite IH. now destruct x.
Qed.

(** One more trailing [ch] makes no difference. *)
Lemma rstrip_char_absorbs (ch : ascii) (s : string) :
  rstrip_char ch (s ++ String ch "") = rstrip_char ch s.
Proof.
  induction s as [|d s IH]; simpl.
  - now rewrite Ascii.eqb_refl.
  - now rewrite IH.
Qed.

(** What [rstrip_char] returns is empty or ends with another character. *)
Lemma rstrip_char_shape (ch : ascii) (s : string) :
  rstrip_char ch s = ""
  \/ exists x c, rstrip_char ch s = x ++ String c "" /\ c <> ch.
Proof.
  induction s as [|d s IH]; simpl; [now left|].
  destruct IH as [E|(x & c & E & Hc)]; rewrite E.
  - destruct (Ascii.eqb_spec d ch); [now left|].
    right. now exists "", d.
  - right. exists (String d x), c. split; [|exact Hc].
    destruct x; reflexivity.
Qed.

Lemma rstrip_char_idempotent (ch : ascii) (s : string) :
  rstrip_char ch (rstrip_char ch s) = rstrip_char ch s.
Proof.
  destruct (rstrip_char_shape ch s) as [E|(x & c & E & Hc)]; rewrite E.
  - reflexivity.
  - now apply rstrip_char_keeps.
Qed.

Lemma all_chars_app (p : ascii -> bool) (a b : string) :
  all_chars p (a ++ b) = all_chars p a && all_chars p b.
Proof.
  induction a as [|c a IH]; simpl; [reflexivity|].
  now rewrite IH, andb_assoc.
Qed.

(** After a prefix free of the character [c0], a marker that starts with
    [c0] occurs first right behind the prefix. *)
Lemma first_at_clean_prefix (c0 : ascii) (marker a rest : string) :
  all_chars (fun c => negb (Ascii.eqb c c0)) a = true ->
  first_at (String c0 marker) (a ++ String c0 marker ++ rest)
    (String.length a).
Proof.
  intros Ha. split.
  - split; [rewrite length_append; lia|].
    rewrite drop_app_length. apply (startswith_app (String c0 marker)).
  - induction a as [|d a IH]; intros j Hj; [simpl in Hj; lia|].
    simpl in Ha. apply andb_true_iff in Ha as [Hd Ha].
    destruct j as [|j].
    + intros H. apply occurs_at_0 in H. simpl in H.
      apply andb_true_iff in H as [H _].
      rewrite Ascii.eqb_sym in H. rewrite H in Hd. discriminate.
    + intros H. apply occurs_at_S in H.
      apply (IH Ha j); [simpl in Hj; lia | exact H].
Qed.

Lemma lower_app (a b : string) : lower (a ++ b) = lower a ++ lower b.
Proof. induction a as [|c a IH]; simpl; [reflexivity | now rewrite IH]. Qed.

(** Stripping ignores one more blank at either end. *)
Lemma strip_blank_left (ws : ascii) (x : string) :
  isspace ws = true -> strip (String ws x) = strip x.
Proof. intros H. unfold strip. simpl. now rewrite H. Qed.

Lemma rstrip_blank_right (ws : ascii) (x : string) :
  isspace ws = true -> rstrip (x ++ String ws "") = rstrip x.
Proof.
  intros H. induction x as [|d x IH]; simpl.
  - now rewrite H.
  - now rewrite IH.
Qed.

Lemma strip_blank_right (ws : ascii) (x : string) :
  isspace ws = true -> strip (x ++ String ws "") = strip x.
Proof.
  intros H. unfold strip.
  assert (E : lstrip (x ++ String ws "") = lstrip x ++ String ws ""
              \/ (lstrip x = "" /\ lstrip (x ++ String ws "") = "")).
  { induction x as [|d x IH]; simpl.
    - rewrite H. now right.
    - destruct (isspace d); [exact IH | now left]. }
  destruct E as [E|[E1 E2]].
  - rewrite E. now apply rstrip_blank_right.
  - now rewrite E1, E2.
Qed.

End PyStrMoreFacts.

(* ================================================================== *)
(** * Facts about endpoints and model lists                            *)
(* ================================================================== *)

Module VisionUtilsRestFacts.
Import PyStr PyStrFacts PyStrMore PyStrMoreFacts Orchestrator VisionUtilsRest.

(** X1.  [normalize_vision_endpoint] always returns an endpoint that ends
    with [/v1]; normalising a second time changes nothing; and a trailing
    slash on the input makes no difference. *)
Theorem normalize_vision_endpoint_canonical (endpoint : string) :
  endswith "/v1" (normalize_vision_endpoint endpoint) = true
  /\ normalize_vision_endpoint (normalize_vision_endpoint endpoint)
     = normalize_vision_endpoint endpoint
  /\ normalize_vision_endpoint (endpoint ++ "/")
     = normalize_vision_endpoint endpoint.
Proof.
  assert (Fix : forall s, endswith "/v1" s = true ->
                          normalize_vision_endpoint s = s).
  { intros s Hs. unfold normalize_vision_endpoint.
    destruct (endswith_decompose _ _ Hs) as [a ->].
    change (a ++ "/v1") with (a ++ "/v" ++ String "1" "").
    rewrite <- append_assoc.
    rewrite rstrip_char_keeps by discriminate.
    rewrite append_assoc. change ("/v" ++ "1") with "/v1".
    now rewrite endswith_app. }
  assert (Ends : endswith "/v1" (normalize_vision_endpoint endpoint) = true).
  { unfold normalize_vision_endpoint.
    destruct (endswith "/v1" (rstrip_char "/" endpoint)) eqn:E;
      [exact E | apply endswith_app]. }
  split; [exact Ends | split].
  - now apply Fix.
  - unfold normalize_vision_endpoint.
    now rewrite (rstrip_char_absorbs "/" endpoint).
Qed.

Lemma empty_name_not_listed (ids : list jvalue) :
  existsb (equals_text "") (filter truthy ids) = false.
Proof.
  induction ids as [|id ids IH]; simpl; [reflexivity|].
  destruct (truthy id) eqn:T; [|exact IH].
  simpl. rewrite IH, orb_false_r.
  destruct id as [| | |s| |]; try reflexivity.
  destruct s; [discriminate T | reflexivity].
Qed.

Lemma ids_of_objects (entries : list (list (string * jvalue))) :
  ids_of_items (map JDict entries)
  = Ok (map (fun entry => dict_get entry "id" (JStr EmptyString)) entries).
Proof.
  induction entries as [|entry entries IH]; [reflexivity|].
  cbn [map ids_of_items get bind]. now rewrite IH.
Qed.

Lemma ids_of_items_raises (items : list jvalue) (item : jvalue) :
  In item items -> (forall entry, item <> JDict entry) ->
  exists msg, ids_of_items items = Raise (AttributeError msg).
Proof.
  induction items as [|x items IH]; intros Hin Hno; [contradiction|].
  cbn [ids_of_items].
  destruct x as [| b | n | t | l | entry];
    try (eexists; reflexivity).
  destruct Hin as [<-|Hin]; [now contradiction (Hno entry)|].
  destruct (IH Hin Hno) as [msg ->]. cbn [get bind]. now exists msg.
Qed.

Lemma is_model_available_eq (name : string) (models_payload : jvalue) :
  is_model_available name models_payload
  = bind (list_available_models models_payload) (fun ids =>
    Ok (existsb (equals_text name) ids)).
Proof.
  unfold is_model_available, list_available_models.
  now destruct (_iter_model_ids models_payload).
Qed.

(** X2.  [list_available_models] and [is_model_available] against the
    payload.  A payload that is false (empty, [None]) lists nothing.  A
    non-empty payload object is read under [data] when that is a list,
    else under [models] when that is a list, else it lists nothing.  When
    every entry of the list read is an object, the result is, in the
    order of the entries, the ids (a missing id counts as the empty text)
    that are true: empty ids are left out, and ids that are not texts are
    listed as they are.  When some entry is not an object, and when a
    true payload is not an object, the call raises [AttributeError].
    [is_model_available] answers whether the name is among the listed
    ids, raises when listing raises, and never holds of the empty
    name. *)
Theorem listed_models_are_the_available_ones :
  (forall models_payload,
      truthy models_payload = false ->
      list_available_models models_payload = Ok [])
  /\ (forall models_payload,
        truthy models_payload = true ->
        (forall d, models_payload <> JDict d) ->
        exists msg,
          list_available_models models_payload = Raise (AttributeError msg))
  /\ (forall d items,
        d <> [] ->
        dict_get d "data" JNone = JList items
        \/ ((forall l, dict_get d "data" JNone <> JList l)
            /\ dict_get d "models" JNone = JList items) ->
        (forall entries,
            items = map JDict entries ->
            list_available_models (JDict d)
            = Ok (filter truthy
                    (map (fun entry => dict_get entry "id" (JStr EmptyString))
                       entries)))
        /\ (forall item,
              In item items -> (forall entry, item <> JDict entry) ->
              exists msg,
                list_available_models (JDict d) = Raise (AttributeError msg)))
  /\ (forall d,
        (forall l, dict_get d "data" JNone <> JList l) ->
        (forall l, dict_get d "models" JNone <> JList l) ->
        list_available_models (JDict d) = Ok [])
  /\ (forall name models_payload,
        is_model_available name models_payload
        = bind (list_available_models models_payload) (fun ids =>
          Ok (existsb (equals_text name) ids)))
  /\ (forall models_payload,
        is_model_available "" models_payload <> Ok true)
  /\ list_available_models numbered_models_payload
     = Ok [JNumber (Int 7); JStr "a"].
Proof.
  split; [|split; [|split; [|split; [|split; [|split]]]]].
  - intros models_payload F.
    unfold list_available_models, _iter_model_ids. now rewrite F.
  - intros models_payload T Hno.
    unfold list_available_models, _iter_model_ids. rewrite T. cbn [negb].
    destruct models_payload as [| b | n | t | l | d];
      try (eexists; reflexivity).
    now contradiction (Hno d).
  - intros d items Hd Hread.
    assert (T : truthy (JDict d) = true)
      by (destruct d; [contradiction | reflexivity]).
    assert (E : list_available_models (JDict d)
                = bind (ids_of_items items) (fun ids =>
                  Ok (filter truthy ids))).
    { unfold list_available_models, _iter_model_ids. rewrite T.
      cbn [negb get bind].
      destruct Hread as [->|[Hnot ->]]; [reflexivity|].
      destruct (dict_get d "data" JNone) as [| | | |l|]; try reflexivity.
      now contradiction (Hnot l). }
    split.
    + intros entries ->. rewrite E, ids_of_objects. reflexivity.
    + intros item Hin Hno. rewrite E.
      destruct (ids_of_items_raises items item Hin Hno) as [msg ->].
      now exists msg.
  - intros d Hdata Hmodels.
    unfold list_available_models, _iter_model_ids.
    destruct (truthy (JDict d)); cbn [negb]; [|reflexivity].
    cbn [get bind].
    destruct (dict_get d "data" JNone) as [| | | |l|];
      try (destruct (dict_get d "models" JNone) as [| | | |l'|];
           try reflexivity; now contradiction (Hmodels l')).
    now contradiction (Hdata l).
  - apply is_model_available_eq.
  - intros models_payload. unfold is_model_available.
    destruct (_iter_model_ids models_payload) as [ids|e]; cbn [bind];
      [|discriminate].
    rewrite empty_name_not_listed. discriminate.
  - reflexivity.
Qed.

(** The payload in the OpenAI shape lists its two named models, and a
    payload with a text among its entries raises. *)
Lemma listed_models_are_the_available_ones_witness :
  list_available_models example_models_payload
  = Ok [JStr "Qwen2.5-VL-72B-Instruct"; JStr "other"]
  /\ exists msg,
      list_available_models named_models_payload
      = Raise (AttributeError msg).
Proof.
  destruct listed_models_are_the_available_ones as (_ & _ & H & _).
  split.
  - exact (proj1 (H [("data",
                      JList [JDict [("id", JStr "Qwen2.5-VL-72B-Instruct")];
                             JDict [("object", JStr "model")];
                             JDict [("id", JStr "other")]])]
                    _ ltac:(discriminate) (or_introl eq_refl))
             [[("id", JStr "Qwen2.5-VL-72B-Instruct")];
              [("object", JStr "model")]; [("id", JStr "other")]]
             eq_refl).
  - exact (proj2 (H [("data", JList [JDict [("id", JStr "a")]; JStr "b"])]
                    _ ltac:(discriminate) (or_introl eq_refl))
             (JStr "b") ltac:(right; left; reflexivity)
             ltac:(discriminate)).
Defined.

End VisionUtilsRestFacts.

(* ================================================================== *)
(** * Facts about the rendered prompt                                  *)
(* ================================================================== *)

Module MemoryRestFacts.
Import PyStr PyStrFacts PyStrMore PyStrMoreFacts PyVal Memory VisionUtils.
Import VisionUtilsFacts MemoryRest.

Lemma render_records_app (l1 l2 : list IterationContext) :
  render_records (l1 ++ l2)%list = render_records l1 ++ render_records l2.
Proof.
  induction l1 as [|c l1 IH]; simpl; [reflexivity|].
  now rewrite IH, !append_assoc.
Qed.

(** The window of a memory whose history ends with [recent]. *)
Lemma window_of_suffix (self : VIGAMemory)
  (older recent : list IterationContext) :
  history self = (older ++ recent)%list ->
  (0 < window_size self)%Z ->
  Z.of_nat (List.length recent) = window_size self
  \/ (older = [] /\ (Z.of_nat (List.length recent) <= window_size self)%Z) ->
  get_context_window self = (Ok recent, self).
Proof.
  intros Hh Hk Hcase. unfold get_context_window, list_slice_from.
  rewrite Hh. do 2 f_equal. rewrite length_app. unfold PyStr.clamp.
  destruct (Z.ltb_spec (- window_size self) 0) as [_|H]; [|lia].
  destruct Hcase as [Hl|[-> Hl]].
  - replace (Z.to_nat
               (Z.max 0
                  (- window_size self
                   + Z.of_nat (List.length older + List.length recent))))
      with (List.length older) by lia.
    now rewrite skipn_app, skipn_all, Nat.sub_diag.
  - replace (Z.to_nat
               (Z.max 0
                  (- window_size self
                   + Z.of_nat (List.length (@nil IterationContext)
                               + List.length recent))))
      with 0%nat by (simpl; lia).
    reflexivity.
Qed.

(** X3.  With a positive window size, the prompt block is the fixed header
    followed by the rendering of the records in the window, oldest first:
    it is built from the last [window_size] records only (or from the whole
    history while that is shorter), records older than the window leave no
    trace in it, and building it leaves the memory as it was. *)
Theorem full_prompt_shows_window_only :
  (forall (self : VIGAMemory) (older recent : list IterationContext),
      history self = (older ++ recent)%list ->
      (0 < window_size self)%Z ->
      Z.of_nat (List.length recent) = window_size self
      \/ (older = [] /\ (Z.of_nat (List.length recent) <= window_size self)%Z) ->
      get_full_prompt self
      = (Ok (prompt_header ++ render_records recent), self))
  /\ (forall l1 l2,
        render_records (l1 ++ l2)%list
        = render_records l1 ++ render_records l2).
Proof.
  split; [|exact render_records_app].
  intros self older recent Hh Hk Hcase. unfold get_full_prompt.
  now rewrite (window_of_suffix self older recent Hh Hk Hcase).
Qed.

(** Witness for X3: window size 1 over two records. *)
Lemma full_prompt_shows_window_only_witness :
  let self :=
    append_all (VIGAMemory_init 1) [new_context 0 None None; example_record] in
  get_full_prompt self
  = (Ok (prompt_header ++ render_records [example_record]), self).
Proof.
  intros self.
  apply (proj1 full_prompt_shows_window_only self
           [new_context 0 None None] [example_record]).
  - reflexivity.
  - reflexivity.
  - left. reflexivity.
Defined.

Lemma uint_digits_no_backtick (d : Decimal.uint) :
  no_backtick (NilEmpty.string_of_uint d) = true.
Proof. induction d; simpl; auto. Qed.

Lemma nilzero_digits_no_backtick (d : Decimal.uint) :
  no_backtick (NilZero.string_of_uint d) = true.
Proof.
  unfold NilZero.string_of_uint.
  destruct d; try reflexivity;
    match goal with
    | |- no_backtick (NilEmpty.string_of_uint ?x) = true =>
        apply (uint_digits_no_backtick x)
    end.
Qed.

Lemma str_of_Z_no_backtick (z : Z) : no_backtick (str_of_Z z) = true.
Proof.
  unfold str_of_Z, NilZero.string_of_int.
  destruct (Z.to_int z) as [d|d].
  - apply nilzero_digits_no_backtick.
  - change (no_backtick (String "-" (NilZero.string_of_uint d)))
      with (no_backtick (NilZero.string_of_uint d)).
    apply nilzero_digits_no_backtick.
Qed.

(** A record with code renders as a backtick-free prefix, the python
    tag, the code between two line breaks, the closing fence, and a rest. *)
Lemma to_prompt_str_shape (ctx : IterationContext) (ch : ascii) (c : string) :
  code ctx = Some (String ch c) ->
  (forall p, plan ctx = Some p -> no_backtick p = true) ->
  exists prefix rest,
    to_prompt_str ctx
    = prefix ++ python_tag ++ (nl ++ String ch c ++ nl) ++ fence ++ rest
    /\ no_backtick prefix = true.
Proof.
  intros Hc Hp. unfold to_prompt_str. rewrite Hc.
  pose proof (str_of_Z_no_backtick (iteration_id ctx)) as Hd.
  set (digits := str_of_Z (iteration_id ctx)) in *.
  assert (Hpre : forall mid, no_backtick mid = true ->
                 no_backtick (("## Iteration " ++ digits) ++ nl ++ mid
                              ++ "**Code Generated**: " ++ nl) = true).
  { intros mid Hm. unfold no_backtick in *.
    rewrite !all_chars_app, Hd, Hm. reflexivity. }
  destruct (plan ctx) as [[|ph p]|] eqn:P;
    destruct (visual_feedback ctx) as [[|fh f]|] eqn:F;
    cbn [optional_part List.app join].
  1-3, 7-9:
    (exists (("## Iteration " ++ digits) ++ nl ++ ""
             ++ "**Code Generated**: " ++ nl);
     eexists; split; [|apply Hpre; reflexivity];
     rewrite !append_assoc; cbn [append]; reflexivity).
  all: (exists (("## Iteration " ++ digits) ++ nl
                ++ ("**Plan**: " ++ String ph p ++ nl)
                ++ "**Code Generated**: " ++ nl);
        eexists; split;
        [rewrite !append_assoc; cbn [append]; reflexivity|];
        apply Hpre; unfold no_backtick in *;
        rewrite !all_chars_app;
        rewrite (Hp (String ph p) eq_refl); reflexivity).
Qed.

(** X4.  Rendering a record for the prompt and reading the code back with
    [extract_code_from_response] gives the record's own code, stripped:
    this holds for every record whose code is non-empty and free of
    backticks and whose plan, if any, is free of backticks, whatever its
    iteration number and feedback. *)
Theorem rendered_code_is_extracted_back
  (ctx : IterationContext) (c : string) :
  code ctx = Some c ->
  c <> EmptyString ->
  no_backtick c = true ->
  (forall p, plan ctx = Some p -> no_backtick p = true) ->
  extract_code_from_response (to_prompt_str ctx) = strip c.
Proof.
  intros Hc Hne Hnb Hp. destruct c as [|ch c]; [congruence|].
  destruct (to_prompt_str_shape ctx ch c Hc Hp) as (prefix & rest & -> & Hpre).
  set (body := nl ++ String ch c ++ nl).
  assert (Htag : first_at python_tag
                   (prefix ++ python_tag ++ body ++ fence ++ rest)
                   (String.length prefix))
    by exact (first_at_clean_prefix backtick "``python" prefix _ Hpre).
  assert (Hbody : no_backtick body = true).
  { unfold body, no_backtick in *. rewrite !all_chars_app, Hnb. reflexivity. }
  assert (Hdrop : drop (String.length prefix + String.length python_tag)
                    (prefix ++ python_tag ++ body ++ fence ++ rest)
                  = body ++ fence ++ rest).
  { rewrite <- drop_drop, drop_app_length. apply drop_app_length. }
  assert (Hfence : first_at fence (body ++ fence ++ rest) (String.length body))
    by exact (first_at_clean_prefix backtick "``" body rest Hbody).
  assert (Hlen : String.length body = S (String.length (String ch c ++ nl)))
    by reflexivity.
  destruct (extract_code_cases
              (prefix ++ python_tag ++ body ++ fence ++ rest)) as [Ha _].
  rewrite (Ha (String.length prefix) (String.length (String ch c ++ nl))
             Htag).
  - rewrite Hdrop, <- Hlen, take_app_length. unfold body.
    change (nl ++ String ch c ++ nl)
      with (String (ascii_of_nat 10) (String ch c ++ String (ascii_of_nat 10) "")).
    rewrite strip_blank_left by reflexivity.
    now rewrite strip_blank_right by reflexivity.
  - rewrite Hdrop, <- Hlen. exact Hfence.
Qed.

(** Witness for X4: the example record, with a plan and two lines of
    code. *)
Lemma rendered_code_is_extracted_back_witness :
  extract_code_from_response (to_prompt_str example_record)
  = strip ("import bpy" ++ nl ++ "bpy.ops.mesh.primitive_cube_add()").
Proof.
  apply (rendered_code_is_extracted_back example_record).
  - reflexivity.
  - discriminate.
  - reflexivity.
  - intros p H. injection H as <-. reflexivity.
Defined.

End MemoryRestFacts.

(* ================================================================== *)
(** * More facts about [extract_code_from_response]                    *)
(* ================================================================== *)

Module ExtractCodeFacts.
Import PyStr PyStrFacts PyStrMore PyStrMoreFacts VisionUtils VisionUtilsFacts.

Lemma lstrip_shape (x : string) :
  lstrip x = "" \/ starts_nonspace (lstrip x).
Proof.
  induction x as [|c x IH]; simpl; [now left|].
  destruct (isspace c) eqn:E; [exact IH | right; exact E].
Qed.

Lemma lstrip_fixed (y : string) :
  y = "" \/ starts_nonspace y -> lstrip y = y.
Proof.
  intros [->|H]; [reflexivity|].
  destruct y as [|c y]; [contradiction|]. simpl in *. now rewrite H.
Qed.

Lemma rstrip_shape (s : string) :
  rstrip s = "" \/ ends_nonspace (rstrip s).
Proof.
  induction s as [|d s IH]; simpl; [now left|].
  destruct IH as [E|(x & c & E & Hc)]; rewrite E.
  - destruct (isspace d) eqn:D; [now left|].
    right. now exists "", d.
  - right. exists (String d x), c. split; [|exact Hc].
    destruct x; reflexivity.
Qed.

Lemma rstrip_fixed (y : string) :
  y = "" \/ ends_nonspace y -> rstrip y = y.
Proof.
  intros [->|H]; [reflexivity|].
  rewrite <- (append_empty_r y) at 1.
  rewrite (rstrip_app_nonspace y "" H). apply append_empty_r.
Qed.

Lemma rstrip_keeps_head (y : string) :
  starts_nonspace y -> starts_nonspace (rstrip y).
Proof.
  destruct y as [|c y]; [contradiction|]. simpl. intros H.
  destruct (rstrip y); [now rewrite H | exact H].
Qed.

(** What [strip] returns is empty, or starts and ends with a character
    that is not a blank. *)
Lemma strip_shape (x : string) :
  strip x = "" \/ (starts_nonspace (strip x) /\ ends_nonspace (strip x)).
Proof.
  unfold strip. destruct (lstrip_shape x) as [E|H].
  - rewrite E. now left.
  - right. split; [now apply rstrip_keeps_head|].
    destruct (rstrip_shape (lstrip x)) as [E|E]; [|exact E].
    apply rstrip_keeps_head in H. rewrite E in H. contradiction.
Qed.

Lemma strip_idempotent (x : string) : strip (strip x) = strip x.
Proof.
  destruct (strip_shape x) as [E|[Hs He]].
  - now rewrite E.
  - unfold strip at 1. rewrite lstrip_fixed by now right.
    apply rstrip_fixed. now right.
Qed.

(** Every path of the extraction ends in a [strip]. *)
Lemma extract_code_is_a_strip (s : string) :
  exists x, extract_code_from_response s = strip x.
Proof.
  rewrite extract_code_eq.
  destruct (find_first python_tag s) as [i|].
  - destruct (find_first fence _) as [[|j]|]; eexists; reflexivity.
  - destruct (find_first fence s) as [i|]; [|eexists; reflexivity].
    destruct (find_first fence _) as [[|j]|]; eexists; reflexivity.
Qed.

(** X5.  What [extract_code_from_response] returns never starts or ends
    with a blank: it is empty, or its first and its last character are
    not blanks; stripping it again changes nothing. *)
Theorem extracted_code_has_no_outer_blanks (s : string) :
  (extract_code_from_response s = ""
   \/ (starts_nonspace (extract_code_from_response s)
       /\ ends_nonspace (extract_code_from_response s)))
  /\ strip (extract_code_from_response s) = extract_code_from_response s.
Proof.
  destruct (extract_code_is_a_strip s) as [x ->].
  split; [apply strip_shape | apply strip_idempotent].
Qed.

(** ** A block that was cut out holds no fence *)

Lemma startswith_app_r (p x b : string) :
  startswith p x = true -> startswith p (x ++ b) = true.
Proof.
  revert x; induction p as [|a p IH]; intros [|c x] H; simpl in *;
    try reflexivity; try discriminate.
  apply andb_true_iff in H as [H1 H2]. rewrite H1. now apply IH.
Qed.

Lemma drop_app_le (n : nat) (x b : string) :
  (n <= String.length x)%nat -> drop n (x ++ b) = drop n x ++ b.
Proof.
  revert x; induction n as [|n IH]; intros x H.
  - reflexivity.
  - destruct x as [|c x]; simpl in H; [lia|]. simpl. apply IH. lia.
Qed.

(** An occurrence inside the middle of a text is an occurrence in the
    text. *)
Lemma occurs_at_inside (sub a m b : string) (p : nat) :
  occurs_at sub m p -> occurs_at sub (a ++ m ++ b) (String.length a + p).
Proof.
  intros [Hp Hs]. split.
  - rewrite !length_append. lia.
  - rewrite <- drop_drop, drop_app_length, drop_app_le by exact Hp.
    now apply startswith_app_r.
Qed.

Lemma absent_inside (sub a m b : string) :
  absent sub (a ++ m ++ b) -> absent sub m.
Proof.
  intros H p Hp. exact (H _ (occurs_at_inside sub a m b p Hp)).
Qed.

Lemma lstrip_is_suffix (x : string) : exists a, x = a ++ lstrip x.
Proof.
  induction x as [|c x [a IH]]; simpl; [now exists ""|].
  destruct (isspace c).
  - exists (String c a). simpl. now rewrite <- IH.
  - now exists "".
Qed.

Lemma rstrip_is_prefix (y : string) : exists b, y = rstrip y ++ b.
Proof.
  induction y as [|c y [b IH]]; simpl; [now exists ""|].
  destruct (rstrip y) as [|r0 r] eqn:R.
  - destruct (isspace c).
    + exists (String c y). reflexivity.
    + exists y. reflexivity.
  - exists b. simpl in *. now f_equal.
Qed.

Lemma absent_strip (sub x : string) : absent sub x -> absent sub (strip x).
Proof.
  intros H. unfold strip.
  destruct (lstrip_is_suffix x) as [a Ea].
  destruct (rstrip_is_prefix (lstrip x)) as [b Eb].
  apply (absent_inside sub a (rstrip (lstrip x)) b).
  now rewrite <- Eb, <- Ea.
Qed.

Lemma take_is_prefix (n : nat) (x : string) : exists b, x = take n x ++ b.
Proof. exists (drop n x). symmetry. apply take_drop. Qed.

(** The text before the first occurrence of a marker holds no occurrence
    of it. *)
Lemma absent_before_first (sub x : string) (j : nat) :
  sub <> "" -> first_at sub x j -> absent sub (take j x).
Proof.
  intros Hne [[Hj _] Hfirst] p Hp.
  assert (Hlt : (p < j)%nat).
  { destruct Hp as [Hp Hs]. apply startswith_length in Hs.
    rewrite length_drop, length_take in Hs.
    destruct sub; [congruence|]. simpl in Hs. lia. }
  apply (Hfirst p Hlt).
  destruct (take_is_prefix j x) as [b Eb].
  pose proof (occurs_at_inside sub "" (take j x) b p Hp) as H.
  simpl in H. now rewrite <- Eb in H.
Qed.

Lemma absent_not_contains (sub x : string) :
  absent sub x -> contains sub x = false.
Proof. intros H. unfold contains. now rewrite (absent_find_first _ _ H). Qed.

(** X6.  When a block is cut out (a [```python] tag, or with no such tag a
    first fence, followed after at least one character by a further
    fence), what is returned holds no fence. *)
Theorem extracted_block_holds_no_fence (s : string) (i j : nat) :
  (first_at python_tag s i ->
   first_at fence (drop (i + String.length python_tag) s) (S j) ->
   contains fence (extract_code_from_response s) = false)
  /\ (absent python_tag s ->
      first_at fence s i ->
      first_at fence (drop (i + String.length fence) s) (S j) ->
      contains fence (extract_code_from_response s) = false).
Proof.
  destruct (extract_code_cases s) as (Ha & Hb & _).
  split.
  - intros Hi Hj. rewrite (Ha i j Hi Hj).
    apply absent_not_contains, absent_strip.
    now apply absent_before_first.
  - intros Hp Hi Hj. rewrite (Hb i j Hp Hi Hj).
    apply absent_not_contains, absent_strip.
    now apply absent_before_first.
Qed.

(** Witness for X6: the first of two blocks. *)
Lemma extracted_block_holds_no_fence_witness :
  contains fence (extract_code_from_response two_python_blocks) = false.
Proof.
  apply (proj1 (extracted_block_holds_no_fence two_python_blocks 0 2)).
  - apply find_first_Some. reflexivity.
  - apply find_first_Some. reflexivity.
Defined.

End ExtractCodeFacts.

(* ================================================================== *)
(** * Facts about the Gemini variant                                   *)
(* ================================================================== *)

Module ModernModelsRestFacts.
Import PyVal Orchestrator ModernModels ModernModelsRest Traces.

Lemma inline_images_filter (images : list string) :
  inline_images images
  = map (InlineData "image/png") (filter nonempty_text images).
Proof.
  induction images as [|img rest IH]; simpl; [reflexivity|].
  destruct img; simpl; now rewrite IH.
Qed.

Lemma image_parts_filter (images : list string) :
  image_parts images
  = map (fun img => ImageUrlPart ("data:image/png;base64," ++ img))
      (filter nonempty_text images).
Proof.
  induction images as [|img rest IH]; simpl; [reflexivity|].
  destruct img; simpl; now rewrite IH.
Qed.

Section GeminiFacts.
Variable PyFloat : Type.
Variable World : Type.
Variable show_data : jvalue -> string.
Variable session_post :
  string -> GeminiPayload PyFloat -> World
  -> result GeminiResponse * World.

Local Abbreviation gemini_generate_text :=
  (gemini_generate_text PyFloat World show_data session_post).

(** X7.  [Gemini3Pro.generate_text] never retries.  Without an API key it
    raises before anything is posted.  With a key it posts exactly one
    request, whatever comes back: a transport error is passed on, and any
    status other than 200 (also 400 with images attached) is a
    [RuntimeError]; only a status 200 is read. *)
Theorem gemini_posts_at_most_once
  (self : Gemini3Pro PyFloat) (system_prompt user_prompt : string)
  (images : list string) (st : GeminiNet PyFloat World) :
  (api_key PyFloat self = EmptyString ->
   exists msg,
     gemini_generate_text self system_prompt user_prompt images st
     = (Raise (RuntimeError msg), st))
  /\ (api_key PyFloat self <> EmptyString ->
      let url := gemini_url PyFloat self in
      let payload :=
        gemini_payload PyFloat self system_prompt user_prompt images in
      forall r w1,
        session_post url payload (gemini_world st) = (r, w1) ->
        exists outcome,
          gemini_generate_text self system_prompt user_prompt images st
          = (outcome,
             {| gemini_world := w1;
                gemini_posts := (gemini_posts st ++ [(url, payload)])%list |})
          /\ (forall e, r = Raise e -> outcome = Raise e)
          /\ (forall resp,
                r = Ok resp -> gemini_status resp <> 200%Z ->
                exists msg, outcome = Raise (RuntimeError msg))
          /\ (forall resp,
                r = Ok resp -> gemini_status resp = 200%Z ->
                outcome = bind (gemini_json resp)
                            (read_gemini show_data))).
Proof.
  split.
  - intros Hk. unfold ModernModelsRest.gemini_generate_text. rewrite Hk.
    eexists. reflexivity.
  - intros Hk url payload r w1 Hp.
    unfold ModernModelsRest.gemini_generate_text.
    destruct (api_key PyFloat self) as [|k0 k] eqn:K; [congruence|].
    fold url payload. rewrite Hp.
    destruct r as [resp|e].
    + destruct (Z.eqb_spec (gemini_status resp) 200) as [E|E]; cbn [negb].
      * eexists. split; [reflexivity|]. split; [discriminate|].
        split; [intros resp' H; injection H as <-; contradiction|].
        intros resp' H _. now injection H as <-.
      * eexists. split; [reflexivity|]. split; [discriminate|].
        split; [intros resp' H _; eexists; reflexivity|].
        intros resp' H H200. injection H as <-. contradiction.
    + eexists. split; [reflexivity|]. split.
      * intros e' H. now injection H as <-.
      * split; intros resp H; discriminate H.
Qed.

(** X9.  Reading a decoded Gemini reply never lets a [KeyError] or an
    [IndexError] out: it returns a value or raises a [RuntimeError], an
    [AttributeError] or a [TypeError].  A reply without candidates, or
    whose first candidate has no parts, is a [RuntimeError]; a reply whose
    first candidate's first part is an object yields that part's [text],
    or the empty text when the part has none. *)
Theorem read_gemini_outcomes (data : jvalue) :
  (forall e,
      read_gemini show_data data = Raise e ->
      (exists m, e = RuntimeError m) \/ (exists m, e = AttributeError m)
      \/ (exists m, e = TypeError m))
  /\ (forall d,
        data = JDict d ->
        truthy (dict_get d "candidates" (JList [])) = false ->
        exists m, read_gemini show_data data = Raise (RuntimeError m))
  /\ (forall d first rest content,
        data = JDict d ->
        dict_get d "candidates" (JList []) = JList (JDict first :: rest) ->
        dict_get first "content" (JDict []) = JDict content ->
        truthy (dict_get content "parts" (JList [])) = false ->
        exists m, read_gemini show_data data = Raise (RuntimeError m))
  /\ (forall d first rest content part parts,
        data = JDict d ->
        dict_get d "candidates" (JList []) = JList (JDict first :: rest) ->
        dict_get first "content" (JDict []) = JDict content ->
        dict_get content "parts" (JList []) = JList (JDict part :: parts) ->
        read_gemini show_data data
        = Ok (dict_get part "text" (JStr EmptyString))).
Proof.
  split; [|split; [|split]].
  - intros e. unfold read_gemini.
    assert (Hget : forall v key default e0,
               lookup_get v key default = Failed e0 ->
               (exists m, e0 = RuntimeError m)
               \/ (exists m, e0 = AttributeError m)
               \/ (exists m, e0 = TypeError m)).
    { intros v key default e0. unfold lookup_get, get.
      destruct v; intros H; try discriminate H; injection H as <-;
        right; left; eexists; reflexivity. }
    assert (Hidx : forall v e0,
               index0 v = Failed e0 ->
               (exists m, e0 = RuntimeError m)
               \/ (exists m, e0 = AttributeError m)
               \/ (exists m, e0 = TypeError m)).
    { intros v e0. unfold index0.
      destruct v as [| | |s|l|d']; intros H; try discriminate H;
        try (injection H as <-; right; right; eexists; reflexivity).
      - destruct s; discriminate H.
      - destruct l; discriminate H. }
    destruct (read_candidates show_data data) as [v|text|e0] eqn:R;
      intros H; [discriminate H | |].
    + injection H as <-. left. eexists. reflexivity.
    + injection H as <-. unfold read_candidates in R.
      destruct (lookup_get data "candidates" (JList [])) as [c| |e1] eqn:L1;
        cbn [lookup_bind] in R; [|discriminate R|].
      2: { injection R as <-. exact (Hget _ _ _ _ L1). }
      destruct (truthy c); cbn [negb] in R;
        [|injection R as <-; left; eexists; reflexivity].
      destruct (index0 c) as [f| |e1] eqn:L2;
        cbn [lookup_bind] in R; [|discriminate R|].
      2: { injection R as <-. exact (Hidx _ _ L2). }
      destruct (lookup_get f "content" (JDict [])) as [ct| |e1] eqn:L3;
        cbn [lookup_bind] in R; [|discriminate R|].
      2: { injection R as <-. exact (Hget _ _ _ _ L3). }
      destruct (lookup_get ct "parts" (JList [])) as [ps| |e1] eqn:L4;
        cbn [lookup_bind] in R; [|discriminate R|].
      2: { injection R as <-. exact (Hget _ _ _ _ L4). }
      destruct (truthy ps); cbn [negb] in R;
        [|injection R as <-; left; eexists; reflexivity].
      destruct (index0 ps) as [pt| |e1] eqn:L5;
        cbn [lookup_bind] in R; [|discriminate R|].
      2: { injection R as <-. exact (Hidx _ _ L5). }
      exact (Hget _ _ _ _ R).
  - intros d -> Hc. unfold read_gemini, read_candidates, lookup_get, get.
    cbn [lookup_bind]. rewrite Hc. cbn [negb]. eexists. reflexivity.
  - intros d first rest content -> Hc Hct Hp.
    unfold read_gemini, read_candidates, lookup_get, get.
    cbn [lookup_bind]. rewrite Hc. cbn [truthy List.length Nat.eqb negb
                                        index0 lookup_bind].
    rewrite Hct. cbn [lookup_bind]. rewrite Hp. cbn [negb].
    eexists. reflexivity.
  - intros d first rest content part parts -> Hc Hct Hp.
    unfold read_gemini, read_candidates, lookup_get, get.
    cbn [lookup_bind]. rewrite Hc. cbn [truthy List.length Nat.eqb negb
                                        index0 lookup_bind].
    rewrite Hct. cbn [lookup_bind]. rewrite Hp.
    cbn [truthy List.length Nat.eqb negb index0 lookup_bind]. reflexivity.
Qed.

End GeminiFacts.

(** Witness for X7: a keyed call with an image, answered 400. *)
Lemma gemini_posts_at_most_once_witness :
  let url := gemini_url Q gemini_double in
  let payload :=
    gemini_payload Q gemini_double "You are a verifier." "Compare."
      ["aGVsbG8="] in
  exists outcome,
    gemini_generate_text Q nat (fun _ => EmptyString) gemini_server_400
      gemini_double "You are a verifier." "Compare." ["aGVsbG8="]
      gemini_fresh
    = (outcome,
       {| gemini_world := 1;
          gemini_posts := (gemini_posts gemini_fresh ++ [(url, payload)])%list |})
    /\ exists msg, outcome = Raise (RuntimeError msg).
Proof.
  intros url payload.
  destruct (proj2 (gemini_posts_at_most_once Q nat (fun _ => EmptyString)
                     gemini_server_400 gemini_double
                     "You are a verifier." "Compare." ["aGVsbG8="]
                     gemini_fresh)
              ltac:(discriminate) _ 1 eq_refl)
    as (outcome & E & _ & H400 & _).
  exists outcome. split; [exact E|].
  apply (H400 _ eq_refl). discriminate.
Defined.

(** Witness for X9: a reply with one candidate holding one text part. *)
Lemma read_gemini_outcomes_witness :
  read_gemini (fun _ => EmptyString)
    (JDict [("candidates",
             JList [JDict [("content",
                            JDict [("parts",
                                    JList [JDict [("text", JStr "ok")]])])]])])
  = Ok (JStr "ok").
Proof.
  set (part := [("text", JStr "ok")]).
  set (content := [("parts", JList [JDict part])]).
  set (first := [("content", JDict content)]).
  set (d := [("candidates", JList [JDict first])]).
  change (Ok (JStr "ok"))
    with (Ok (dict_get part "text" (JStr EmptyString))).
  apply (proj2 (proj2 (proj2 (read_gemini_outcomes (fun _ => EmptyString)
                                (JDict d))))
           d first [] content part [] eq_refl); reflexivity.
Defined.

(** X8.  The two providers place the images on opposite sides of the
    text.  A Gemini request lists the non-empty images, in the order
    given, and then the user text as its last part; a Qwen request that
    carries images lists the user text first and then the non-empty
    images, in the order given.  Empty image entries are dropped by both. *)
Theorem image_order_per_provider :
  (forall (PyFloat : Type) (self : Gemini3Pro PyFloat)
          (system_prompt user_prompt : string) (images : list string),
      contents_parts PyFloat
        (gemini_payload PyFloat self system_prompt user_prompt images)
      = (map (InlineData "image/png") (filter nonempty_text images)
         ++ [TextOnly user_prompt])%list)
  /\ (forall (system_prompt user_prompt img : string) (images : list string),
        request_messages system_prompt user_prompt (img :: images)
        = [system_message system_prompt;
           {| role := "user";
              content :=
                Parts (TextPart user_prompt
                       :: map (fun i =>
                                 ImageUrlPart ("data:image/png;base64," ++ i))
                            (filter nonempty_text (img :: images))) |}]).
Proof.
  split.
  - intros. unfold gemini_payload. cbn [contents_parts].
    now rewrite inline_images_filter.
  - intros. unfold request_messages.
    now rewrite image_parts_filter.
Qed.

End ModernModelsRestFacts.

(* ================================================================== *)
(** * Facts about the skills, the generator and the verifier           *)
(* ================================================================== *)

Module VigaPartsFacts.
Import PyStr PyStrMore PyVal Memory MemoryRest VisionUtils Agent.
Import ModernModelsRest VigaParts.
Import PyStrFacts VisionUtilsFacts PyStrMoreFacts ExtractCodeFacts.

(** ** Substrings of a text built by appending *)

Lemma contains_inside (sub a m b : string) :
  contains sub m = true -> contains sub (a ++ m ++ b) = true.
Proof.
  unfold contains at 1.
  destruct (find_first sub m) as [p|] eqn:F; [|discriminate].
  intros _. apply find_first_Some in F. destruct F as [F _].
  exact (occurs_contains _ _ _ (occurs_at_inside sub a m b p F)).
Qed.

Lemma contains_skip (sub a m : string) :
  contains sub m = true -> contains sub (a ++ m) = true.
Proof.
  intros H. replace (a ++ m) with (a ++ m ++ EmptyString)
    by now rewrite append_empty_r.
  now apply contains_inside.
Qed.

Lemma contains_prefix (sub m b : string) :
  contains sub m = true -> contains sub (m ++ b) = true.
Proof.
  intros H. change (m ++ b) with (EmptyString ++ m ++ b).
  now apply contains_inside.
Qed.

(** Both prompts of the generator hold the word that the mock model
    looks for. *)
Lemma plan_prompt_mentions_plan (task context_memory : string) :
  contains "plan" (lower (plan_prompt task context_memory)) = true.
Proof.
  unfold plan_prompt. rewrite !lower_app.
  do 6 apply contains_skip. reflexivity.
Qed.

Lemma synthesis_prompt_mentions_plan (task plan context_str latest : string) :
  contains "plan" (lower (synthesis_prompt task plan context_str latest))
  = true.
Proof.
  unfold synthesis_prompt. rewrite !lower_app.
  do 3 apply contains_skip. apply contains_prefix. reflexivity.
Qed.

(** The entry that the quick path picks is an entry of the table whose
    command occurs in the text. *)
Lemma first_quick_command_sound (table : list (string * string))
  (text cmd code : string) :
  first_quick_command table text = Some (cmd, code) ->
  In (cmd, code) table /\ contains cmd text = true.
Proof.
  induction table as [|[c0 k0] rest IH]; [discriminate|].
  cbn [first_quick_command]. destruct (contains c0 text) eqn:E.
  - intros H. injection H as <- <-. split; [now left | exact E].
  - intros H. destruct (IH H) as [Hin Hc]. split; [now right | exact Hc].
Qed.

Section PartsFacts.
Variable World : Type.
Variable model_generate_text :
  string -> string -> list value -> World -> result string * World.
Variable mcp_execute_code : option string -> World -> result dict * World.
Variable mcp_get_scene_info : World -> result dict * World.
Variable mcp_get_viewport_screenshot : World -> result dict * World.
Variable json_dumps : dict -> string.
Variable viewpoint_code : string.

Local Abbreviation generate_step :=
  (generate_step World model_generate_text).
Local Abbreviation verify_step :=
  (verify_step World model_generate_text mcp_execute_code mcp_get_scene_info
     mcp_get_viewport_screenshot json_dumps viewpoint_code).
Local Abbreviation investigate :=
  (investigate World model_generate_text mcp_execute_code).

(** X10.  [GeneratorAgent.generate_step] asks the model for a plan and
    then for code, both times without images, and asks nothing of the
    host.  The plan prompt is built from the task and the rendered window
    of the memory; the code prompt from the task, the plan just received,
    the same window and the latest code of the memory.  When the planning
    call raises, the code call is not made.  On success the record holds
    the iteration index given, the plan as received, and the code
    extracted from the second answer; its other fields are empty. *)
Theorem generate_step_asks_plan_then_code
  (task : string) (memory : VIGAMemory) (t : Z) (st : Outside World)
  (r1 : result string) (w1 : World) :
  let context_str :=
    prompt_header
    ++ render_records
         (list_slice_from (history memory) (- window_size memory)) in
  let latest_code := first_code (rev (history memory)) in
  let planning :=
    EvModel planner_system (plan_prompt task context_str) [] in
  model_generate_text planner_system (plan_prompt task context_str) []
    (outside_world st) = (r1, w1) ->
  (forall e,
      r1 = Raise e ->
      generate_step task memory t st
      = (Raise e,
         {| outside_world := w1;
            events := (events st ++ [planning])%list |}))
  /\ (forall plan r2 w2,
        r1 = Ok plan ->
        let user := synthesis_prompt task plan context_str latest_code in
        model_generate_text generator_system user [] w1 = (r2, w2) ->
        generate_step task memory t st
        = (bind r2 (fun response =>
             Ok (new_context t (Some plan)
                   (Some (extract_code_from_response response)))),
           {| outside_world := w2;
              events := (events st
                         ++ [planning; EvModel generator_system user []])%list
           |})).
Proof.
  intros context_str latest_code planning H1. split.
  - intros e ->. unfold VigaParts.generate_step, make_plan, model,
      read_memory, pbind, pret, ask.
    cbn [fst get_full_prompt get_context_window get_latest_code].
    fold context_str. rewrite H1. reflexivity.
  - intros plan r2 w2 -> user H2.
    unfold VigaParts.generate_step, make_plan, model, read_memory, pbind,
      pret, ask.
    cbn [fst get_full_prompt get_context_window get_latest_code].
    fold context_str. rewrite H1.
    cbn [outside_world events fst]. fold latest_code. fold user.
    rewrite H2. rewrite <- app_assoc. destruct r2; reflexivity.
Qed.

(** X12.  [VerifierAgent.verify_step] works in a fixed order: it runs the
    viewpoint script on the host, reads the scene information, takes the
    screenshot, and only then asks the model.  Each request is made in the
    world that the request before it left.  The prompt of the model holds
    the task and the scene information just read, and the model is given
    exactly one image: the [image_data] of the screenshot just taken, or
    the empty text when that reply has none.  A request that raises ends
    the step there with that exception, so a returned feedback means all
    four requests were made, and the feedback is the model's answer.  The
    record that is passed in plays no part. *)
Theorem verify_step_looks_before_it_asks
  (task : string) (ctx : IterationContext) (st : Outside World) :
  let viewpoint := EvExecute (Some viewpoint_code) in
  (forall e w1,
      mcp_execute_code (Some viewpoint_code) (outside_world st)
      = (Raise e, w1) ->
      verify_step task ctx st
      = (Raise e,
         {| outside_world := w1;
            events := (events st ++ [viewpoint])%list |}))
  /\ (forall reply w1,
        mcp_execute_code (Some viewpoint_code) (outside_world st)
        = (Ok reply, w1) ->
        (forall e w2,
            mcp_get_scene_info w1 = (Raise e, w2) ->
            verify_step task ctx st
            = (Raise e,
               {| outside_world := w2;
                  events := (events st ++ [viewpoint; EvSceneInfo])%list |}))
        /\ (forall info w2,
              mcp_get_scene_info w1 = (Ok info, w2) ->
              (forall e w3,
                  mcp_get_viewport_screenshot w2 = (Raise e, w3) ->
                  verify_step task ctx st
                  = (Raise e,
                     {| outside_world := w3;
                        events := (events st
                                   ++ [viewpoint; EvSceneInfo;
                                       EvScreenshot])%list |}))
              /\ (forall shot w3 r w4,
                    mcp_get_viewport_screenshot w2 = (Ok shot, w3) ->
                    let user := verification_prompt task (json_dumps info) in
                    let images :=
                      [dict_get_default shot "image_data" (VStr EmptyString)] in
                    model_generate_text verifier_system user images w3
                    = (r, w4) ->
                    verify_step task ctx st
                    = (r,
                       {| outside_world := w4;
                          events := (events st
                                     ++ [viewpoint; EvSceneInfo; EvScreenshot;
                                         EvModel verifier_system user
                                           images])%list |}))))
  /\ (forall ctx', verify_step task ctx' st = verify_step task ctx st).
Proof.
  intros viewpoint. subst viewpoint.
  unfold VigaParts.verify_step, initialize_viewpoint, get_scene_info_text,
    execute_code, model, pbind, pret, ask.
  split; [|split; [|reflexivity]].
  - intros e w1 H1. rewrite H1. reflexivity.
  - intros reply w1 H1. rewrite H1. cbn [outside_world events]. split.
    + intros e w2 H2. rewrite H2. cbn [outside_world events].
      now rewrite <- app_assoc.
    + intros info w2 H2. rewrite H2. cbn [outside_world events]. split.
      * intros e w3 H3. rewrite H3. cbn [outside_world events].
        now rewrite <- !app_assoc.
      * intros shot w3 r w4 H3. cbv zeta. intros H4. rewrite H3.
        cbn [outside_world events]. rewrite H4.
        now rewrite <- !app_assoc.
Qed.

(** X13.  [SkillLibrary.investigate] runs at most one program on the
    host, and only a program that holds the text [bpy]; it asks the model
    at most once.  When a command of the quick table occurs in the
    lower-cased, stripped instruction, the first such entry of the table
    is run behind an [import bpy] line and the model is not asked;
    otherwise the model is asked first. *)
Theorem investigate_runs_only_bpy_code
  (instruction : string) (st : Outside World)
  (r : result unit) (st' : Outside World) :
  investigate instruction st = (r, st') ->
  exists es,
    events st' = (events st ++ es)%list
    /\ forallb executes_bpy_only es = true
    /\ List.length (filter is_model_event es) <= 1
    /\ List.length (filter is_host_event es) <= 1
    /\ match first_quick_command quick_commands
               (strip (lower instruction)) with
       | Some (cmd, code) =>
           In (cmd, code) quick_commands
           /\ contains cmd (strip (lower instruction)) = true
           /\ es = [EvExecute (Some ("import bpy" ++ nl ++ code))]
       | None =>
           exists rest,
             es = EvModel camera_system (investigate_prompt instruction) []
                  :: rest
       end.
Proof.
  unfold VigaParts.investigate.
  destruct (first_quick_command quick_commands (strip (lower instruction)))
    as [[cmd code]|] eqn:Q.
  - destruct (first_quick_command_sound _ _ _ _ Q) as [Hin Hc].
    unfold execute_code, pbind, pret, ask.
    destruct (mcp_execute_code _ (outside_world st)) as [[d|e] w1];
      intros H; injection H as <- <-;
      (eexists; split; [reflexivity|]);
      (split; [|split; [|split; [|split; [|split]]]]);
      cbn [filter is_model_event is_host_event List.length forallb
           executes_bpy_only andb];
      try lia; try reflexivity; try assumption;
      rewrite Bool.andb_true_r; apply contains_prefix; reflexivity.
  - unfold model, execute_code, pbind, pret, ask.
    destruct (model_generate_text _ _ _ (outside_world st)) as [[resp|e] w1];
      cbn [outside_world events].
    + destruct (negb (extract_code_from_response resp =? "")%string
                && contains "bpy" (extract_code_from_response resp)) eqn:C.
      * apply Bool.andb_true_iff in C. destruct C as [_ C].
        unfold pbind, ask. cbn [outside_world events].
        destruct (mcp_execute_code
                    (Some (extract_code_from_response resp)) w1)
          as [[d|e] w2];
          intros H; injection H as <- <-; cbn [events];
          rewrite <- app_assoc;
          (eexists; split; [reflexivity|]);
          cbn [filter is_model_event is_host_event List.length forallb
               executes_bpy_only andb app];
          rewrite C; repeat split; try lia; eexists; reflexivity.
      * intros H. injection H as <- <-.
        eexists; split; [reflexivity|].
        cbn [filter is_model_event is_host_event List.length forallb
             executes_bpy_only andb app].
        repeat split; try lia; eexists; reflexivity.
    + intros H. injection H as <- <-.
      eexists; split; [reflexivity|].
      cbn [filter is_model_event is_host_event List.length forallb
           executes_bpy_only andb].
      repeat split; try lia; eexists; reflexivity.
Qed.

End PartsFacts.

(** A run of the generator with the mock model on an empty memory. *)
Lemma generate_step_asks_plan_then_code_witness :
  fst (generate_step unit mock_model "Create a red cube" (VIGAMemory_init 3)
         0 quiet_outside)
  = Ok (new_context 0 (Some mock_plan_answer)
          (Some (extract_code_from_response mock_plan_answer))).
Proof.
  pose proof
    (proj2 (generate_step_asks_plan_then_code unit mock_model
              "Create a red cube" (VIGAMemory_init 3) 0 quiet_outside
              (Ok mock_plan_answer) tt eq_refl)
       mock_plan_answer (Ok mock_plan_answer) tt eq_refl eq_refl) as H.
  rewrite H. reflexivity.
Defined.

(** A run of the verifier against the mock model and a host that
    answers every request: the model is given the image of the
    screenshot. *)
Lemma verify_step_looks_before_it_asks_witness :
  verify_step unit mock_model mock_execute mock_scene_info mock_screenshot
    (fun _ => "{}") "import bpy" "Create a red cube"
    MemoryRest.example_record quiet_outside
  = (Ok mock_code_answer,
     {| outside_world := tt;
        events :=
          [EvExecute (Some "import bpy"); EvSceneInfo; EvScreenshot;
           EvModel verifier_system
             (verification_prompt "Create a red cube" "{}")
             [VStr "fake_base64_image"]] |}).
Proof.
  destruct (verify_step_looks_before_it_asks unit mock_model mock_execute
              mock_scene_info mock_screenshot (fun _ => "{}") "import bpy"
              "Create a red cube" MemoryRest.example_record quiet_outside)
    as (_ & H & _).
  destruct (H _ tt eq_refl) as (_ & H2).
  destruct (H2 _ tt eq_refl) as (_ & H3).
  exact (H3 _ tt (Ok mock_code_answer) tt eq_refl eq_refl).
Defined.

(** An instruction that holds a quick command, in upper case. *)
Lemma investigate_runs_only_bpy_code_witness :
  events
    (snd (investigate unit mock_model mock_execute "  Please ROTATE LEFT now "
            quiet_outside))
  = [EvExecute
       (Some ("import bpy" ++ nl
              ++ "bpy.context.scene.camera.rotation_euler[2] += 0.2"))].
Proof.
  set (run := investigate unit mock_model mock_execute
                "  Please ROTATE LEFT now " quiet_outside).
  destruct (investigate_runs_only_bpy_code unit mock_model mock_execute
              "  Please ROTATE LEFT now " quiet_outside
              (fst run) (snd run) eq_refl)
    as (es & Hev & _ & _ & _ & Hq).
  rewrite Hev.
  change (first_quick_command quick_commands
            (strip (lower "  Please ROTATE LEFT now ")))
    with (Some ("rotate left",
                "bpy.context.scene.camera.rotation_euler[2] += 0.2")) in Hq.
  destruct Hq as (_ & _ & ->). reflexivity.
Defined.

(** X11.  With the mock model, whatever the task and the memory, both
    prompts of the generator hold the word that the mock looks for, so
    both answers are the mock's JSON block: the record's plan is that
    block, and its code is the content of the block with its language
    tag in front, never the mock's Python snippet; that code holds no
    [bpy]. *)
Theorem mock_generator_records_the_json_block
  (task : string) (memory : VIGAMemory) (t : Z) (st : Outside unit) :
  let code :=
    "json" ++ nl ++ "{" ++ nl
    ++ "    " ++ dq ++ "subtasks" ++ dq ++ ": [{" ++ dq ++ "id" ++ dq ++ ": "
    ++ dq ++ "1" ++ dq ++ ", " ++ dq ++ "description" ++ dq ++ ": " ++ dq
    ++ "Create base mesh" ++ dq ++ "}]" ++ nl ++ "}" in
  (exists st',
      generate_step unit mock_model task memory t st
      = (Ok (new_context t (Some mock_plan_answer) (Some code)), st')
      /\ List.length (events st') = List.length (events st) + 2)
  /\ contains "bpy" code = false
  /\ code <> extract_code_from_response mock_code_answer.
Proof.
  intros code. split; [|split; [reflexivity | discriminate]].
  unfold VigaParts.generate_step, make_plan, model, read_memory, pbind,
    pret, ask, mock_model, mock_generate_text.
  cbn [fst get_full_prompt get_context_window get_latest_code].
  rewrite plan_prompt_mentions_plan. cbn [outside_world events].
  rewrite synthesis_prompt_mentions_plan.
  eexists. split; [reflexivity|].
  cbn [events]. rewrite !length_app. cbn [List.length]. lia.
Qed.

End VigaPartsFacts.

(* ================================================================== *)
(** * Facts about whole runs of the loop                               *)
(* ================================================================== *)

Module RunLoopTraceFacts.
Import PyStr Memory MemoryRest PyVal VisionUtils Agent Traces VigaParts.
Import AgentFacts ExtractCodeFacts.

(** ** The static context as a map *)

Lemma assoc_get_set_same (d : list (string * string)) (k v : string) :
  assoc_get (assoc_set d k v) k = Some v.
Proof.
  induction d as [|[k0 v0] d IH]; simpl.
  - now rewrite String.eqb_refl.
  - destruct (String.eqb k0 k) eqn:E; simpl.
    + now rewrite String.eqb_refl.
    + now rewrite E.
Qed.

Lemma assoc_get_set_other (d : list (string * string)) (k v k' : string) :
  k' <> k -> assoc_get (assoc_set d k v) k' = assoc_get d k'.
Proof.
  intros Hne. assert (Hk : String.eqb k k' = false).
  { apply String.eqb_neq. congruence. }
  induction d as [|[k0 v0] d IH]; simpl.
  - now rewrite Hk.
  - destruct (String.eqb k0 k) eqn:E; simpl.
    + apply String.eqb_eq in E. subst k0. now rewrite Hk.
    + now rewrite IH.
Qed.

(** ** Memories that differ by appended records *)

Lemma memory_after_nil (m : VIGAMemory) : memory_after m [] = m.
Proof. destruct m. unfold memory_after. cbn. now rewrite app_nil_r. Qed.

Lemma memory_after_app (m : VIGAMemory) (a b : list IterationContext) :
  memory_after (memory_after m a) b = memory_after m (a ++ b)%list.
Proof. unfold memory_after. cbn. now rewrite app_assoc. Qed.

Lemma count_calls_app (p : Call -> bool) (a b : list Call) :
  count_calls p (a ++ b) = count_calls p a + count_calls p b.
Proof. unfold count_calls. now rewrite filter_app, length_app. Qed.

Lemma range_nth (n : Z) (i : nat) (t : Z) :
  nth_error (range n) i = Some t -> t = Z.of_nat i.
Proof.
  unfold range. intros H. rewrite nth_error_map in H.
  destruct (nth_error (seq 0 (Z.to_nat n)) i) as [j|] eqn:E; [|discriminate].
  injection H as <-. f_equal.
  assert (Hi : i < List.length (seq 0 (Z.to_nat n))).
  { apply nth_error_Some. congruence. }
  rewrite length_seq in Hi.
  rewrite (nth_error_nth' _ 0) in E by now rewrite length_seq.
  rewrite seq_nth in E by exact Hi. now injection E as <-.
Qed.

Lemma firstn_seq_le (k : nat) :
  forall start len, k <= len -> firstn k (seq start len) = seq start k.
Proof.
  induction k as [|k IH]; intros start len Hk; [reflexivity|].
  destruct len as [|len]; [lia|]. cbn. f_equal. apply IH. lia.
Qed.

Lemma range_firstn (n : Z) (k : nat) :
  k <= List.length (range n) ->
  firstn k (range n) = map Z.of_nat (seq 0 k).
Proof.
  unfold range. rewrite length_map, length_seq. intros Hk.
  now rewrite firstn_map, firstn_seq_le.
Qed.

Section TraceFacts.
Variable World : Type.
Variable generate_step : string -> VIGAMemory -> Z -> external World IterationContext.
Variable execute_code : option string -> external World dict.
Variable verify_step : string -> IterationContext -> external World string.

Local Abbreviation iteration :=
  (iteration World generate_step execute_code verify_step).
Local Abbreviation for_each := (for_each World).
Local Abbreviation run_loop :=
  (run_loop World generate_step execute_code verify_step).

(** What one iteration asks and stores. *)
Lemma iteration_trace (task : string) (t : Z) (st : AgentState World)
  (r : result bool) (st' : AgentState World) :
  iteration task t st = (r, st') ->
  exists cs,
    calls st' = (calls st ++ cs)%list
    /\ filter is_generator_call cs = [CallGenerator t]
    /\ count_calls is_host_call cs <= 1
    /\ count_calls is_verifier_call cs <= count_calls is_host_call cs
    /\ match r with
       | Ok stop =>
           count_calls is_host_call cs = 1
           /\ exists ctx w w' text feedback,
               generate_step task (memory st) t w = (Ok ctx, w')
               /\ text <> EmptyString
               /\ memory st'
                  = memory_after (memory st) [stored_record ctx text feedback]
               /\ stop = carries_sentinel (stored_record ctx text feedback)
       | Raise _ => memory st' = memory st
       end.
Proof.
  unfold_loop.
  destruct (generate_step task (memory st) t (world st)) as [[ctx|e] w1] eqn:G;
    cbn [memory world calls].
  2: { intros H. injection H as <- <-. exists [CallGenerator t].
       cbn. repeat split; lia. }
  destruct (execute_code (code ctx) w1) as [[reply|e] w2];
    cbn [memory world calls].
  2: { intros H. injection H as <- <-.
       exists [CallGenerator t; CallHost (code ctx)].
       cbn. rewrite <- app_assoc. repeat split; lia. }
  destruct (status_is_error reply); cbn [memory world calls].
  - intros H. injection H as <- <-.
    exists [CallGenerator t; CallHost (code ctx)].
    cbn [memory world calls]. rewrite <- app_assoc.
    split; [reflexivity|]. split; [reflexivity|].
    split; [cbn; lia|]. split; [cbn; lia|]. split; [reflexivity|].
    exists ctx, (world st), w1, (repr (VDict reply)),
      (execution_error_text reply).
    split; [exact G|]. split; [discriminate|]. split; reflexivity.
  - destruct (verify_step task _ w2) as [[fb|e] w3]; cbn [memory world calls].
    + intros H. injection H as <- <-.
      exists [CallGenerator t; CallHost (code ctx);
              CallVerifier (iteration_id ctx)].
      cbn [memory world calls]. rewrite <- !app_assoc.
      split; [reflexivity|]. split; [reflexivity|].
      split; [cbn; lia|]. split; [cbn; lia|]. split; [reflexivity|].
      exists ctx, (world st), w1, (repr (VDict reply)), fb.
      split; [exact G|]. split; [discriminate|]. split; reflexivity.
    + intros H. injection H as <- <-.
      exists [CallGenerator t; CallHost (code ctx);
              CallVerifier (iteration_id ctx)].
      cbn. rewrite <- !app_assoc. repeat split; lia.
Qed.

(** What a loop over [ts] asks and stores. *)
Lemma for_each_trace (task : string) (ts : list Z) :
  forall (st : AgentState World) r st',
    for_each ts (iteration task) st = (r, st') ->
    exists new cs k,
      memory st' = memory_after (memory st) new
      /\ calls st' = (calls st ++ cs)%list
      /\ filter is_generator_call cs = map CallGenerator (firstn k ts)
      /\ k <= List.length ts
      /\ count_calls is_host_call cs <= k
      /\ count_calls is_verifier_call cs <= count_calls is_host_call cs
      /\ (forall i rec,
            nth_error new i = Some rec ->
            exists t ctx w w' text feedback,
              nth_error ts i = Some t
              /\ generate_step task
                   (memory_after (memory st) (firstn i new)) t w
                 = (Ok ctx, w')
              /\ text <> EmptyString
              /\ rec = stored_record ctx text feedback)
      /\ match r with
         | Ok _ =>
             k = List.length new /\ count_calls is_host_call cs = k
         | Raise _ =>
             k = S (List.length new)
             /\ List.length new <= count_calls is_host_call cs
         end.
Proof.
  induction ts as [|t ts IH]; intros st r st' H.
  - injection H as <- <-. exists [], [], 0.
    rewrite memory_after_nil, app_nil_r. cbn.
    repeat split; try lia. intros [|i] rec Hi; discriminate Hi.
  - cbn [Agent.for_each] in H. unfold mbind in H.
    destruct (iteration task t st) as [r1 st1] eqn:It.
    destruct (iteration_trace task t st r1 st1 It)
      as (cs1 & Hc1 & Hg1 & Hh1 & Hv1 & Hr1).
    destruct r1 as [stop|e].
    + destruct Hr1 as (Hone & ctx & w & w' & text & fb & Hgen & Htext
                       & Hmem & Hstop).
      assert (Hfirst :
                forall new' i rec,
                  nth_error (stored_record ctx text fb :: new') i = Some rec ->
                  i = 0 ->
                  exists t0 ctx0 w0 w0' text0 feedback0,
                    nth_error (t :: ts) i = Some t0
                    /\ generate_step task
                         (memory_after (memory st)
                            (firstn i (stored_record ctx text fb :: new')))
                         t0 w0
                       = (Ok ctx0, w0')
                    /\ text0 <> EmptyString
                    /\ rec = stored_record ctx0 text0 feedback0).
      { intros new' i rec Hi ->. cbn in Hi. injection Hi as <-.
        exists t, ctx, w, w', text, fb. cbn [firstn nth_error].
        rewrite memory_after_nil. repeat split; assumption. }
      destruct stop.
      * injection H as <- <-.
        exists [stored_record ctx text fb], cs1, 1.
        split; [exact Hmem|]. split; [exact Hc1|].
        split; [exact Hg1|]. split; [cbn; lia|].
        split; [lia|]. split; [exact Hv1|]. split.
        -- intros [|i] rec Hi; [now apply (Hfirst [] 0 rec)|].
           destruct i; discriminate Hi.
        -- cbn. split; [reflexivity | exact Hone].
      * apply IH in H.
        destruct H as (new & cs & k & Hm & Hc & Hg & Hk & Hh & Hv & Hrec & Hr).
        exists (stored_record ctx text fb :: new), (cs1 ++ cs)%list, (S k).
        split; [rewrite Hm, Hmem; now rewrite memory_after_app|].
        split; [rewrite Hc, Hc1; now rewrite app_assoc|].
        split; [rewrite filter_app, Hg1, Hg; reflexivity|].
        split; [cbn; lia|].
        rewrite !count_calls_app.
        split; [lia|]. split; [lia|]. split.
        -- intros [|i] rec Hi; [now apply (Hfirst new 0 rec)|].
           cbn [nth_error] in Hi.
           destruct (Hrec i rec Hi)
             as (t0 & ctx0 & w0 & w0' & text0 & fb0 & Ht0 & Hg0 & Hx0 & Hr0).
           exists t0, ctx0, w0, w0', text0, fb0. cbn [nth_error firstn].
           split; [exact Ht0|]. split; [|split; assumption].
           rewrite Hmem, memory_after_app in Hg0. exact Hg0.
        -- destruct r as [u|e]; cbn [List.length]; lia.
    + injection H as <- <-. exists [], cs1, 1.
      rewrite memory_after_nil.
      split; [exact Hr1|]. split; [exact Hc1|]. split; [exact Hg1|].
      split; [cbn; lia|]. split; [lia|]. split; [exact Hv1|]. split.
      * intros [|i] rec Hi; discriminate Hi.
      * cbn. lia.
Qed.

(** The loop of [run_loop] starts from the memory with the task set. *)
Lemma run_loop_eq (task : string) (n : Z) (st0 : AgentState World) :
  run_loop task n st0
  = match for_each (range n) (iteration task)
            {| memory := snd (set_task task (memory st0));
               world := world st0; calls := calls st0 |} with
    | (Ok _, st') => (Ok (memory st'), st')
    | (Raise e, st') => (Raise e, st')
    end.
Proof. reflexivity. Qed.

(** What a whole run asks and stores. *)
Lemma run_loop_trace (task : string) (n : Z) (st0 : AgentState World)
  (r : result VIGAMemory) (st' : AgentState World) :
  run_loop task n st0 = (r, st') ->
  exists new cs k,
    memory st' = memory_after (snd (set_task task (memory st0))) new
    /\ calls st' = (calls st0 ++ cs)%list
    /\ filter is_generator_call cs
       = map CallGenerator (map Z.of_nat (seq 0 k))
    /\ k <= Z.to_nat n
    /\ count_calls is_host_call cs <= k
    /\ count_calls is_verifier_call cs <= count_calls is_host_call cs
    /\ (forall i rec,
          nth_error new i = Some rec ->
          exists ctx w w' text feedback,
            generate_step task
              (memory_after (snd (set_task task (memory st0))) (firstn i new))
              (Z.of_nat i) w
            = (Ok ctx, w')
            /\ text <> EmptyString
            /\ rec = stored_record ctx text feedback)
    /\ match r with
       | Ok returned =>
           returned = memory st'
           /\ k = List.length new /\ count_calls is_host_call cs = k
       | Raise _ =>
           k = S (List.length new)
           /\ List.length new <= count_calls is_host_call cs
       end.
Proof.
  rewrite run_loop_eq.
  destruct (for_each (range n) (iteration task) _) as [r1 st1] eqn:F.
  apply for_each_trace in F. cbn [memory world calls] in F.
  destruct F as (new & cs & k & Hm & Hc & Hg & Hk & Hh & Hv & Hrec & Hr).
  assert (Hlen : List.length (range n) = Z.to_nat n).
  { unfold range. now rewrite length_map, length_seq. }
  intros H. exists new, cs, k.
  assert (Hst : st' = st1) by (destruct r1; now injection H).
  subst st'.
  split; [exact Hm|]. split; [exact Hc|].
  split; [rewrite Hg, range_firstn by exact Hk; reflexivity|].
  split; [lia|]. split; [exact Hh|]. split; [exact Hv|]. split.
  - intros i rec Hi.
    destruct (Hrec i rec Hi)
      as (t & ctx & w & w' & text & fb & Ht & Hgen & Hx & Hrc).
    apply range_nth in Ht. subst t.
    exists ctx, w, w', text, fb. repeat split; assumption.
  - destruct r1 as [u|e]; injection H as <-; [|exact Hr].
    split; [reflexivity | exact Hr].
Qed.

(** X14.  Every record that a run of [VIGAAgent.run_loop] stores was
    built by the generator, asked with the task, the iteration index
    equal to the record's position in the run, and a memory that holds
    exactly the records stored before it.  Its index, plan and code are
    the generator's; its execution result is filled with a non-empty
    text and its feedback is filled.  This holds for every generator,
    host and verifier, whether the run returns or raises. *)
Theorem run_loop_stores_what_was_generated
  (task : string) (max_iterations : Z) (st0 : AgentState World)
  (r : result VIGAMemory) (st' : AgentState World) :
  run_loop task max_iterations st0 = (r, st') ->
  exists new,
    history (memory st') = (history (memory st0) ++ new)%list
    /\ forall i rec,
        nth_error new i = Some rec ->
        exists ctx mem w w' text feedback,
          history mem = (history (memory st0) ++ firstn i new)%list
          /\ generate_step task mem (Z.of_nat i) w = (Ok ctx, w')
          /\ iteration_id rec = iteration_id ctx
          /\ plan rec = plan ctx
          /\ code rec = code ctx
          /\ execution_result rec = Some text
          /\ text <> EmptyString
          /\ visual_feedback rec = Some feedback.
Proof.
  intros H. apply run_loop_trace in H.
  destruct H as (new & cs & k & Hm & _ & _ & _ & _ & _ & Hrec & _).
  exists new. split; [now rewrite Hm|].
  intros i rec Hi.
  destruct (Hrec i rec Hi) as (ctx & w & w' & text & fb & Hgen & Hx & ->).
  exists ctx,
    (memory_after (snd (set_task task (memory st0))) (firstn i new)),
    w, w', text, fb.
  split; [reflexivity|]. split; [exact Hgen|].
  repeat split; try reflexivity. exact Hx.
Qed.

(** X15.  The calls of a run of [VIGAAgent.run_loop], for every
    generator, host and verifier: the generator is asked with the
    indices 0, 1, 2, ... in this order, never more than [max_iterations]
    times; the host is asked at most once per generator call and the
    verifier at most once per host call.  A run that returns has asked
    generator and host exactly once per stored record; a run that raises
    has asked the generator once more than it stored records. *)
Theorem run_loop_call_discipline
  (task : string) (max_iterations : Z) (st0 : AgentState World)
  (r : result VIGAMemory) (st' : AgentState World) :
  run_loop task max_iterations st0 = (r, st') ->
  exists new cs k,
    history (memory st') = (history (memory st0) ++ new)%list
    /\ calls st' = (calls st0 ++ cs)%list
    /\ filter is_generator_call cs
       = map CallGenerator (map Z.of_nat (seq 0 k))
    /\ (Z.of_nat k <= Z.max 0 max_iterations)%Z
    /\ count_calls is_verifier_call cs <= count_calls is_host_call cs
    /\ count_calls is_host_call cs <= k
    /\ match r with
       | Ok _ =>
           k = List.length new /\ count_calls is_host_call cs = k
       | Raise _ =>
           k = S (List.length new)
           /\ List.length new <= count_calls is_host_call cs
       end.
Proof.
  intros H. apply run_loop_trace in H.
  destruct H as (new & cs & k & Hm & Hc & Hg & Hk & Hh & Hv & _ & Hr).
  exists new, cs, k.
  split; [now rewrite Hm|]. split; [exact Hc|]. split; [exact Hg|].
  split; [lia|]. split; [exact Hv|]. split; [exact Hh|].
  destruct r; [exact (proj2 Hr) | exact Hr].
Qed.

(** X16.  A run of [VIGAAgent.run_loop] files the task under the key
    [task] of the static context, whether it returns or raises: looking
    the key up in the final memory gives the task, every other key
    keeps what it had, and the window size is unchanged.  A run that
    returns hands back the agent's own memory. *)
Theorem run_loop_files_the_task
  (task : string) (max_iterations : Z) (st0 : AgentState World)
  (r : result VIGAMemory) (st' : AgentState World) :
  run_loop task max_iterations st0 = (r, st') ->
  assoc_get (static_context (memory st')) "task" = Some task
  /\ (forall key,
        key <> "task" ->
        assoc_get (static_context (memory st')) key
        = assoc_get (static_context (memory st0)) key)
  /\ window_size (memory st') = window_size (memory st0)
  /\ (forall returned, r = Ok returned -> returned = memory st').
Proof.
  intros H. apply run_loop_trace in H.
  destruct H as (new & cs & k & Hm & _ & _ & _ & _ & _ & _ & Hr).
  split; [|split; [|split]].
  - rewrite Hm. apply assoc_get_set_same.
  - intros key Hkey. rewrite Hm. now apply assoc_get_set_other.
  - now rewrite Hm.
  - intros returned ->. exact (proj1 Hr).
Qed.

End TraceFacts.

(** A run of three iterations whose verifier is content at iteration 1. *)
Lemma run_loop_stores_what_was_generated_witness :
  exists new,
    history
      (memory
         (snd (run_loop unit generator_double host_success
                 (verifier_sentinel_at 1) "Create a red cube" 3
                 (empty_state 3))))
    = (history (memory (empty_state 3)) ++ new)%list
    /\ List.length new = 2.
Proof.
  set (run := run_loop unit generator_double host_success
                (verifier_sentinel_at 1) "Create a red cube" 3
                (empty_state 3)).
  destruct (run_loop_stores_what_was_generated unit generator_double
              host_success (verifier_sentinel_at 1) "Create a red cube" 3
              (empty_state 3) (fst run) (snd run) eq_refl)
    as (new & Hnew & _).
  exists new. split; [exact Hnew|].
  cbn [empty_state memory history VIGAMemory_init app] in Hnew.
  rewrite <- Hnew. reflexivity.
Defined.

(** The same run: two generator calls, two host calls. *)
Lemma run_loop_call_discipline_witness :
  exists cs,
    calls
      (snd (run_loop unit generator_double host_success
              (verifier_sentinel_at 1) "Create a red cube" 3
              (empty_state 3)))
    = (calls (empty_state 3) ++ cs)%list
    /\ filter is_generator_call cs = [CallGenerator 0; CallGenerator 1].
Proof.
  set (run := run_loop unit generator_double host_success
                (verifier_sentinel_at 1) "Create a red cube" 3
                (empty_state 3)).
  destruct (run_loop_call_discipline unit generator_double
              host_success (verifier_sentinel_at 1) "Create a red cube" 3
              (empty_state 3) (fst run) (snd run) eq_refl)
    as (new & cs & k & _ & Hcs & _).
  exists cs. split; [exact Hcs|].
  cbn [empty_state calls app] in Hcs. rewrite <- Hcs. reflexivity.
Defined.

(** The same run: the task is filed. *)
Lemma run_loop_files_the_task_witness :
  assoc_get
    (static_context
       (memory
          (snd (run_loop unit generator_double host_success
                  (verifier_sentinel_at 1) "Create a red cube" 3
                  (empty_state 3)))))
    "task"
  = Some "Create a red cube".
Proof.
  set (run := run_loop unit generator_double host_success
                (verifier_sentinel_at 1) "Create a red cube" 3
                (empty_state 3)).
  exact (proj1 (run_loop_files_the_task unit generator_double
                  host_success (verifier_sentinel_at 1) "Create a red cube" 3
                  (empty_state 3) (fst run) (snd run) eq_refl)).
Defined.

(** ** The loop with the agent's own generator, skills and verifier *)

Section VigaLoopFacts.
Variable World : Type.
Variable model_generate_text :
  string -> string -> list value -> World -> result string * World.
Variable mcp_execute_code : option string -> World -> result dict * World.
Variable mcp_get_scene_info : World -> result dict * World.
Variable mcp_get_viewport_screenshot : World -> result dict * World.
Variable json_dumps : dict -> string.
Variable viewpoint_code : string.

Local Abbreviation generate_step :=
  (VigaParts.generate_step World model_generate_text).
Local Abbreviation viga_run_loop :=
  (viga_run_loop World model_generate_text mcp_execute_code
     mcp_get_scene_info mcp_get_viewport_screenshot json_dumps
     viewpoint_code).

(** A record that the generator returns holds two answers of the model. *)
Lemma generate_step_ok (task : string) (mem : VIGAMemory) (t : Z)
  (st : Outside World) (ctx : IterationContext) (st' : Outside World) :
  generate_step task mem t st = (Ok ctx, st') ->
  let context_str :=
    prompt_header
    ++ render_records (list_slice_from (history mem) (- window_size mem)) in
  let latest_code := first_code (rev (history mem)) in
  exists answer response w1 w2,
    model_generate_text planner_system (plan_prompt task context_str) []
      (outside_world st) = (Ok answer, w1)
    /\ model_generate_text generator_system
         (synthesis_prompt task answer context_str latest_code) [] w1
       = (Ok response, w2)
    /\ ctx = new_context t (Some answer)
               (Some (extract_code_from_response response)).
Proof.
  intros H context_str latest_code.
  unfold VigaParts.generate_step, make_plan, model, read_memory, pbind,
    pret, ask in H.
  cbn [fst get_full_prompt get_context_window get_latest_code] in H.
  fold context_str in H.
  destruct (model_generate_text planner_system _ _ (outside_world st))
    as [[answer|e] w1] eqn:H1; [|discriminate H].
  cbn [outside_world events fst] in H. fold latest_code in H.
  destruct (model_generate_text generator_system _ _ w1)
    as [[response|e] w2] eqn:H2; [|discriminate H].
  injection H as <- _. exists answer, response, w1, w2.
  split; [reflexivity|]. split; [exact H2 | reflexivity].
Qed.

(** X17.  In a run of the agent's loop with its own generator, the
    record stored at position [i] is numbered [i]; its plan is the
    model's answer to the plan prompt, and its code is what
    [extract_code_from_response] takes out of the model's answer to the
    code prompt.  Both prompts are built from the task and from the
    memory as it was before the iteration: the window over the records
    stored so far, and the latest code among them.  This holds for every
    model and host, whether the run returns or raises. *)
Theorem viga_records_hold_the_model_answers
  (task : string) (max_iterations : Z) (st0 : AgentState (Outside World))
  (r : result VIGAMemory) (st' : AgentState (Outside World)) :
  viga_run_loop task max_iterations st0 = (r, st') ->
  exists new,
    history (memory st') = (history (memory st0) ++ new)%list
    /\ forall i rec,
        nth_error new i = Some rec ->
        let before := (history (memory st0) ++ firstn i new)%list in
        let context_str :=
          prompt_header
          ++ render_records
               (list_slice_from before (- window_size (memory st0))) in
        let latest_code := first_code (rev before) in
        exists answer response w w1 w2,
          model_generate_text planner_system (plan_prompt task context_str)
            [] w = (Ok answer, w1)
          /\ model_generate_text generator_system
               (synthesis_prompt task answer context_str latest_code) [] w1
             = (Ok response, w2)
          /\ iteration_id rec = Z.of_nat i
          /\ plan rec = Some answer
          /\ code rec = Some (extract_code_from_response response).
Proof.
  intros H. unfold VigaParts.viga_run_loop in H. apply run_loop_trace in H.
  destruct H as (new & cs & k & Hm & _ & _ & _ & _ & _ & Hrec & _).
  exists new. split; [now rewrite Hm|].
  intros i rec Hi before context_str latest_code.
  destruct (Hrec i rec Hi) as (ctx & w & w' & text & fb & Hgen & _ & ->).
  apply generate_step_ok in Hgen.
  destruct Hgen as (answer & response & w1 & w2 & H1 & H2 & ->).
  exists answer, response, (outside_world w), w1, w2.
  split; [exact H1|]. split; [exact H2|]. repeat split.
Qed.

End VigaLoopFacts.

(** A run of two iterations with the mock model and a host that always
    succeeds: two records, numbered 0 and 1. *)
Lemma viga_records_hold_the_model_answers_witness :
  exists new,
    history
      (memory
         (snd (viga_run_loop unit mock_model mock_execute mock_scene_info
                 mock_screenshot (fun _ => "{}") "import bpy"
                 "Create a red cube" 2
                 {| memory := VIGAMemory_init 3; world := quiet_outside;
                    calls := [] |})))
    = new
    /\ map iteration_id new = [0%Z; 1%Z].
Proof.
  set (st0 := {| memory := VIGAMemory_init 3; world := quiet_outside;
                 calls := [] |}).
  set (run := viga_run_loop unit mock_model mock_execute mock_scene_info
                mock_screenshot (fun _ => "{}") "import bpy"
                "Create a red cube" 2 st0).
  destruct (viga_records_hold_the_model_answers unit mock_model mock_execute
              mock_scene_info mock_screenshot (fun _ => "{}") "import bpy"
              "Create a red cube" 2 st0 (fst run) (snd run)
              (surjective_pairing run))
    as (new & Hnew & _).
  exists new.
  change (history (memory st0)) with (@nil IterationContext) in Hnew.
  cbn [app] in Hnew.
  split; [exact Hnew|]. rewrite <- Hnew. vm_compute. reflexivity.
Defined.

End RunLoopTraceFacts.

(* ================================================================== *)
(** * Facts about every outcome of the evaluator                       *)
(* ================================================================== *)

Module EvaluatorOutcomeFacts.
Import Orchestrator.

Section OutcomeFacts.
Variable World : Type.
Variable analyze_scene :
  string -> string -> Z -> Z -> option jvalue -> World -> result jvalue * World.

Local Abbreviation evaluate := (evaluate World analyze_scene).

(** The two fallback states store a number and a dict, and keep the
    flag. *)
Lemma evaluation_failed_shape (state : WorkflowState) (e : PyExn) :
  quality_score (evaluation_failed state e) = JNumber (Finite (1 # 2))
  /\ (exists d, visual_feedback (evaluation_failed state e) = JDict d)
  /\ is_satisfied (evaluation_failed state e) = is_satisfied state.
Proof. split; [reflexivity|]. split; [eexists|]; reflexivity. Qed.

(** What [record_evaluation] stores, case by case. *)
Lemma record_evaluation_cases (state : WorkflowState) (eval_data : jvalue) :
  (exists e, record_evaluation state eval_data = evaluation_failed state e)
  \/ (exists d n,
        eval_data = JDict d
        /\ as_number (dict_get d "overall_score" (JNumber (Finite 0)))
           = Some n
        /\ quality_score (record_evaluation state eval_data)
           = dict_get d "overall_score" (JNumber (Finite 0))
        /\ visual_feedback (record_evaluation state eval_data) = JDict d
        /\ user_intent (record_evaluation state eval_data)
           = user_intent state
        /\ current_iteration (record_evaluation state eval_data)
           = current_iteration state
        /\ max_iterations (record_evaluation state eval_data)
           = max_iterations state
        /\ satisfaction_threshold (record_evaluation state eval_data)
           = satisfaction_threshold state
        /\ screenshot_base64 (record_evaluation state eval_data)
           = screenshot_base64 state
        /\ iteration_history (record_evaluation state eval_data)
           = iteration_history state).
Proof.
  unfold record_evaluation, get.
  destruct eval_data as [| b | n | s | items | d];
    try (left; eexists; reflexivity).
  unfold py_ge.
  cbn [quality_score set_feedback set_quality_score satisfaction_threshold].
  destruct (as_number (dict_get d "overall_score" (JNumber (Finite 0))))
    as [n|] eqn:N.
  - right. exists d, n. split; [reflexivity|]. split; [exact N|].
    destruct (number_ge n (satisfaction_threshold state));
      repeat split; reflexivity.
  - left. eexists. unfold evaluation_failed. reflexivity.
Qed.

(** X18.  Whatever the vision client does, [EvaluatorAgent.evaluate]
    returns a state whose quality score is a number and whose visual
    feedback is a dict, so the caller may format the one and call [get]
    on the other; it changes no field other than the score, the feedback
    and the satisfaction flag.  Without a screenshot (none, or an empty
    text) the client is not called and the score is 0.0.  The
    satisfaction flag changes only when the client returned a dict whose
    overall score is a number: a missing screenshot, a client that
    raises, a reply that is not a dict and a score that is not a number
    all leave the flag as it was. *)
Theorem evaluate_leaves_a_usable_state (state : WorkflowState) (w : World) :
  let state' := fst (evaluate state w) in
  (exists n, as_number (quality_score state') = Some n)
  /\ (exists d, visual_feedback state' = JDict d)
  /\ (user_intent state' = user_intent state
      /\ current_iteration state' = current_iteration state
      /\ max_iterations state' = max_iterations state
      /\ satisfaction_threshold state' = satisfaction_threshold state
      /\ screenshot_base64 state' = screenshot_base64 state
      /\ iteration_history state' = iteration_history state)
  /\ (screenshot_base64 state = None
      \/ screenshot_base64 state = Some EmptyString ->
      snd (evaluate state w) = w
      /\ quality_score state' = JNumber (Finite 0)
      /\ is_satisfied state' = is_satisfied state)
  /\ (is_satisfied state' <> is_satisfied state ->
      exists screenshot d n w',
        screenshot_base64 state = Some screenshot
        /\ screenshot <> EmptyString
        /\ analyze_scene screenshot (user_intent state)
             (current_iteration state) (max_iterations state)
             (last (map Some (iteration_history state)) None) w
           = (Ok (JDict d), w')
        /\ as_number (dict_get d "overall_score" (JNumber (Finite 0)))
           = Some n
        /\ quality_score state'
           = dict_get d "overall_score" (JNumber (Finite 0))).
Proof.
  intros state'. subst state'. unfold Orchestrator.evaluate.
  destruct (screenshot_base64 state) as [[|c shot]|] eqn:S.
  - cbn [fst snd]. split; [eexists; reflexivity|].
    split; [eexists; reflexivity|].
    split; [now repeat split|].
    split; [intros _; now repeat split|].
    intros H. now contradiction H.
  - destruct (analyze_scene (String c shot) (user_intent state)
                (current_iteration state) (max_iterations state)
                (last (map Some (iteration_history state)) None) w)
      as [[eval_data|e] w'] eqn:A; cbn [fst snd].
    + destruct (record_evaluation_cases state eval_data)
        as [[e ->]|(d & n & -> & Hn & Hq & Hf & H1 & H2 & H3 & H4 & H5 & H6)].
      * split; [eexists; reflexivity|]. split; [eexists; reflexivity|].
        split; [now repeat split|].
        split; [intros [H|H]; discriminate H|].
        intros H. now contradiction H.
      * split; [exists n; now rewrite Hq|]. split; [now exists d|].
        split; [repeat split; congruence|].
        split; [intros [H|H]; discriminate H|].
        intros _. exists (String c shot), d, n, w'.
        split; [reflexivity|]. split; [discriminate|].
        split; [exact A|]. split; [exact Hn | exact Hq].
    + split; [eexists; reflexivity|]. split; [eexists; reflexivity|].
      split; [now repeat split|].
      split; [intros [H|H]; discriminate H|].
      intros H. now contradiction H.
  - cbn [fst snd]. split; [eexists; reflexivity|].
    split; [eexists; reflexivity|].
    split; [now repeat split|].
    split; [intros _; now repeat split|].
    intros H. now contradiction H.
Qed.

End OutcomeFacts.

(** The worked example with its screenshot taken away: the client is not
    asked and the flag stays. *)
Lemma evaluate_leaves_a_usable_state_witness :
  quality_score
    (fst (evaluate unit example_client
            (set_is_satisfied
               {| user_intent := user_intent example_state;
                  current_iteration := 0; max_iterations := 3;
                  satisfaction_threshold := Finite (75 # 100);
                  screenshot_base64 := None;
                  quality_score := JNumber (Finite 0);
                  visual_feedback := JDict [];
                  is_satisfied := JBool false;
                  iteration_history := [] |}
               (JBool true)) tt))
  = JNumber (Finite 0).
Proof.
  refine (proj1 (proj2 (proj1 (proj2 (proj2 (proj2
            (evaluate_leaves_a_usable_state unit example_client _ tt))))
            _))).
  left. reflexivity.
Defined.

End EvaluatorOutcomeFacts.

(* ================================================================== *)
(** * Facts about the asset profiles                                   *)
(* ================================================================== *)

Module GameAssetConfigFacts.
Import PyStr PyStrMore PyVal Agent GameAssetConfig.
Import RunLoopTraceFacts.

(** ** The bit test on texture sizes *)

Lemma power_of_two_passes (k : Z) :
  (0 <= k)%Z -> Z.land (2 ^ k) (2 ^ k - 1) = 0%Z.
Proof.
  intros Hk. replace (2 ^ k - 1)%Z with (Z.ones k)
    by (rewrite Z.ones_equiv; lia).
  rewrite Z.land_ones by exact Hk.
  apply Z.mod_same. apply Z.pow_nonzero; lia.
Qed.

Lemma passing_positive_is_power_of_two (size : Z) :
  (0 < size)%Z -> Z.land size (size - 1) = 0%Z ->
  size = (2 ^ Z.log2 size)%Z.
Proof.
  intros Hpos Hland.
  destruct (Z.log2_spec size Hpos) as [Hlo Hhi].
  destruct (Z.eq_dec size (2 ^ Z.log2 size)) as [E|E]; [exact E|].
  exfalso.
  assert (Hk : (0 <= Z.log2 size)%Z) by apply Z.log2_nonneg.
  assert (Hlog : Z.log2 (size - 1) = Z.log2 size).
  { apply Z.log2_unique; [exact Hk | lia]. }
  assert (H1 : Z.testbit size (Z.log2 size) = true)
    by now apply Z.bit_log2.
  assert (H2 : Z.testbit (size - 1) (Z.log2 size) = true).
  { rewrite <- Hlog. apply Z.bit_log2.
    assert (0 < 2 ^ Z.log2 size)%Z by (apply Z.pow_pos_nonneg; lia). lia. }
  assert (H3 : Z.testbit (Z.land size (size - 1)) (Z.log2 size) = true)
    by now rewrite Z.land_spec, H1, H2.
  rewrite Hland, Z.bits_0 in H3. discriminate H3.
Qed.

(** The test [size & (size - 1) != 0] lets through zero and the powers of
    two, and nothing else. *)
Lemma power_of_two_check_meaning (size : Z) :
  fails_power_of_two_check size = false <-> zero_or_power_of_two size.
Proof.
  unfold fails_power_of_two_check, zero_or_power_of_two.
  rewrite Bool.negb_false_iff, Z.eqb_eq. split.
  - intros H. destruct (Z.lt_trichotomy size 0) as [Hneg|[E|Hpos]].
    + exfalso.
      assert (Hl : (Z.land size (size - 1) < 0)%Z)
        by (apply Z.land_neg; lia).
      lia.
    + now left.
    + right. exists (Z.log2 size). split; [apply Z.log2_nonneg|].
      now apply passing_positive_is_power_of_two.
  - intros [->|(k & Hk & ->)]; [reflexivity|].
    now apply power_of_two_passes.
Qed.

(** ** The two loops of [validate_profile] *)

Lemma budgets_cons (level : LODLevel) (rest : list LODLevel) :
  budgets_never_increase (level :: rest)
  <-> (forall b, nth_error rest 0 = Some b ->
                 (max_triangles b <= max_triangles level)%Z)
      /\ budgets_never_increase rest.
Proof.
  unfold budgets_never_increase. split.
  - intros H. split.
    + intros b Hb. exact (H 0 level b eq_refl Hb).
    + intros i a b Ha Hb. exact (H (S i) a b Ha Hb).
  - intros [H0 H] [|i] a b Ha Hb.
    + cbn in Ha. injection Ha as <-. now apply H0.
    + exact (H i a b Ha Hb).
Qed.

Lemma lod_issues_nil (levels : list LODLevel) :
  forall prev_tris,
    lod_issues prev_tris levels = []
    <-> (forall a, nth_error levels 0 = Some a ->
                   exceeds (max_triangles a) prev_tris = false)
        /\ budgets_never_increase levels.
Proof.
  induction levels as [|level rest IH]; intros prev_tris.
  - cbn. split; [|reflexivity]. intros _. split.
    + intros a Ha. discriminate Ha.
    + intros [|i] a b Ha; discriminate Ha.
  - cbn [lod_issues]. rewrite budgets_cons. split.
    + intros H. apply app_eq_nil in H. destruct H as [Hhead Hrest].
      apply IH in Hrest. destruct Hrest as [Hfirst Hbud].
      split; [|split].
      * intros a Ha. cbn in Ha. injection Ha as <-.
        now destruct (exceeds (max_triangles level) prev_tris).
      * intros b Hb. specialize (Hfirst b Hb). cbn in Hfirst.
        apply Z.ltb_ge in Hfirst. exact Hfirst.
      * exact Hbud.
    + intros (Hhead & Hnext & Hbud).
      rewrite (Hhead level eq_refl). cbn [List.app].
      apply IH. split; [|exact Hbud].
      intros a Ha. cbn. apply Z.ltb_ge. now apply Hnext.
Qed.

Lemma texture_issues_nil (sizes : list (string * Z)) :
  texture_issues sizes = []
  <-> forall attr size,
        In (attr, size) sizes -> fails_power_of_two_check size = false.
Proof.
  induction sizes as [|[attr0 size0] rest IH]; cbn [texture_issues].
  - split; [intros _ attr size []|reflexivity].
  - split.
    + intros H. apply app_eq_nil in H. destruct H as [Hhead Hrest].
      intros attr size [E|Hin].
      * injection E as <- <-. now destruct (fails_power_of_two_check size0).
      * exact (proj1 IH Hrest attr size Hin).
    + intros H. rewrite (H attr0 size0 (or_introl eq_refl)). cbn [List.app].
      apply IH. intros attr size Hin. apply (H attr size). now right.
Qed.

(** The raw condition under which [validate_profile] reports nothing. *)
Lemma validate_profile_nil (profile : GameAssetProfile) :
  validate_profile profile = []
  <-> budgets_never_increase (lod_levels profile)
      /\ (forall attr size,
             In (attr, size) (texture_sizes (textures profile)) ->
             fails_power_of_two_check size = false)
      /\ materials profile <> [].
Proof.
  unfold validate_profile. split.
  - intros H. apply app_eq_nil in H. destruct H as [Hlod H].
    apply app_eq_nil in H. destruct H as [Htex Hmat].
    split; [|split].
    + exact (proj2 (proj1 (lod_issues_nil _ _) Hlod)).
    + exact (proj1 (texture_issues_nil _) Htex).
    + intros E. rewrite E in Hmat. discriminate Hmat.
  - intros (Hlod & Htex & Hmat).
    replace (lod_issues Infinity (lod_levels profile)) with (@nil string).
    2: { symmetry. apply lod_issues_nil. split; [|exact Hlod].
         intros a _. reflexivity. }
    replace (texture_issues (texture_sizes (textures profile)))
      with (@nil string)
      by (symmetry; now apply texture_issues_nil).
    destruct (materials profile); [now contradiction Hmat | reflexivity].
Qed.

(** X19.  [validate_profile] reports no issue exactly when the triangle
    budgets never go up from one LOD level to the next, each of the five
    texture sizes is zero or a power of two, and the profile defines at
    least one material.  In particular a texture size of zero passes the
    bit test although it is no power of two, and no negative size does. *)
Theorem validate_profile_accepts_exactly (profile : GameAssetProfile) :
  validate_profile profile = []
  <-> budgets_never_increase (lod_levels profile)
      /\ (forall attr size,
             In (attr, size) (texture_sizes (textures profile)) ->
             zero_or_power_of_two size)
      /\ materials profile <> [].
Proof.
  rewrite validate_profile_nil. split.
  - intros (Hlod & Htex & Hmat). split; [exact Hlod|]. split; [|exact Hmat].
    intros attr size Hin. apply power_of_two_check_meaning.
    exact (Htex attr size Hin).
  - intros (Hlod & Htex & Hmat). split; [exact Hlod|]. split; [|exact Hmat].
    intros attr size Hin. apply power_of_two_check_meaning.
    exact (Htex attr size Hin).
Qed.

(** ** Custom profiles *)

Lemma custom_levels_nth (lod0_triangles lod_count : Z) (i : nat)
  (level : LODLevel) :
  nth_error (map (custom_lod lod0_triangles) (range lod_count)) i
  = Some level ->
  level = custom_lod lod0_triangles (Z.of_nat i).
Proof.
  rewrite nth_error_map.
  destruct (nth_error (range lod_count) i) as [t|] eqn:E; [|discriminate].
  intros H. injection H as <-. apply range_nth in E. now subst t.
Qed.

Lemma custom_budgets_never_increase (lod0_triangles lod_count : Z) :
  (0 <= lod0_triangles)%Z ->
  budgets_never_increase
    (map (custom_lod lod0_triangles) (range lod_count)).
Proof.
  intros Hpos i a b Ha Hb.
  apply custom_levels_nth in Ha. apply custom_levels_nth in Hb.
  subst a b. cbn [max_triangles custom_lod]. unfold scaled_triangles.
  assert (H2 : forall n : nat, (0 < 2 ^ Z.of_nat n)%Z)
    by (intros n; apply Z.pow_pos_nonneg; lia).
  rewrite !Z.quot_div_nonneg by (try apply H2; exact Hpos).
  apply Z.div_le_compat_l; [exact Hpos|].
  split; [apply H2|]. apply Z.pow_le_mono_r; lia.
Qed.

Lemma half_of_power_of_two (size : Z) :
  zero_or_power_of_two size -> zero_or_power_of_two (size / 2).
Proof.
  intros [->|(k & Hk & ->)]; [now left|].
  destruct (Z.eq_dec k 0) as [->|Hne]; [now left|].
  right. exists (k - 1)%Z. split; [lia|].
  replace k with (1 + (k - 1))%Z at 1 by lia.
  rewrite Z.pow_add_r by lia. change (2 ^ 1)%Z with 2%Z.
  rewrite Z.mul_comm. apply Z.div_mul. lia.
Qed.

(** X20.  A profile built by [create_custom_profile] from a triangle
    budget between 0 and 2^53 has one LOD level per index below
    [lod_count], level [i] being named [LOD] followed by [i] and given
    the budget halved [i] times (rounded down); and [validate_profile]
    reports no issue for it exactly when the texture size is zero or a
    power of two. *)
Theorem custom_profile_validates
  (name : string) (lod0_triangles lod_count texture_size : Z)
  (export_format : ExportFormat) :
  (0 <= lod0_triangles <= 2 ^ 53)%Z ->
  let built :=
    create_custom_profile name lod0_triangles lod_count texture_size
      export_format in
  List.length (lod_levels built) = Z.to_nat lod_count
  /\ (forall i level,
        nth_error (lod_levels built) i = Some level ->
        lod_name level = "LOD" ++ str_of_Z (Z.of_nat i)
        /\ max_triangles level = (lod0_triangles / 2 ^ Z.of_nat i)%Z)
  /\ (validate_profile built = [] <-> zero_or_power_of_two texture_size).
Proof.
  intros [Hpos _] built. split; [|split].
  - cbn [built create_custom_profile lod_levels].
    unfold range. now rewrite !length_map, length_seq.
  - intros i level Hi. apply custom_levels_nth in Hi. subst level.
    split; [reflexivity|]. cbn [max_triangles custom_lod].
    unfold scaled_triangles. apply Z.quot_div_nonneg; [exact Hpos|].
    apply Z.pow_pos_nonneg; lia.
  - rewrite validate_profile_nil. split.
    + intros (_ & Htex & _). apply power_of_two_check_meaning.
      apply (Htex "albedo_size" texture_size). now left.
    + intros Hsize. split; [|split].
      * now apply custom_budgets_never_increase.
      * pose proof (half_of_power_of_two _ Hsize) as Hhalf.
        intros attr size Hin. apply power_of_two_check_meaning.
        cbn in Hin.
        destruct Hin as [E|[E|[E|[E|[E|[]]]]]]; injection E as _ <-;
          assumption.
      * discriminate.
Qed.

(** ** The registry *)

Lemma normalized_idempotent (s : string) :
  normalized (normalized s) = normalized s.
Proof.
  unfold normalized. induction s as [|c s IH]; [reflexivity|].
  cbn [lower replace_char]. f_equal; [|exact IH].
  clear. destruct c as [[] [] [] [] [] [] [] []]; reflexivity.
Qed.

Lemma registry_lookup_in (registry : list (string * GameAssetProfile))
  (key : string) (p : GameAssetProfile) :
  registry_lookup registry key = Some p -> In (key, p) registry.
Proof.
  induction registry as [|[k q] rest IH]; [discriminate|].
  cbn [registry_lookup]. destruct (String.eqb k key) eqn:E.
  - apply String.eqb_eq in E. intros H. injection H as <-. subst k.
    now left.
  - intros H. right. now apply IH.
Qed.

(** X21.  [get_profile] and the registry: every name that
    [list_profiles] returns is accepted by [get_profile], which returns
    the registry's entry for it; a name is looked up after lower-casing
    and after replacing blanks and hyphens by underscores, so names that
    differ only in these ways give the same result; a profile that is
    returned is the registry's entry for the normalised name; and a name
    whose normalised form is no key of the registry is refused with a
    [ValueError] that shows the normalised name and the five keys in
    their order. *)
Theorem get_profile_agrees_with_registry :
  (forall key,
      In key list_profiles ->
      exists p,
        registry_lookup GAME_PROFILES key = Some p
        /\ get_profile key = Returns p)
  /\ (forall s, get_profile (normalized s) = get_profile s)
  /\ (forall s p,
        get_profile s = Returns p -> In (normalized s, p) GAME_PROFILES)
  /\ (forall s,
        registry_lookup GAME_PROFILES (normalized s) = None ->
        get_profile s
        = Raises (ValueError
                    ("Unknown profile: " ++ normalized s
                     ++ ". Available profiles: war_thunder, "
                     ++ "world_of_warships, unity, unreal, asset_store"))).
Proof.
  split; [|split; [|split]].
  - intros key Hin. cbn in Hin.
    destruct Hin as [<-|[<-|[<-|[<-|[<-|[]]]]]];
      eexists; split; reflexivity.
  - intros s. unfold get_profile. now rewrite normalized_idempotent.
  - intros s p. unfold get_profile.
    destruct (registry_lookup GAME_PROFILES (normalized s)) as [q|] eqn:E;
      [|discriminate].
    intros H. injection H as <-. now apply registry_lookup_in.
  - intros s H. unfold get_profile. rewrite H. reflexivity.
Qed.

(** A custom profile with the default arguments of the source. *)
Lemma custom_profile_validates_witness :
  validate_profile (create_custom_profile "Frigate" 50000 4 4096 FBX) = [].
Proof.
  apply (proj2 (proj2 (custom_profile_validates "Frigate" 50000 4 4096 FBX
                         ltac:(lia)))).
  right. exists 12%Z. split; [lia | reflexivity].
Defined.

(** A name in capitals, with a blank and a hyphen. *)
Lemma get_profile_agrees_with_registry_witness :
  get_profile "World-Of Warships" = Returns WORLD_OF_WARSHIPS_PROFILE.
Proof.
  destruct (proj1 get_profile_agrees_with_registry "world_of_warships")
    as (p & Hp & Hget).
  - cbn. tauto.
  - rewrite <- (proj1 (proj2 get_profile_agrees_with_registry)
                  "World-Of Warships").
    change (normalized "World-Of Warships") with "world_of_warships".
    rewrite Hget. cbn in Hp. now injection Hp as <-.
Defined.

End GameAssetConfigFacts.

(* ================================================================== *)
(** * Facts about the D5 workflow                                      *)
(* ================================================================== *)

Module WorkflowFacts.
Import PyStr PyStrMore PyVal VisionUtils Orchestrator ModernModelsRest.
Import Workflow.
Import PyStrFacts VisionUtilsFacts ExtractCodeFacts.

(** ** Occurrences in a prefix *)

Lemma take_take (k m : nat) (x : string) :
  k <= m -> take k (take m x) = take k x.
Proof.
  revert m x. induction k as [|k IH]; intros m x Hk; [reflexivity|].
  destruct m as [|m]; [lia|]. destruct x as [|c x]; [reflexivity|].
  cbn. f_equal. apply IH. lia.
Qed.

Lemma take_app_ge (m : nat) (a b : string) :
  String.length a <= m ->
  take m (a ++ b) = a ++ take (m - String.length a) b.
Proof.
  revert m. induction a as [|c a IH]; intros m Hm; cbn.
  - now rewrite Nat.sub_0_r.
  - destruct m as [|m]; [cbn in Hm; lia|]. cbn. f_equal. apply IH.
    cbn in Hm. lia.
Qed.

Lemma occurs_in_prefix (sub x : string) (m p : nat) :
  occurs_at sub (take m x) p -> occurs_at sub x p.
Proof.
  intros [Hp Hs]. destruct (take_is_prefix m x) as [b Hb].
  rewrite Hb. split.
  - rewrite length_append. lia.
  - rewrite drop_app_le by exact Hp. now apply startswith_app_r.
Qed.

Lemma occurs_kept_by_take (sub x : string) (m p : nat) :
  occurs_at sub x p -> p + String.length sub <= m ->
  occurs_at sub (take m x) p.
Proof.
  intros Hocc Hm. pose proof Hocc as [Hp _].
  rewrite (occurs_at_decompose _ _ _ Hocc).
  assert (Hlen : String.length (take p x) = p)
    by (rewrite length_take; lia).
  rewrite take_app_ge by lia. rewrite take_app_ge by lia.
  replace p with (String.length (take p x) + 0) at 4 by lia.
  apply occurs_at_inside. apply occurs_at_0.
  rewrite <- (append_empty_r sub) at 2. apply startswith_app.
Qed.

Lemma first_at_kept_by_take (sub x : string) (m p : nat) :
  first_at sub x p -> p + String.length sub <= m ->
  first_at sub (take m x) p.
Proof.
  intros [Hocc Hmin] Hm. split; [now apply occurs_kept_by_take|].
  intros j Hj Hocc'. apply occurs_in_prefix in Hocc'.
  exact (Hmin j Hj Hocc').
Qed.

(** ** The inline extraction of [design] and [refine] *)

Lemma nth_error_tl {A : Type} (l : list A) (n : nat) :
  nth_error (tl l) n = nth_error l (S n).
Proof. destruct l; [now destruct n | reflexivity]. Qed.

Lemma python_block_eq (s : string) :
  python_block s
  = Ok match find_first python_tag s with
       | Some i =>
           strip (before_first fence
                    (before_first python_tag
                       (drop (i + String.length python_tag) s)))
       | None => s
       end.
Proof.
  unfold python_block, contains.
  destruct (find_first python_tag s) as [i|] eqn:T; [|reflexivity].
  unfold list_index. rewrite nth_error_tl. unfold python_tag in *.
  rewrite (split_second _ _ _ _ T). cbn [bind].
  now rewrite split_first.
Qed.

(** The piece that the inline extraction keeps is the piece that
    [extract_code_from_response] keeps. *)
Lemma same_piece (rest : string) (j : nat) :
  first_at fence rest (S j) ->
  absent python_tag rest
  \/ (exists m, first_at python_tag rest m /\ (m = S j \/ S j + 3 <= m)) ->
  before_first fence (before_first python_tag rest) = take (S j) rest.
Proof.
  intros Hf [Ha|(m & Hm & [->|Hge])].
  - unfold before_first at 2. rewrite (absent_find_first _ _ Ha).
    unfold before_first. now rewrite (first_at_find_first _ _ _ Hf).
  - unfold before_first at 2. rewrite (first_at_find_first _ _ _ Hm).
    unfold before_first.
    rewrite (absent_find_first fence (take (S j) rest)); [reflexivity|].
    apply absent_before_first; [discriminate | exact Hf].
  - unfold before_first at 2. rewrite (first_at_find_first _ _ _ Hm).
    unfold before_first.
    rewrite (first_at_find_first fence (take m rest) (S j)).
    + apply take_take. lia.
    + apply first_at_kept_by_take; [exact Hf | cbn; lia].
Qed.

(** X22.  The extraction that [DesignerAgent.design] and
    [RefinerAgent.refine] do inline, against
    [extract_code_from_response].  Without a [```python] tag the inline
    extraction returns the answer as it is, neither stripped nor
    unfenced.  With a tag, a closing fence after at least one character,
    and no second tag that starts one or two characters after the
    closing fence starts, both return the same code.  They differ on an
    empty tagged block, on a tag that is never closed, on a block
    without the tag, and on a second tag that overlaps the closing
    fence. *)
Theorem inline_extraction_against_shared :
  (forall s, absent python_tag s -> python_block s = Ok s)
  /\ (forall s i j,
        first_at python_tag s i ->
        let rest := drop (i + String.length python_tag) s in
        first_at fence rest (S j) ->
        absent python_tag rest
        \/ (exists m, first_at python_tag rest m
                      /\ (m = S j \/ S j + 3 <= m)) ->
        python_block s = Ok (extract_code_from_response s))
  /\ (python_block empty_tagged_block = Ok EmptyString
      /\ extract_code_from_response empty_tagged_block = empty_tagged_block)
  /\ (python_block unclosed_tagged_block = Ok "import bpy"
      /\ extract_code_from_response unclosed_tagged_block
         = unclosed_tagged_block)
  /\ (python_block untagged_block = Ok untagged_block
      /\ extract_code_from_response untagged_block = "import bpy")
  /\ (python_block tag_inside_closing_fence = Ok "1`"
      /\ extract_code_from_response tag_inside_closing_fence = "1").
Proof.
  split; [|split; [|repeat split; vm_compute; reflexivity]].
  - intros s Ha. rewrite python_block_eq.
    now rewrite (absent_find_first _ _ Ha).
  - intros s i j Hi rest Hf Htag. rewrite python_block_eq.
    rewrite (first_at_find_first _ _ _ Hi). fold rest.
    rewrite (same_piece rest j Hf Htag).
    now rewrite (proj1 (extract_code_cases s) i j Hi Hf).
Qed.

(** An answer with prose around one tagged block. *)
Lemma inline_extraction_against_shared_witness :
  python_block ("Here is the code:" ++ nl ++ "```python" ++ nl
                ++ "import bpy" ++ nl ++ "```" ++ nl ++ "Done.")
  = Ok "import bpy".
Proof.
  rewrite (proj1 (proj2 inline_extraction_against_shared)
             ("Here is the code:" ++ nl ++ "```python" ++ nl
              ++ "import bpy" ++ nl ++ "```" ++ nl ++ "Done.")
             18 11).
  - vm_compute. reflexivity.
  - apply find_first_Some. vm_compute. reflexivity.
  - apply find_first_Some. vm_compute. reflexivity.
  - left. apply find_first_None. vm_compute. reflexivity.
Defined.

(** ** Reading the reply of the vision API *)

Section ReadAnalysisFacts.
Variable json_loads : string -> Loaded.
Variable World : Type.
Variable call_vision_api :
  string -> string -> Z -> Z -> option jvalue -> World -> result jvalue * World.

Local Abbreviation read_analysis := (read_analysis json_loads).
Local Abbreviation analyze_scene :=
  (analyze_scene json_loads World call_vision_api).

Lemma subscript_failure (v : jvalue) (key : string) (e : PyExn) :
  subscript v key = Failed e -> exists m, e = TypeError m.
Proof.
  unfold subscript. destruct v as [| | | | |d]; intros H;
    try (injection H as <-; eexists; reflexivity).
  destruct (dict_lookup d key); discriminate H.
Qed.

Lemma index0_failure (v : jvalue) (e : PyExn) :
  index0 v = Failed e -> exists m, e = TypeError m.
Proof.
  unfold index0. destruct v as [| | |s|l|d]; intros H;
    try (injection H as <-; eexists; reflexivity); try discriminate H.
  - destruct s; discriminate H.
  - destruct l; discriminate H.
Qed.

Lemma read_content_failure (response : jvalue) (e : PyExn) :
  read_content response = Failed e -> exists m, e = TypeError m.
Proof.
  unfold read_content.
  destruct (subscript response "choices") as [choices| |e1] eqn:S1;
    cbn [lookup_bind]; [|discriminate|].
  2: { intros H. injection H as <-. exact (subscript_failure _ _ _ S1). }
  destruct (index0 choices) as [choice| |e1] eqn:S2;
    cbn [lookup_bind]; [|discriminate|].
  2: { intros H. injection H as <-. exact (index0_failure _ _ S2). }
  destruct (subscript choice "message") as [message| |e1] eqn:S3;
    cbn [lookup_bind]; [|discriminate|].
  2: { intros H. injection H as <-. exact (subscript_failure _ _ _ S3). }
  apply subscript_failure.
Qed.

(** The analysis of a text, by the way [json.loads] ends on its
    candidate. *)
Lemma analysis_of_text (s candidate : string) :
  json_content s = Ok candidate ->
  analysis_of_content json_loads (JStr s)
  = match json_loads candidate with
    | Value analysis => Ok analysis
    | Rejected text => Ok (_create_fallback_response text)
    | Escaped e => under_except e
    end.
Proof.
  intros H. unfold analysis_of_content, extract_json_from_content.
  rewrite H. cbn [bind]. now destruct (json_loads candidate).
Qed.

(** X23.  A reply of the vision API that cannot be read, through
    [analyze_scene] and [EvaluatorAgent.evaluate].  When the reply lacks
    the path [choices][0][message][content], or the content is a text
    whose candidate [json.loads] rejects with a [ValueError], the
    analysis is the fallback response with the text of the error.  An
    exception of [json.loads] outside the [except] clause, such as a
    [RecursionError], is let out by [analyze_scene]; what the reading
    of the reply lets out is a [TypeError], an [AttributeError] or such
    an exception of [json.loads].  [evaluate] stores the score 0.5 in
    both cases.  For
    the fallback response it stores the response as feedback and sets the
    satisfaction flag to whether 0.5 reaches the threshold: a workflow
    whose threshold is at most 0.5 is satisfied by an unreadable reply,
    and a flag that was true is overwritten when the threshold is higher.
    For an exception it stores the text of the exception and leaves the
    flag as it was. *)
Theorem unreadable_reply_is_scored_one_half :
  (forall response text,
      read_content response = Missing text ->
      read_analysis response = Ok (_create_fallback_response text))
  /\ (forall response s candidate text,
        read_content response = Found (JStr s) ->
        json_content s = Ok candidate ->
        json_loads candidate = Rejected text ->
        read_analysis response = Ok (_create_fallback_response text))
  /\ (forall response s candidate e,
        read_content response = Found (JStr s) ->
        json_content s = Ok candidate ->
        json_loads candidate = Escaped e ->
        caught_by_analysis e = false ->
        read_analysis response = Raise e)
  /\ (forall response e,
        read_analysis response = Raise e ->
        (exists m, e = TypeError m) \/ (exists m, e = AttributeError m)
        \/ (exists candidate,
               json_loads candidate = Escaped e
               /\ caught_by_analysis e = false))
  /\ (forall (state : WorkflowState) (w w' : World) (screenshot : string)
             (response : jvalue) (msg : string),
        screenshot_base64 state = Some screenshot ->
        screenshot <> EmptyString ->
        call_vision_api screenshot (user_intent state)
          (current_iteration state) (max_iterations state)
          (last (map Some (iteration_history state)) None) w
        = (Ok response, w') ->
        read_analysis response = Ok (_create_fallback_response msg) ->
        let state' := fst (evaluate World analyze_scene state w) in
        quality_score state' = JNumber (Finite (5 # 10))
        /\ visual_feedback state' = _create_fallback_response msg
        /\ is_satisfied state'
           = JBool (number_ge (Finite (5 # 10))
                      (satisfaction_threshold state))
        /\ (forall q,
              satisfaction_threshold state = Finite q ->
              (is_satisfied state' = JBool true <-> (q <= 5 # 10)%Q)))
  /\ (forall (state : WorkflowState) (w w' : World) (screenshot : string)
             (response : jvalue) (e : PyExn),
        screenshot_base64 state = Some screenshot ->
        screenshot <> EmptyString ->
        call_vision_api screenshot (user_intent state)
          (current_iteration state) (max_iterations state)
          (last (map Some (iteration_history state)) None) w
        = (Ok response, w') ->
        read_analysis response = Raise e ->
        let state' := fst (evaluate World analyze_scene state w) in
        quality_score state' = JNumber (Finite (1 # 2))
        /\ dict_get_text (visual_feedback state') "error"
           = Some ("Vision model evaluation failed: " ++ exn_text e)
        /\ is_satisfied state' = is_satisfied state).
Proof.
  split; [|split; [|split; [|split; [|split]]]].
  - intros response text H. unfold Workflow.read_analysis. now rewrite H.
  - intros response s candidate text H C J. unfold Workflow.read_analysis.
    rewrite H, (analysis_of_text s candidate C), J. reflexivity.
  - intros response s candidate e H C J N. unfold Workflow.read_analysis.
    rewrite H, (analysis_of_text s candidate C), J.
    unfold under_except. now rewrite N.
  - intros response e. unfold Workflow.read_analysis.
    destruct (read_content response) as [content|text|e1] eqn:R.
    + destruct content as [| b | n | s | items | d];
        try (intros H; injection H as <-; left; eexists; reflexivity);
        try (intros H; injection H as <-; right; left; eexists; reflexivity).
      destruct (json_content s) as [candidate|e1] eqn:C.
      2: { rewrite json_content_eq in C. discriminate C. }
      rewrite (analysis_of_text s candidate C).
      destruct (json_loads candidate) as [v|text|e1] eqn:J;
        try discriminate.
      unfold under_except.
      destruct (caught_by_analysis e1) eqn:N; [discriminate|].
      intros H. injection H as <-. right. right. now exists candidate.
    + discriminate.
    + destruct (read_content_failure _ _ R) as [m ->].
      intros H. injection H as <-. left. now exists m.
  - intros state w w' screenshot response msg Hshot Hne Hcall Hread state'.
    subst state'. unfold evaluate. rewrite Hshot.
    destruct screenshot as [|c screenshot]; [congruence|].
    unfold Workflow.analyze_scene. rewrite Hcall, Hread. cbn [fst].
    unfold record_evaluation, _create_fallback_response, get, py_ge.
    cbn [dict_get dict_lookup String.eqb Ascii.eqb Bool.eqb quality_score
         set_feedback set_quality_score satisfaction_threshold as_number].
    set (reached := number_ge (Finite (5 # 10)) (satisfaction_threshold state)).
    assert (E : bool_or reached
                  (if reached then JBool true else JBool false)
                = JBool reached) by now destruct reached.
    destruct reached eqn:Hreached;
      cbn [quality_score visual_feedback is_satisfied set_is_satisfied
           set_feedback set_quality_score bool_or];
      (split; [reflexivity|]); (split; [reflexivity|]);
      (split; [reflexivity|]);
      intros q Hq; subst reached; rewrite Hq in Hreached;
      cbn [number_ge] in Hreached.
    + split; [intros _; now apply Qle_bool_iff | reflexivity].
    + split; [discriminate|]. intros Hle.
      apply Qle_bool_iff in Hle. congruence.
  - intros state w w' screenshot response e Hshot Hne Hcall Hread state'.
    subst state'. unfold evaluate. rewrite Hshot.
    destruct screenshot as [|c screenshot]; [congruence|].
    unfold Workflow.analyze_scene. rewrite Hcall, Hread. cbn [fst].
    now repeat split.
Qed.

End ReadAnalysisFacts.

(** A reply without [choices] at the default threshold, and a content
    on which [json.loads] gives up. *)
Lemma unreadable_reply_is_scored_one_half_witness :
  let client := fun (reply : jvalue) (_ _ : string) (_ _ : Z)
                    (_ : option jvalue) (w : unit) => (Ok reply, w) in
  is_satisfied
    (fst (evaluate unit
            (analyze_scene loads_nothing unit (client reply_without_choices))
            example_state tt))
  = JBool false
  /\ read_analysis loads_too_deep (reply_with_content "[[[[")
     = Raise too_deep.
Proof.
  intros client. split.
  - destruct (proj1 (proj2 (proj2 (proj2 (proj2
                (unreadable_reply_is_scored_one_half loads_nothing unit
                   (client reply_without_choices))))))
                example_state tt tt "aGVsbG8=" reply_without_choices
                "'choices'" eq_refl ltac:(discriminate) eq_refl eq_refl)
      as (_ & _ & H & _).
    exact H.
  - exact (proj1 (proj2 (proj2
             (unreadable_reply_is_scored_one_half loads_too_deep unit
                (client reply_without_choices))))
             (reply_with_content "[[[[") "[[[[" "[[[[" too_deep
             eq_refl eq_refl eq_refl eq_refl).
Defined.


(** ** The agents, one by one *)

Lemma python_block_returns (content : string) :
  exists code, python_block content = Ok code.
Proof. rewrite python_block_eq. eexists. reflexivity. Qed.

Lemma count_asked_app (p : Asked -> bool) (a b : list Asked) :
  count_asked p (a ++ b) = count_asked p a + count_asked p b.
Proof. unfold count_asked. now rewrite filter_app, length_app. Qed.

(** What [evaluate] leaves, whatever the client does. *)
Lemma evaluate_summary (World : Type)
  (client : string -> string -> Z -> Z -> option jvalue -> World
            -> result jvalue * World)
  (state : WorkflowState) (w : World) :
  (exists n, as_number (quality_score (fst (evaluate World client state w)))
             = Some n)
  /\ (exists d, visual_feedback (fst (evaluate World client state w))
                = JDict d)
  /\ max_iterations (fst (evaluate World client state w))
     = max_iterations state
  /\ current_iteration (fst (evaluate World client state w))
     = current_iteration state
  /\ iteration_history (fst (evaluate World client state w))
     = iteration_history state
  /\ (snd (evaluate World client state w) = w
      \/ exists screenshot intent iteration limit previous,
          snd (evaluate World client state w)
          = snd (client screenshot intent iteration limit previous w)).
Proof.
  unfold evaluate.
  destruct (screenshot_base64 state) as [[|c shot]|].
  - cbn [fst snd]. split; [eexists; reflexivity|].
    split; [eexists; reflexivity|]. repeat split. now left.
  - destruct (client (String c shot) (user_intent state)
                (current_iteration state) (max_iterations state)
                (last (map Some (iteration_history state)) None) w)
      as [[eval_data|e] w'] eqn:A; cbn [fst snd].
    + assert (Hw : w' = w
                   \/ exists screenshot intent iteration limit previous,
                       w' = snd (client screenshot intent iteration limit
                                   previous w)).
      { right. do 5 eexists. now rewrite A. }
      destruct (EvaluatorOutcomeFacts.record_evaluation_cases state eval_data)
        as [[e ->]|(d & n & -> & Hn & Hq & Hf & H1 & H2 & H3 & H4 & H5 & H6)].
      * split; [eexists; reflexivity|]. split; [eexists; reflexivity|].
        repeat split. exact Hw.
      * split; [exists n; now rewrite Hq|]. split; [now exists d|].
        split; [exact H3|]. split; [exact H2|].
        split; [exact H6 | exact Hw].
    + split; [eexists; reflexivity|]. split; [eexists; reflexivity|].
      repeat split. right. do 5 eexists. now rewrite A.
  - cbn [fst snd]. split; [eexists; reflexivity|].
    split; [eexists; reflexivity|]. repeat split. now left.
Qed.

Section AgentsFacts.
Variable World : Type.
Variable mcp_execute_code :
  string -> World -> result (list (string * jvalue)) * World.
Variable mcp_get_viewport_screenshot :
  World -> result (list (string * jvalue)) * World.

Local Abbreviation execute :=
  (execute World mcp_execute_code mcp_get_viewport_screenshot).

Lemma stored_status (reply : list (string * jvalue)) :
  is_text (dict_get reply "status" (JStr "unknown")) "success"
  = is_text (dict_get reply "status" JNone) "success".
Proof.
  unfold dict_get. now destruct (dict_lookup reply "status").
Qed.

(** X24.  [ExecutorAgent.execute] never raises, and what it stores is
    decided by the two calls it makes.  It asks the host once, in the
    world it is given.  When that call raises, the result stored is
    status [error] with the text of the exception, and no screenshot is
    asked for.  When the host replies, the status, output and errors of
    the reply are stored (with the defaults [unknown], the empty text
    and the empty list), and the screenshot is asked for exactly when
    the status of the reply is [success], in the world the host call
    left.  When the screenshot call raises, the stored result is
    replaced by status [error] with the text of that exception, so an
    execution that succeeded is reported as failed; when it returns, its
    [image_data] becomes the screenshot of the state.  In every other
    case the screenshot of an earlier iteration stays.  The stored
    status is [success] only when both calls returned.  Nothing else of
    the state changes. *)
Theorem execute_reports_instead_of_raising
  (state : D5State) (env : Env World) :
  let state' := fst (execute state env) in
  let env' := snd (execute state env) in
  let host := AskHost (blender_code state) in
  let stored reply :=
    [("status", dict_get reply "status" (JStr "unknown"));
     ("output", dict_get reply "output" (JStr EmptyString));
     ("errors", dict_get reply "errors" (JList []))] in
  (map fst (execution_result state') = ["status"; "output"; "errors"]
   /\ blender_code state' = blender_code state
   /\ subtasks state' = subtasks state
   /\ refinement_suggestions state' = refinement_suggestions state
   /\ core state'
      = set_screenshot (core state) (screenshot_base64 (core state')))
  /\ (forall e w1,
        mcp_execute_code (blender_code state) (env_world env)
        = (Raise e, w1) ->
        execution_result state' = error_result e
        /\ screenshot_base64 (core state') = screenshot_base64 (core state)
        /\ env' = {| env_world := w1;
                     asked := (asked env ++ [host])%list |})
  /\ (forall reply w1,
        mcp_execute_code (blender_code state) (env_world env)
        = (Ok reply, w1) ->
        (is_text (dict_get reply "status" JNone) "success" = false ->
         execution_result state' = stored reply
         /\ screenshot_base64 (core state') = screenshot_base64 (core state)
         /\ env' = {| env_world := w1;
                      asked := (asked env ++ [host])%list |})
        /\ (is_text (dict_get reply "status" JNone) "success" = true ->
            (forall e w2,
                mcp_get_viewport_screenshot w1 = (Raise e, w2) ->
                execution_result state' = error_result e
                /\ screenshot_base64 (core state')
                   = screenshot_base64 (core state)
                /\ env' = {| env_world := w2;
                             asked := (asked env
                                       ++ [host; AskScreenshot])%list |})
            /\ (forall shot w2,
                  mcp_get_viewport_screenshot w1 = (Ok shot, w2) ->
                  execution_result state' = stored reply
                  /\ (documented_screenshot shot ->
                      screenshot_base64 (core state')
                      = image_data_text (dict_get shot "image_data" JNone))
                  /\ env' = {| env_world := w2;
                               asked := (asked env
                                         ++ [host; AskScreenshot])%list |})))
  /\ (is_text (dict_get (execution_result state') "status" JNone) "success"
      = true <->
      exists reply w1 shot w2,
        mcp_execute_code (blender_code state) (env_world env) = (Ok reply, w1)
        /\ is_text (dict_get reply "status" JNone) "success" = true
        /\ mcp_get_viewport_screenshot w1 = (Ok shot, w2)).
Proof.
  intros state' env' host stored. subst state' env' host stored.
  unfold Workflow.execute, wask.
  destruct (mcp_execute_code (blender_code state) (env_world env))
    as [[reply|e] w1] eqn:H1; cbn [fst snd env_world asked].
  2: { destruct state as [[] ? ? ? ?].
       split; [now repeat split|]. split.
       - intros e' w1' H. injection H as <- <-. now repeat split.
       - split; [intros reply w1' H; discriminate H|].
         split; [discriminate|].
         intros (reply & w1' & shot & w2 & H & _). discriminate H. }
  destruct (is_text (dict_get reply "status" JNone) "success") eqn:S.
  - destruct (mcp_get_viewport_screenshot w1) as [[shot|e] w2] eqn:H2;
      cbn [fst snd env_world asked]; rewrite <- app_assoc; cbn [List.app].
    + destruct state as [[] ? ? ? ?].
      cbn [execution_result with_core with_execution_result core subtasks
           blender_code refinement_suggestions set_screenshot
           screenshot_base64 map fst].
      split; [now repeat split|]. split; [intros e w1' H; discriminate H|].
      split.
      * intros reply' w1' H. injection H as <- <-.
        split; [intros F; congruence|]. intros _. split.
        -- intros e w2' H. rewrite H2 in H. discriminate H.
        -- intros shot' w2' H. rewrite H2 in H. injection H as <- <-.
           now repeat split.
      * cbn [dict_get dict_lookup String.eqb Ascii.eqb Bool.eqb].
        fold (dict_get reply "status" (JStr "unknown")).
        rewrite stored_status, S.
        split; [intros _; now exists reply, w1, shot, w2 | reflexivity].
    + destruct state as [[] ? ? ? ?].
      cbn [execution_result with_core with_execution_result core subtasks
           blender_code refinement_suggestions set_screenshot
           screenshot_base64 map fst error_result].
      split; [now repeat split|]. split; [intros e' w1' H; discriminate H|].
      split.
      * intros reply' w1' H. injection H as <- <-.
        split; [intros F; congruence|]. intros _. split.
        -- intros e' w2' H. rewrite H2 in H. injection H as <- <-.
           now repeat split.
        -- intros shot' w2' H. rewrite H2 in H. discriminate H.
      * split; [discriminate|].
        intros (reply' & w1' & shot & w2' & H & _ & H').
        injection H as <- <-. rewrite H2 in H'. discriminate H'.
  - destruct state as [[] ? ? ? ?].
    cbn [fst snd execution_result with_core with_execution_result core
         subtasks blender_code refinement_suggestions set_screenshot
         screenshot_base64 map asked env_world].
    split; [now repeat split|]. split; [intros e w1' H; discriminate H|].
    split.
    + intros reply' w1' H. injection H as <- <-.
      split; [intros _; now repeat split|]. intros F; congruence.
    + cbn [dict_get dict_lookup String.eqb Ascii.eqb Bool.eqb].
      fold (dict_get reply "status" (JStr "unknown")).
      rewrite stored_status, S. split; [discriminate|].
      intros (reply' & w1' & shot & w2' & H & S' & _).
      injection H as <- <-. congruence.
Qed.

End AgentsFacts.

(** A host that succeeds and a screenshot that is taken. *)
Lemma execute_reports_instead_of_raising_witness :
  screenshot_base64
    (core (fst (execute unit host_double screenshot_double
                  (initial_state (Finite (75 # 100)) 3) fresh_env)))
  = Some "aGVsbG8=".
Proof.
  destruct (execute_reports_instead_of_raising unit host_double
              screenshot_double (initial_state (Finite (75 # 100)) 3)
              fresh_env) as (_ & _ & H & _).
  destruct (H _ tt eq_refl) as (_ & Hs).
  destruct (Hs eq_refl) as (_ & Hshot).
  destruct (Hshot _ tt eq_refl) as (_ & Himg & _).
  apply Himg. exact I.
Defined.


(** ** One iteration of the workflow, and the loop *)

Section LoopFacts.
Variable World : Type.
Variable system_prompt : string.
Variable gpu_mode : string.
Variable py_format : jvalue -> string -> result string.
Variable py_print : string -> World -> result unit * World.
Variable designer_ainvoke : string -> string -> World -> result string * World.
Variable refiner_ainvoke : string -> string -> World -> result string * World.
Variable mcp_execute_code :
  string -> World -> result (list (string * jvalue)) * World.
Variable mcp_get_viewport_screenshot :
  World -> result (list (string * jvalue)) * World.
Variable vision_analyze_scene :
  string -> string -> Z -> Z -> option jvalue -> World -> result jvalue * World.

Local Abbreviation design_prompt := (design_prompt gpu_mode py_format).
Local Abbreviation refine_prompt := (refine_prompt py_format).
Local Abbreviation design :=
  (design World system_prompt gpu_mode py_format designer_ainvoke).
Local Abbreviation execute :=
  (execute World mcp_execute_code mcp_get_viewport_screenshot).
Local Abbreviation evaluate_logged :=
  (evaluate_logged World vision_analyze_scene).
Local Abbreviation refine :=
  (refine World system_prompt py_format refiner_ainvoke).
Local Abbreviation wprint := (wprint World py_print).
Local Abbreviation iteration_body :=
  (iteration_body World system_prompt gpu_mode py_format py_print
     designer_ainvoke
     refiner_ainvoke mcp_execute_code mcp_get_viewport_screenshot
     vision_analyze_scene).
Local Abbreviation iterate :=
  (iterate World system_prompt gpu_mode py_format py_print designer_ainvoke
     refiner_ainvoke mcp_execute_code mcp_get_viewport_screenshot
     vision_analyze_scene).
Local Abbreviation run_iterations :=
  (run_iterations World system_prompt gpu_mode py_format py_print
     designer_ainvoke
     refiner_ainvoke mcp_execute_code mcp_get_viewport_screenshot
     vision_analyze_scene).

(** Where an exception of the loop comes from: a model call of the
    designer or of the refiner, the building of one of their prompts, the
    formatting of a printed field, a [len], or a [print]. *)
Local Abbreviation raised_inside e :=
  ((exists system user w w',
       designer_ainvoke system user w = (Raise e, w')
       \/ refiner_ainvoke system user w = (Raise e, w'))
   \/ (exists s, design_prompt s = Raise e)
   \/ (exists s issues suggestions,
          refine_prompt s issues suggestions = Raise e)
   \/ (exists v spec, py_format v spec = Raise e)
   \/ (exists v, py_len v = Raise e)
   \/ (exists line w w', py_print line w = (Raise e, w'))).

Lemma plain_raises (v : jvalue) (e : PyExn) :
  plain py_format v = Raise e -> exists v' spec, py_format v' spec = Raise e.
Proof.
  destruct v; cbn [plain]; try discriminate; intros H; eauto.
Qed.

Lemma bind_raises {A B : Type} (r : result A) (f : A -> B) (e : PyExn) :
  bind r (fun a => Ok (f a)) = Raise e -> r = Raise e.
Proof.
  destruct r; cbn [bind]; [discriminate | intros H; now injection H as ->].
Qed.

(** A [print] and what follows it: the log is as before, and an
    exception comes from the text or from the printing. *)
Lemma wprint_then {A : Type} (text : result string) (k : unit -> W World A)
  (env : Env World) (r : result A) (env' : Env World) :
  wbind World (wprint text) k env = (r, env') ->
  (exists env1, asked env1 = asked env /\ k tt env1 = (r, env'))
  \/ (exists e,
         r = Raise e
         /\ asked env' = asked env
         /\ (text = Raise e
             \/ exists line w w', py_print line w = (Raise e, w'))).
Proof.
  unfold wbind, Workflow.wprint, wbind, wlift.
  destruct text as [line|e].
  - destruct (py_print line (env_world env)) as [[[]|e] w1] eqn:P.
    + intros H. left. eexists. split; [|exact H]. reflexivity.
    + intros H. injection H as <- <-. right. exists e.
      split; [reflexivity|]. split; [reflexivity|]. right.
      now exists line, (env_world env), w1.
  - intros H. injection H as <- <-. right. exists e.
    split; [reflexivity|]. split; [reflexivity|]. now left.
Qed.

Lemma firstn_one_designer (d : nat) (t : Z) (ts : list Z) :
  d <= 1 ->
  map AskDesigner (firstn d (t :: ts)) = firstn d [AskDesigner t].
Proof.
  intros Hd. destruct d as [|[|d]]; [reflexivity | | lia].
  cbn. reflexivity.
Qed.

(** The calls of [design], and what it leaves alone. *)
Lemma design_outcome (state : D5State) (env : Env World) :
  exists d,
    d <= 1
    /\ asked (snd (design state env))
       = (asked env
          ++ firstn d [AskDesigner (current_iteration (core state))])%list
    /\ match fst (design state env) with
       | Ok state' =>
           d = 1
           /\ core state' = core state
           /\ execution_result state' = execution_result state
       | Raise e => raised_inside e
       end.
Proof.
  unfold Workflow.design, wbind, wask, wlift, wret.
  destruct (design_prompt state) as [prompt|e] eqn:P.
  2: { exists 0. cbn [fst snd firstn]. rewrite app_nil_r.
       split; [lia|]. split; [reflexivity|]. right. left. now exists state. }
  destruct (designer_ainvoke system_prompt prompt (env_world env))
    as [[content|e] w1] eqn:D.
  2: { exists 1. cbn [fst snd firstn asked].
       split; [lia|]. split; [reflexivity|]. left.
       exists system_prompt, prompt, (env_world env), w1. now left. }
  destruct (python_block_returns content) as [code ->].
  destruct (py_len (subtasks state)) as [n|e] eqn:L.
  - exists 1. cbn [fst snd firstn asked]. now repeat split.
  - exists 1. cbn [fst snd firstn asked].
    split; [lia|]. split; [reflexivity|].
    right. right. right. right. left. now exists (subtasks state).
Qed.

(** The calls of [execute], and what it leaves alone. *)
Lemma execute_outcome (state : D5State) (env : Env World) :
  exists cs,
    asked (snd (execute state env))
    = (asked env ++ AskHost (blender_code state) :: cs)%list
    /\ (cs = [] \/ cs = [AskScreenshot])
    /\ (is_text (dict_get (execution_result (fst (execute state env)))
                   "status" JNone) "success" = true ->
        cs = [AskScreenshot])
    /\ max_iterations (core (fst (execute state env)))
       = max_iterations (core state)
    /\ current_iteration (core (fst (execute state env)))
       = current_iteration (core state)
    /\ iteration_history (core (fst (execute state env)))
       = iteration_history (core state)
    /\ quality_score (core (fst (execute state env)))
       = quality_score (core state).
Proof.
  unfold Workflow.execute, wask.
  destruct (mcp_execute_code (blender_code state) (env_world env))
    as [[reply|e] w1]; cbn [fst snd env_world asked].
  2: { exists []. cbn. repeat split; try discriminate. now left. }
  destruct (is_text (dict_get reply "status" JNone) "success") eqn:S.
  - destruct (mcp_get_viewport_screenshot w1) as [[shot|e] w2];
      cbn [fst snd env_world asked]; exists [AskScreenshot];
      rewrite <- app_assoc; cbn [List.app];
      repeat split; now right.
  - exists []. cbn [fst snd asked].
    split; [reflexivity|]. split; [now left|]. split; [|now repeat split].
    cbn [execution_result with_execution_result dict_get dict_lookup
         String.eqb Ascii.eqb Bool.eqb].
    fold (dict_get reply "status" (JStr "unknown")).
    rewrite stored_status, S. discriminate.
Qed.

(** The calls of [evaluate_logged], and what it leaves. *)
Lemma evaluate_logged_outcome (state : D5State) (env : Env World) :
  (asked (snd (evaluate_logged state env)) = asked env
   \/ asked (snd (evaluate_logged state env))
      = (asked env ++ [AskVision])%list)
  /\ (exists n,
         as_number (quality_score (core (fst (evaluate_logged state env))))
         = Some n)
  /\ (exists d,
         visual_feedback (core (fst (evaluate_logged state env))) = JDict d)
  /\ max_iterations (core (fst (evaluate_logged state env)))
     = max_iterations (core state)
  /\ current_iteration (core (fst (evaluate_logged state env)))
     = current_iteration (core state)
  /\ iteration_history (core (fst (evaluate_logged state env)))
     = iteration_history (core state).
Proof.
  unfold Workflow.evaluate_logged.
  set (client := fun screenshot intent iteration limit previous =>
                   wask World AskVision
                     (vision_analyze_scene screenshot intent iteration limit
                        previous)).
  destruct (evaluate_summary (Env World) client (core state) env)
    as (Hn & Hd & Hmax & Hcur & Hhist & Hw).
  destruct (evaluate (Env World) client (core state) env) as [c env'].
  cbn [fst snd core with_core] in *.
  split; [|now repeat split].
  destruct Hw as [->|(shot & intent & it & lim & prev & ->)]; [now left|].
  right. unfold client, wask.
  destruct (vision_analyze_scene shot intent it lim prev (env_world env)).
  reflexivity.
Qed.

(** The calls of [refine] on a state whose feedback is a dict. *)
Lemma refine_outcome (state : D5State) (env : Env World) :
  (exists d, visual_feedback (core state) = JDict d) ->
  truthy (is_satisfied (core state)) = false ->
  exists k,
    k <= 1
    /\ asked (snd (refine state env))
       = (asked env
          ++ firstn k [AskRefiner (current_iteration (core state))])%list
    /\ match fst (refine state env) with
       | Ok state' => core state' = core state
       | Raise e => raised_inside e
       end.
Proof.
  intros [d Hd] Hsat. unfold Workflow.refine. rewrite Hsat.
  unfold wbind, wlift, wask, wret, get. rewrite Hd.
  destruct (refine_prompt state (dict_get d "issues" (JList []))
              (dict_get d "specific_suggestions" (JList [])))
    as [prompt|e] eqn:P.
  2: { exists 0. cbn [fst snd firstn]. rewrite app_nil_r.
       split; [lia|]. split; [reflexivity|]. right. right. left.
       now exists state, (dict_get d "issues" (JList [])),
         (dict_get d "specific_suggestions" (JList [])). }
  destruct (refiner_ainvoke system_prompt prompt (env_world env))
    as [[content|e] w1] eqn:R.
  - destruct (python_block_returns content) as [code ->].
    exists 1. cbn [fst snd firstn asked]. now repeat split.
  - exists 1. cbn [fst snd firstn asked].
    split; [lia|]. split; [reflexivity|]. left.
    exists system_prompt, prompt, (env_world env), w1. now right.
Qed.

Ltac refiner_only :=
  let it := fresh "it" in
  let Hin := fresh "Hin" in
  intros it Hin; cbn in Hin;
  repeat match type of Hin with
         | _ \/ _ =>
             destruct Hin as [Hin|Hin];
             [first [discriminate Hin
                    | injection Hin as <-; split; [reflexivity|assumption]]|]
         end;
  contradiction.

Ltac count_calls :=
  repeat rewrite count_asked_app;
  cbn [count_asked filter is_ask_designer is_ask_host is_ask_screenshot
       is_ask_vision is_ask_refiner List.length List.app firstn].

(** An exit of the iteration with the requests [cs], of which [d] went to
    the designer; what is left to show is what the result says. *)
Ltac leave cs d Ha :=
  exists cs, d;
  split; [first [exact Ha | rewrite app_nil_r; exact Ha]|];
  split; [lia|];
  count_calls;
  split; [reflexivity|];
  repeat (split; [lia|]);
  split; [refiner_only|].

(** An exception of a [print] is one of the text or of the printing. *)
Ltac blame Hr :=
  destruct Hr as [Hr|Hr];
  [ first
      [ discriminate Hr
      | apply bind_raises in Hr;
        first
          [ apply plain_raises in Hr; right; right; right; left; exact Hr
          | right; right; right; left; eexists; eexists; exact Hr
          | right; right; right; right; left; eexists; exact Hr ] ]
  | right; right; right; right; right; exact Hr ].

(** What one iteration asks, appends and decides. *)
Lemma iteration_body_outcome (i : Z) (state : D5State) (env : Env World)
  (r : result (D5State * Flow)) (env' : Env World) :
  iteration_body i state env = (r, env') ->
  exists cs d,
    asked env' = (asked env ++ cs)%list
    /\ d <= 1
    /\ filter is_ask_designer cs = firstn d [AskDesigner i]
    /\ count_asked is_ask_host cs <= d
    /\ count_asked is_ask_screenshot cs <= count_asked is_ask_host cs
    /\ count_asked is_ask_vision cs <= count_asked is_ask_screenshot cs
    /\ count_asked is_ask_refiner cs <= count_asked is_ask_screenshot cs
    /\ (forall it,
          In (AskRefiner it) cs ->
          it = i /\ (i < max_iterations (core state) - 1)%Z)
    /\ match r with
       | Ok (state', flow) =>
           d = 1
           /\ max_iterations (core state') = max_iterations (core state)
           /\ ((exists n, as_number (quality_score (core state)) = Some n) ->
               exists n, as_number (quality_score (core state')) = Some n)
           /\ exists entry,
               iteration_history (core state')
               = (iteration_history (core state) ++ [entry])%list
               /\ ((exists errors,
                       entry = failed_entry i errors
                       /\ flow = Continue
                       /\ count_asked is_ask_vision cs = 0
                       /\ count_asked is_ask_refiner cs = 0)
                   \/ (exists score issues suggestions satisfied n,
                          entry = evaluated_entry i score issues suggestions
                                    satisfied
                          /\ as_number score = Some n
                          /\ count_asked is_ask_screenshot cs = 1
                          /\ (truthy satisfied = true ->
                              flow = Break
                              /\ truthy (is_satisfied (core state')) = true
                              /\ count_asked is_ask_refiner cs = 0)
                          /\ (truthy satisfied = false -> flow = Continue)))
       | Raise e => raised_inside e
       end.
Proof.
  intros H. unfold Workflow.iteration_body in H.
  set (state0 := with_core state (set_current_iteration (core state) i)) in H.
  (* the two lines before the designer *)
  apply wprint_then in H.
  destruct H as [(env01 & Ha01 & H)|(e & -> & Ha & Hr)].
  2: { leave (@nil Asked) 0 Ha. blame Hr. }
  apply wprint_then in H.
  destruct H as [(env02 & Ha02 & H)|(e & -> & Ha & Hr)].
  2: { rewrite Ha01 in Ha. leave (@nil Asked) 0 Ha. blame Hr. }
  rewrite Ha01 in Ha02.
  (* the designer *)
  unfold wbind at 1 in H.
  destruct (design_outcome state0 env02) as (d & Hd & Hda & Hdr).
  change (current_iteration (core state0)) with i in Hda.
  rewrite Ha02 in Hda.
  destruct (design state0 env02) as [[state1|e] env1] eqn:D;
    cbn [fst snd] in Hda, Hdr.
  2: { injection H as <- <-. exists (firstn d [AskDesigner i]), d.
       split; [exact Hda|]. split; [exact Hd|].
       destruct d as [|[|d]]; [| |lia]; count_calls;
         (split; [reflexivity|]); repeat (split; [lia|]);
         (split; [refiner_only|]); exact Hdr. }
  destruct Hdr as (-> & Hcore1 & _). cbn [firstn] in Hda.
  apply wprint_then in H.
  destruct H as [(env11 & Ha11 & H)|(e & -> & Ha & Hr)].
  2: { rewrite Hda in Ha. leave [AskDesigner i] 1 Ha. blame Hr. }
  apply wprint_then in H.
  destruct H as [(env12 & Ha12 & H)|(e & -> & Ha & Hr)].
  2: { rewrite Ha11, Hda in Ha. leave [AskDesigner i] 1 Ha. blame Hr. }
  rewrite Ha11, Hda in Ha12.
  (* the executor *)
  destruct (execute_outcome state1 env12)
    as (csx & Hxa & Hxcs & Hxok & Hxmax & Hxcur & Hxhist & Hxq).
  destruct (execute state1 env12) as [state2 env2] eqn:X.
  cbn [fst snd] in Hxa, Hxok, Hxmax, Hxcur, Hxhist, Hxq.
  rewrite Ha12, <- app_assoc in Hxa. cbn [List.app] in Hxa.
  assert (Hcur2 : current_iteration (core state2) = i)
    by (rewrite Hxcur, Hcore1; reflexivity).
  assert (Hmax2 : max_iterations (core state2) = max_iterations (core state))
    by (rewrite Hxmax, Hcore1; reflexivity).
  assert (Hhist2 : iteration_history (core state2)
                   = iteration_history (core state))
    by (rewrite Hxhist, Hcore1; reflexivity).
  assert (Hq2 : quality_score (core state2) = quality_score (core state))
    by (rewrite Hxq, Hcore1; reflexivity).
  destruct (is_text (dict_get (execution_result state2) "status" JNone)
              "success") eqn:St; cbn [negb] in H.
  - (* the execution succeeded: evaluate *)
    specialize (Hxok eq_refl). subst csx.
    apply wprint_then in H.
    destruct H as [(env21 & Ha21 & H)|(e & -> & Ha & Hr)].
    2: { rewrite Hxa in Ha.
         leave [AskDesigner i; AskHost (blender_code state1); AskScreenshot]
           1 Ha.
         blame Hr. }
    apply wprint_then in H.
    destruct H as [(env22 & Ha22 & H)|(e & -> & Ha & Hr)].
    2: { rewrite Ha21, Hxa in Ha.
         leave [AskDesigner i; AskHost (blender_code state1); AskScreenshot]
           1 Ha.
         blame Hr. }
    rewrite Ha21, Hxa in Ha22.
    destruct (evaluate_logged_outcome state2 env22)
      as (Hva & Hvn & [fb Hvd] & Hvmax & Hvcur & Hvhist).
    destruct (evaluate_logged state2 env22) as [state3 env3] eqn:V.
    cbn [fst snd] in Hva, Hvn, Hvd, Hvmax, Hvcur, Hvhist.
    assert (Hcur3 : current_iteration (core state3) = i)
      by (rewrite Hvcur; exact Hcur2).
    destruct Hvn as [n Hvn].
    assert (Hbase : exists csv,
               asked env3
               = (asked env
                  ++ [AskDesigner i; AskHost (blender_code state1);
                      AskScreenshot] ++ csv)%list
               /\ (csv = [] \/ csv = [AskVision])).
    { destruct Hva as [Hva|Hva]; rewrite Hva, Ha22.
      - exists []. split; [reflexivity|now left].
      - exists [AskVision]. rewrite <- !app_assoc. cbn.
        split; [reflexivity|now right]. }
    destruct Hbase as (csv & Hasked3 & Hcsv).
    apply wprint_then in H.
    destruct H as [(env31 & Ha31 & H)|(e & -> & Ha & Hr)].
    2: { rewrite Hasked3 in Ha.
         destruct Hcsv as [->| ->]; cbn [List.app] in Ha.
         - leave [AskDesigner i; AskHost (blender_code state1); AskScreenshot]
             1 Ha.
           blame Hr.
         - leave [AskDesigner i; AskHost (blender_code state1); AskScreenshot;
                  AskVision] 1 Ha.
           blame Hr. }
    rewrite Hasked3 in Ha31.
    unfold wbind at 1 2, wlift at 1 2, get in H. rewrite Hvd in H.
    set (entry := evaluated_entry i (quality_score (core state3))
                    (dict_get fb "issues" (JList []))
                    (dict_get fb "specific_suggestions" (JList []))
                    (is_satisfied (core state3))) in H.
    set (state4 := with_core state3 (append_history (core state3) entry)) in H.
    assert (Hentry : iteration_history (core state4)
                     = (iteration_history (core state) ++ [entry])%list).
    { cbn. now rewrite Hvhist, Hhist2. }
    assert (Hmax4 : max_iterations (core state4)
                    = max_iterations (core state)).
    { cbn. now rewrite Hvmax, Hmax2. }
    assert (Hrecord : forall (visions refinements shots : nat) flow state5,
               core state5 = core state4 ->
               (truthy (is_satisfied (core state3)) = true -> flow = Break
                /\ refinements = 0) ->
               (truthy (is_satisfied (core state3)) = false ->
                flow = Continue) ->
               shots = 1 ->
               max_iterations (core state5) = max_iterations (core state)
               /\ ((exists n0, as_number (quality_score (core state)) = Some n0)
                   -> exists n0,
                     as_number (quality_score (core state5)) = Some n0)
               /\ exists entry0,
                   iteration_history (core state5)
                   = (iteration_history (core state) ++ [entry0])%list
                   /\ ((exists errors,
                           entry0 = failed_entry i errors
                           /\ flow = Continue
                           /\ visions = 0
                           /\ refinements = 0)
                       \/ (exists score issues suggestions satisfied n0,
                              entry0 = evaluated_entry i score issues
                                         suggestions satisfied
                              /\ as_number score = Some n0
                              /\ shots = 1
                              /\ (truthy satisfied = true ->
                                  flow = Break
                                  /\ truthy (is_satisfied (core state5)) = true
                                  /\ refinements = 0)
                              /\ (truthy satisfied = false ->
                                  flow = Continue)))).
    { intros visions refinements shots flow state5 Hc5 Hbreak Hcont Hshot.
      rewrite Hc5.
      split; [exact Hmax4|]. split; [intros _; now exists n|].
      exists entry. split; [exact Hentry|]. right.
      exists (quality_score (core state3)),
        (dict_get fb "issues" (JList [])),
        (dict_get fb "specific_suggestions" (JList [])),
        (is_satisfied (core state3)), n.
      split; [reflexivity|]. split; [exact Hvn|]. split; [exact Hshot|].
      split; [|exact Hcont].
      intros Hs. destruct (Hbreak Hs) as [-> Hz].
      split; [reflexivity|]. split; [exact Hs | exact Hz]. }
    cbn [truthy is_satisfied core state4 with_core append_history] in H.
    destruct (truthy (is_satisfied (core state3))) eqn:Sat.
    + (* satisfied: break *)
      apply wprint_then in H.
      destruct H as [(env41 & Ha41 & H)|(e & -> & Ha & Hr)].
      2: { rewrite Ha31 in Ha.
           destruct Hcsv as [->| ->]; cbn [List.app] in Ha.
           - leave [AskDesigner i; AskHost (blender_code state1);
                    AskScreenshot] 1 Ha.
             blame Hr.
           - leave [AskDesigner i; AskHost (blender_code state1);
                    AskScreenshot; AskVision] 1 Ha.
             blame Hr. }
      injection H as <- <-. rewrite Ha31 in Ha41.
      destruct Hcsv as [->| ->]; cbn [List.app] in Ha41.
      * leave [AskDesigner i; AskHost (blender_code state1); AskScreenshot]
          1 Ha41.
        split; [reflexivity|].
        apply Hrecord;
          [reflexivity | intros _; now split | discriminate | reflexivity].
      * leave [AskDesigner i; AskHost (blender_code state1); AskScreenshot;
               AskVision] 1 Ha41.
        split; [reflexivity|].
        apply Hrecord;
          [reflexivity | intros _; now split | discriminate | reflexivity].
    + change (max_iterations (append_history (core state3) entry))
        with (max_iterations (core state3)) in H.
      destruct (i <? max_iterations (core state3) - 1)%Z eqn:Last.
      * (* not the last iteration: refine *)
        rewrite Hvmax, Hmax2 in Last. apply Z.ltb_lt in Last.
        apply wprint_then in H.
        destruct H as [(env41 & Ha41 & H)|(e & -> & Ha & Hr)].
        2: { rewrite Ha31 in Ha.
             destruct Hcsv as [->| ->]; cbn [List.app] in Ha.
             - leave [AskDesigner i; AskHost (blender_code state1);
                      AskScreenshot] 1 Ha.
               blame Hr.
             - leave [AskDesigner i; AskHost (blender_code state1);
                      AskScreenshot; AskVision] 1 Ha.
               blame Hr. }
        rewrite Ha31 in Ha41.
        assert (Hd4 : exists d', visual_feedback (core state4) = JDict d')
          by (exists fb; exact Hvd).
        destruct (refine_outcome state4 env41 Hd4 Sat)
          as (k & Hk & Hra & Hrr).
        change (current_iteration (core state4))
          with (current_iteration (core state3)) in Hra.
        rewrite Hcur3, Ha41 in Hra.
        unfold wbind at 1 in H.
        destruct (refine state4 env41) as [[state5|e] env5] eqn:R;
          cbn [fst snd] in Hra, Hrr.
        2: { injection H as <- <-.
             destruct k as [|[|k]]; try lia;
               destruct Hcsv as [->| ->]; cbn [List.app firstn] in Hra;
               rewrite ?app_nil_r in Hra.
             - leave [AskDesigner i; AskHost (blender_code state1);
                      AskScreenshot] 1 Hra.
               exact Hrr.
             - leave [AskDesigner i; AskHost (blender_code state1);
                      AskScreenshot; AskVision] 1 Hra.
               exact Hrr.
             - rewrite <- app_assoc in Hra. cbn [List.app] in Hra.
               leave [AskDesigner i; AskHost (blender_code state1);
                      AskScreenshot; AskRefiner i] 1 Hra.
               exact Hrr.
             - rewrite <- app_assoc in Hra. cbn [List.app] in Hra.
               leave [AskDesigner i; AskHost (blender_code state1);
                      AskScreenshot; AskVision; AskRefiner i] 1 Hra.
               exact Hrr. }
        apply wprint_then in H.
        destruct H as [(env51 & Ha51 & H)|(e & -> & Ha & Hr)].
        -- injection H as <- <-. rewrite Hra in Ha51.
           destruct k as [|[|k]]; try lia;
             destruct Hcsv as [->| ->]; cbn [List.app firstn] in Ha51;
             rewrite ?app_nil_r in Ha51.
           ++ leave [AskDesigner i; AskHost (blender_code state1);
                     AskScreenshot] 1 Ha51.
              split; [reflexivity|].
              apply Hrecord;
                [exact Hrr | congruence | reflexivity | reflexivity].
           ++ leave [AskDesigner i; AskHost (blender_code state1);
                     AskScreenshot; AskVision] 1 Ha51.
              split; [reflexivity|].
              apply Hrecord;
                [exact Hrr | congruence | reflexivity | reflexivity].
           ++ rewrite <- app_assoc in Ha51. cbn [List.app] in Ha51.
              leave [AskDesigner i; AskHost (blender_code state1);
                     AskScreenshot; AskRefiner i] 1 Ha51.
              split; [reflexivity|].
              apply Hrecord;
                [exact Hrr | congruence | reflexivity | reflexivity].
           ++ rewrite <- app_assoc in Ha51. cbn [List.app] in Ha51.
              leave [AskDesigner i; AskHost (blender_code state1);
                     AskScreenshot; AskVision; AskRefiner i] 1 Ha51.
              split; [reflexivity|].
              apply Hrecord;
                [exact Hrr | congruence | reflexivity | reflexivity].
        -- rewrite Hra in Ha.
           destruct k as [|[|k]]; try lia;
             destruct Hcsv as [->| ->]; cbn [List.app firstn] in Ha;
             rewrite ?app_nil_r in Ha.
           ++ leave [AskDesigner i; AskHost (blender_code state1);
                     AskScreenshot] 1 Ha.
              blame Hr.
           ++ leave [AskDesigner i; AskHost (blender_code state1);
                     AskScreenshot; AskVision] 1 Ha.
              blame Hr.
           ++ rewrite <- app_assoc in Ha. cbn [List.app] in Ha.
              leave [AskDesigner i; AskHost (blender_code state1);
                     AskScreenshot; AskRefiner i] 1 Ha.
              blame Hr.
           ++ rewrite <- app_assoc in Ha. cbn [List.app] in Ha.
              leave [AskDesigner i; AskHost (blender_code state1);
                     AskScreenshot; AskVision; AskRefiner i] 1 Ha.
              blame Hr.
      * (* the last iteration: no refinement *)
        injection H as <- <-.
        destruct Hcsv as [->| ->]; cbn [List.app] in Ha31.
        -- leave [AskDesigner i; AskHost (blender_code state1); AskScreenshot]
             1 Ha31.
           split; [reflexivity|].
           apply Hrecord;
             [reflexivity | congruence | reflexivity | reflexivity].
        -- leave [AskDesigner i; AskHost (blender_code state1); AskScreenshot;
                  AskVision] 1 Ha31.
           split; [reflexivity|].
           apply Hrecord;
             [reflexivity | congruence | reflexivity | reflexivity].
  - (* the execution failed: record it and go on *)
    apply wprint_then in H.
    destruct H as [(env21 & Ha21 & H)|(e & -> & Ha & Hr)].
    + injection H as <- <-. rewrite Hxa in Ha21.
      destruct Hxcs as [->| ->].
      * leave [AskDesigner i; AskHost (blender_code state1)] 1 Ha21.
        split; [reflexivity|].
        cbn [core with_core append_history max_iterations quality_score
             iteration_history].
        split; [exact Hmax2|].
        split; [intros [n Hn]; exists n; now rewrite Hq2|].
        eexists. split; [now rewrite Hhist2|]. left.
        eexists. now repeat split.
      * leave [AskDesigner i; AskHost (blender_code state1); AskScreenshot]
          1 Ha21.
        split; [reflexivity|].
        cbn [core with_core append_history max_iterations quality_score
             iteration_history].
        split; [exact Hmax2|].
        split; [intros [n Hn]; exists n; now rewrite Hq2|].
        eexists. split; [now rewrite Hhist2|]. left.
        eexists. now repeat split.
    + rewrite Hxa in Ha.
      destruct Hxcs as [->| ->].
      * leave [AskDesigner i; AskHost (blender_code state1)] 1 Ha.
        blame Hr.
      * leave [AskDesigner i; AskHost (blender_code state1); AskScreenshot]
          1 Ha.
        blame Hr.
Qed.

(** What the loop over [ts] asks, appends and decides. *)
Lemma iterate_outcome (ts : list Z) :
  forall (state : D5State) (env : Env World) r env',
    iterate ts state env = (r, env') ->
    exists cs k,
      asked env' = (asked env ++ cs)%list
      /\ filter is_ask_designer cs = map AskDesigner (firstn k ts)
      /\ k <= List.length ts
      /\ count_asked is_ask_host cs <= k
      /\ count_asked is_ask_screenshot cs <= count_asked is_ask_host cs
      /\ count_asked is_ask_vision cs <= count_asked is_ask_screenshot cs
      /\ count_asked is_ask_refiner cs <= count_asked is_ask_screenshot cs
      /\ (forall it,
            In (AskRefiner it) cs ->
            In it ts /\ (it < max_iterations (core state) - 1)%Z)
      /\ match r with
         | Ok state' =>
             max_iterations (core state') = max_iterations (core state)
             /\ ((exists n,
                     as_number (quality_score (core state)) = Some n) ->
                 exists n,
                   as_number (quality_score (core state')) = Some n)
             /\ exists entries,
                 iteration_history (core state')
                 = (iteration_history (core state) ++ entries)%list
                 /\ List.length entries = k
                 /\ (forall j entry,
                       nth_error entries j = Some entry ->
                       exists t,
                         nth_error ts j = Some t
                         /\ ((exists errors, entry = failed_entry t errors)
                             \/ (exists score issues suggestions satisfied n,
                                    entry = evaluated_entry t score issues
                                              suggestions satisfied
                                    /\ as_number score = Some n
                                    /\ (truthy satisfied = true ->
                                        S j = k
                                        /\ truthy (is_satisfied (core state'))
                                           = true))))
                 /\ (k = List.length ts
                     \/ exists t score issues suggestions satisfied,
                         nth_error entries (k - 1)
                         = Some (evaluated_entry t score issues suggestions
                                   satisfied)
                         /\ truthy satisfied = true)
         | Raise e => raised_inside e
         end.
Proof.
  induction ts as [|t ts IH]; intros state env r env' H.
  - injection H as <- <-. exists [], 0. rewrite app_nil_r. count_calls.
    split; [reflexivity|]. split; [reflexivity|]. repeat (split; [lia|]).
    split; [intros it []|]. split; [reflexivity|]. split; [tauto|].
    exists []. rewrite app_nil_r. split; [reflexivity|].
    split; [reflexivity|]. split; [|now left].
    intros [|j] entry Hj; discriminate Hj.
  - cbn [Workflow.iterate] in H. unfold wbind at 1 in H.
    destruct (iteration_body t state env) as [r1 env1] eqn:B.
    destruct (iteration_body_outcome t state env r1 env1 B)
      as (cs1 & d & Ha1 & Hd & Hd1 & Hh1 & Hs1 & Hv1 & Hr1 & Hin1 & Hm1).
    destruct r1 as [[state1 flow]|e].
    2: { injection H as <- <-. exists cs1, d.
         split; [exact Ha1|].
         split; [now rewrite firstn_one_designer|]. cbn [List.length].
         repeat (split; [lia|]). split; [|exact Hm1].
         intros it Hit. destruct (Hin1 it Hit) as [-> Hlt].
         split; [now left | exact Hlt]. }
    destruct Hm1 as (-> & Hmax1 & Hnum1 & entry & Hhist1 & Hentry).
    cbn [firstn] in Hd1.
    cbn [fst snd] in H. destruct flow.
    + (* the loop goes on *)
      apply IH in H.
      destruct H as (cs2 & k2 & Ha2 & Hd2 & Hk2 & Hh2 & Hs2 & Hv2 & Hr2
                     & Hin2 & Hm2).
      exists (cs1 ++ cs2)%list, (S k2).
      split; [rewrite Ha2, Ha1; now rewrite app_assoc|].
      split; [rewrite filter_app, Hd1, Hd2; reflexivity|].
      rewrite !count_asked_app. cbn [List.length].
      repeat (split; [lia|]).
      split.
      { intros it Hit. apply in_app_or in Hit. destruct Hit as [Hit|Hit].
        - destruct (Hin1 it Hit) as [-> Hlt]. split; [now left | exact Hlt].
        - destruct (Hin2 it Hit) as [Hts Hlt]. rewrite Hmax1 in Hlt.
          split; [now right | exact Hlt]. }
      destruct r as [state'|e]; [|exact Hm2].
      destruct Hm2 as (Hmax2 & Hnum2 & entries & Hhist2 & Hlen2 & Hent2
                       & Hexit2).
      split; [now rewrite Hmax2|]. split; [tauto|].
      exists (entry :: entries).
      split; [rewrite Hhist2, Hhist1; now rewrite <- app_assoc|].
      split; [cbn; now rewrite Hlen2|]. split.
      { intros [|j] e Hj; cbn [nth_error] in Hj.
        - injection Hj as <-. exists t. split; [reflexivity|].
          destruct Hentry
            as [(errors & -> & _)
               |(score & issues & sug & sat & n & -> & Hn & _ & Hbreak
                 & Hcont)].
          + left. now exists errors.
          + right. exists score, issues, sug, sat, n.
            split; [reflexivity|]. split; [exact Hn|].
            intros Hsat. destruct (Hbreak Hsat) as [Hflow _].
            discriminate Hflow.
        - destruct (Hent2 j e Hj) as (t' & Ht' & Hcase).
          exists t'. split; [exact Ht'|].
          destruct Hcase
            as [Hfail|(score & issues & sug & sat & n & -> & Hn & Hsat)];
            [now left|].
          right. exists score, issues, sug, sat, n.
          split; [reflexivity|]. split; [exact Hn|].
          intros Htrue. destruct (Hsat Htrue) as [Hj' Hfinal].
          split; [lia | exact Hfinal]. }
      destruct Hexit2
        as [Hall|(t' & score & issues & sug & sat & Hlast & Hsat)].
      * left. lia.
      * right. exists t', score, issues, sug, sat. split; [|exact Hsat].
        assert (Hpos : k2 - 1 < List.length entries)
          by (apply nth_error_Some; congruence).
        replace (S k2 - 1) with (S (k2 - 1)) by lia. exact Hlast.
    + (* the loop breaks *)
      injection H as <- <-. exists cs1, 1.
      split; [exact Ha1|]. split; [exact Hd1|]. cbn [List.length].
      repeat (split; [lia|]).
      split.
      { intros it Hit. destruct (Hin1 it Hit) as [-> Hlt].
        split; [now left | exact Hlt]. }
      split; [exact Hmax1|]. split; [exact Hnum1|].
      exists [entry]. split; [exact Hhist1|]. split; [reflexivity|].
      destruct Hentry
        as [(errors & _ & Hflow & _)
           |(score & issues & sug & sat & n & -> & Hn & _ & Hbreak & Hcont)];
        [discriminate Hflow|].
      assert (Hsat : truthy sat = true).
      { destruct (truthy sat) eqn:E; [reflexivity|].
        specialize (Hcont eq_refl). discriminate Hcont. }
      split.
      { intros [|j] e Hj; cbn [nth_error] in Hj.
        - injection Hj as <-. exists t. split; [reflexivity|]. right.
          exists score, issues, sug, sat, n.
          split; [reflexivity|]. split; [exact Hn|].
          intros _. split; [reflexivity|]. exact (proj1 (proj2 (Hbreak Hsat))).
        - destruct j; discriminate Hj. }
      right. exists t, score, issues, sug, sat. now split.
Qed.

(** A run is its loop followed by the summary, which asks nothing. *)
Lemma run_iterations_outcome (state : D5State) (env : Env World)
  (r : result D5State) (env' : Env World) :
  run_iterations state env = (r, env') ->
  exists r0 env0,
    iterate (Agent.range (max_iterations (core state))) state env = (r0, env0)
    /\ asked env' = asked env0
    /\ (forall state', r = Ok state' -> r0 = Ok state')
    /\ (forall e, r = Raise e ->
        r0 = Raise e
        \/ (exists v spec, py_format v spec = Raise e)
        \/ (exists line w w', py_print line w = (Raise e, w'))).
Proof.
  unfold Workflow.run_iterations. unfold wbind at 1.
  destruct (iterate (Agent.range (max_iterations (core state))) state env)
    as [[state1|e] env1].
  2: { intros H. injection H as <- <-. exists (Raise e), env1.
       split; [reflexivity|]. split; [reflexivity|].
       split; [discriminate|]. intros e' H. now left. }
  intros H. exists (Ok state1), env1. split; [reflexivity|].
  apply wprint_then in H.
  destruct H as [(env2 & Ha2 & H)|(e & -> & Ha & Hr)].
  2: { split; [exact Ha|]. split; [discriminate|].
       intros e' He. injection He as <-. right.
       destruct Hr as [Hr|Hr]; [discriminate Hr | now right]. }
  apply wprint_then in H.
  destruct H as [(env3 & Ha3 & H)|(e & -> & Ha & Hr)].
  2: { split; [congruence|]. split; [discriminate|].
       intros e' He. injection He as <-. right.
       destruct Hr as [Hr|Hr]; [|now right].
       apply bind_raises in Hr. left. eauto. }
  apply wprint_then in H.
  destruct H as [(env4 & Ha4 & H)|(e & -> & Ha & Hr)].
  2: { split; [congruence|]. split; [discriminate|].
       intros e' He. injection He as <-. right.
       destruct Hr as [Hr|Hr]; [discriminate Hr | now right]. }
  apply wprint_then in H.
  destruct H as [(env5 & Ha5 & H)|(e & -> & Ha & Hr)].
  2: { split; [congruence|]. split; [discriminate|].
       intros e' He. injection He as <-. right.
       destruct Hr as [Hr|Hr]; [|now right].
       apply bind_raises in Hr. left. exact (plain_raises _ _ Hr). }
  injection H as <- <-. split; [congruence|].
  split; [intros state' E; exact E | discriminate].
Qed.


(** X26.  The history of a run of the loop that returns, started with a
    numeric quality score: exactly one entry was appended per iteration
    begun, the entry of iteration [j] at position [j] and carrying that
    number; it is either the record of a failed execution or the record
    of an evaluation with a numeric score.  Only the last entry can
    record a true satisfaction flag, and then the returned state is
    satisfied; the run ended either after [max_iterations] iterations or
    on such an entry.  [max_iterations] is unchanged and the final
    quality score is a number. *)
Theorem workflow_history_and_exit
  (state : D5State) (env : Env World)
  (state' : D5State) (env' : Env World) :
  (exists n, as_number (quality_score (core state)) = Some n) ->
  run_iterations state env = (Ok state', env') ->
  max_iterations (core state') = max_iterations (core state)
  /\ (exists n, as_number (quality_score (core state')) = Some n)
  /\ exists entries,
      iteration_history (core state')
      = (iteration_history (core state) ++ entries)%list
      /\ (forall j entry,
            nth_error entries j = Some entry ->
            (exists errors, entry = failed_entry (Z.of_nat j) errors)
            \/ (exists score issues suggestions satisfied n,
                   entry = evaluated_entry (Z.of_nat j) score issues
                             suggestions satisfied
                   /\ as_number score = Some n
                   /\ (truthy satisfied = true ->
                       S j = List.length entries
                       /\ truthy (is_satisfied (core state')) = true)))
      /\ (List.length entries = Z.to_nat (max_iterations (core state))
          \/ exists t score issues suggestions satisfied,
              nth_error entries (List.length entries - 1)
              = Some (evaluated_entry t score issues suggestions satisfied)
              /\ truthy satisfied = true).
Proof.
  intros Hnum H.
  destruct (run_iterations_outcome state env (Ok state') env' H)
    as (r0 & env0 & Hi & _ & Hok & _).
  rewrite (Hok state' eq_refl) in Hi.
  apply iterate_outcome in Hi.
  destruct Hi as (cs & k & _ & _ & _ & _ & _ & _ & _ & _ & Hm).
  destruct Hm as (Hmax & Hn & entries & Hhist & Hlen & Hent & Hexit).
  split; [exact Hmax|]. split; [exact (Hn Hnum)|].
  exists entries. split; [exact Hhist|]. subst k. split.
  - intros j entry Hj. destruct (Hent j entry Hj) as (t & Ht & Hcase).
    apply RunLoopTraceFacts.range_nth in Ht. subst t. exact Hcase.
  - destruct Hexit as [Hall|Hlast]; [left|now right].
    rewrite Hall. unfold Agent.range. now rewrite length_map, length_seq.
Qed.

End LoopFacts.


(** The same run returns, with [max_iterations] as it was. *)
Lemma workflow_history_and_exit_witness :
  match fst (run_iterations unit "Use bpy." "3090" format_double print_double
               llm_double llm_double host_double screenshot_double
               vision_double (initial_state (Finite (75 # 100)) 2)
               fresh_env) with
  | Ok state' => max_iterations (core state') = 2%Z
  | Raise _ => False
  end.
Proof.
  destruct (run_iterations unit "Use bpy." "3090" format_double print_double
              llm_double llm_double host_double screenshot_double
              vision_double (initial_state (Finite (75 # 100)) 2) fresh_env)
    as [[state'|e] env'] eqn:E; cbn [fst].
  - exact (proj1 (workflow_history_and_exit unit "Use bpy." "3090"
                    format_double print_double llm_double llm_double
                    host_double screenshot_double vision_double
                    (initial_state (Finite (75 # 100)) 2) fresh_env
                    state' env'
                    (ex_intro _ (Finite 0) eq_refl) E)).
  - vm_compute in E. discriminate E.
Defined.

(** A score that cannot be formatted ends the run at the line that
    prints it, after the vision client was asked. *)
Lemma unformattable_score_ends_the_run :
  let run := run_iterations unit "Use bpy." "3090" format_overflow
               print_double llm_double llm_double host_double
               screenshot_double vision_double
               (initial_state (Finite (75 # 100)) 2) fresh_env in
  fst run = Raise (ExternalError "int too large to convert to float")
  /\ asked (snd run)
     = [AskDesigner 0; AskHost "import bpy"; AskScreenshot; AskVision].
Proof. vm_compute. split; reflexivity. Qed.

End WorkflowFacts.

(* ================================================================== *)
(** * Facts about the client of the Blender host                       *)
(* ================================================================== *)

Module McpClientFacts.
Import PyStr PyVal VisionUtils Memory Agent McpClient.
Import PyStrFacts AgentFacts.

(** ** Reading until the end of a line *)

Lemma repeat_snoc {A : Type} (x : A) (n : nat) :
  (repeat x n ++ [x])%list = x :: repeat x n.
Proof. induction n as [|n IH]; cbn; [reflexivity | now rewrite IH]. Qed.

Lemma recv_loop_scripted (decode : string -> result string) :
  forall (chunks : list string) (fuel : nat) (data : string)
         (net : Net (list string)),
    net_world net = chunks ->
    List.length chunks < fuel ->
    contains nl data = false ->
    exists k reads,
      recv_loop (list string) scripted_recv decode fuel data net
      = Some (decode (data ++ concat_chunks (firstn k chunks)),
              {| net_world := skipn reads chunks;
                 wire := (wire net ++ repeat WireReceive reads)%list |})
      /\ k <= List.length chunks
      /\ (forall j, j < k ->
            contains nl (data ++ concat_chunks (firstn j chunks)) = false
            /\ nth_error chunks j <> Some EmptyString)
      /\ ((contains nl (data ++ concat_chunks (firstn k chunks)) = true
           /\ reads = k /\ 0 < k)
          \/ (contains nl (data ++ concat_chunks (firstn k chunks)) = false
              /\ reads = S k
              /\ (nth_error chunks k = Some EmptyString
                  \/ k = List.length chunks))).
Proof.
  induction chunks as [|c rest IH]; intros fuel data net Hw Hfuel Hdata.
  - destruct fuel as [|fuel]; [cbn in Hfuel; lia|].
    exists 0, 1. cbn [recv_loop]. unfold over_wire. rewrite Hw.
    cbn [scripted_recv firstn concat_chunks skipn repeat List.length].
    rewrite append_empty_r.
    split; [reflexivity|]. split; [lia|]. split; [intros j Hj; lia|].
    right. split; [exact Hdata|]. split; [reflexivity | now right].
  - destruct fuel as [|fuel]; [cbn in Hfuel; lia|].
    cbn [recv_loop]. unfold over_wire. rewrite Hw. cbn [scripted_recv].
    destruct c as [|a c].
    + exists 0, 1.
      cbn [firstn concat_chunks skipn repeat List.length].
      rewrite append_empty_r.
      split; [reflexivity|]. split; [lia|]. split; [intros j Hj; lia|].
      right. split; [exact Hdata|]. split; [reflexivity | now left].
    + destruct (contains nl (data ++ String a c)) eqn:Hnl.
      * exists 1, 1.
        cbn [firstn concat_chunks skipn repeat List.length].
        rewrite append_empty_r.
        split; [reflexivity|]. split; [lia|]. split.
        -- intros j Hj. assert (j = 0) by lia. subst j.
           cbn [firstn concat_chunks nth_error]. rewrite append_empty_r.
           split; [exact Hdata | discriminate].
        -- left. split; [exact Hnl|]. split; [reflexivity | lia].
      * destruct (IH fuel (data ++ String a c)
                    {| net_world := rest;
                       wire := (wire net ++ [WireReceive])%list |}
                    eq_refl ltac:(cbn in Hfuel; lia) Hnl)
          as (k & reads & Hrun & Hk & Hmin & Hend).
        exists (S k), (S reads). rewrite Hrun.
        cbn [firstn concat_chunks skipn wire List.length].
        rewrite <- append_assoc.
        replace ((wire net ++ [WireReceive]) ++ repeat WireReceive reads)%list
          with (wire net ++ repeat WireReceive (S reads))%list
          by (rewrite <- app_assoc; reflexivity).
        split; [reflexivity|].
        split; [lia|]. split.
        { intros [|j] Hj.
          - cbn [firstn concat_chunks nth_error]. rewrite append_empty_r.
            split; [exact Hdata | discriminate].
          - cbn [firstn concat_chunks nth_error].
            rewrite <- append_assoc. apply Hmin. lia. }
        cbn [nth_error].
        destruct Hend as [(H1 & H2 & H3)|(H1 & H2 & H3)].
        { left. split; [exact H1|]. split; lia. }
        right. split; [exact H1|]. split; [lia|].
        destruct H3 as [H3|H3]; [now left | right; lia].
Qed.

(** X27.  [_recv_until_newline] against a peer that sends a finite run
    of chunks and then closes: the loop returns, and what it decodes is
    the bytes of whole chunks from the start of the stream.  It stops
    with the first chunk that completes a line, and then keeps whatever
    follows the line end in that chunk; or, when no line end arrives,
    with the first empty chunk or the close of the connection, which
    costs one read more.  No chunk is read after that. *)
Theorem recv_until_newline_takes_whole_chunks
  (decode : string -> result string) (chunks : list string)
  (net : Net (list string)) :
  net_world net = chunks ->
  exists k reads,
    _recv_until_newline (list string) scripted_recv decode
      (S (List.length chunks)) net
    = Some (decode (concat_chunks (firstn k chunks)),
            {| net_world := skipn reads chunks;
               wire := (wire net ++ repeat WireReceive reads)%list |})
    /\ k <= List.length chunks
    /\ (forall j, j < k ->
          contains nl (concat_chunks (firstn j chunks)) = false
          /\ nth_error chunks j <> Some EmptyString)
    /\ ((contains nl (concat_chunks (firstn k chunks)) = true
         /\ reads = k /\ 0 < k)
        \/ (contains nl (concat_chunks (firstn k chunks)) = false
            /\ reads = S k
            /\ (nth_error chunks k = Some EmptyString
                \/ k = List.length chunks))).
Proof.
  intros Hw. unfold _recv_until_newline.
  destruct (recv_loop_scripted decode chunks (S (List.length chunks))
              EmptyString net Hw ltac:(lia) eq_refl)
    as (k & reads & Hrun & Hk & Hmin & Hend).
  exists k, reads. split; [exact Hrun|]. split; [exact Hk|].
  split; [exact Hmin | exact Hend].
Qed.

(** Two replies that arrive in one chunk are both kept. *)
Lemma recv_until_newline_takes_whole_chunks_witness :
  exists k reads,
    _recv_until_newline (list string) scripted_recv (fun s => Ok s) 4
      {| net_world := ["{"; "}" ++ nl ++ "{}" ++ nl; "late"]; wire := [] |}
    = Some (Ok (concat_chunks
                  (firstn k ["{"; "}" ++ nl ++ "{}" ++ nl; "late"])),
            {| net_world :=
                 skipn reads ["{"; "}" ++ nl ++ "{}" ++ nl; "late"];
               wire := repeat WireReceive reads |})
    /\ k <= 3.
Proof.
  destruct (recv_until_newline_takes_whole_chunks (fun s => Ok s)
              ["{"; "}" ++ nl ++ "{}" ++ nl; "late"]
              {| net_world := ["{"; "}" ++ nl ++ "{}" ++ nl; "late"];
                 wire := [] |} eq_refl)
    as (k & reads & Hrun & Hk & _).
  exists k, reads. split; [exact Hrun | exact Hk].
Defined.

(** ** Executing code on the host *)

Lemma error_entries_report (text : string) :
  status_is_error (error_entries text) = true
  /\ execution_error_text (error_entries text)
     = "Execution Error: [" ++ repr_str text ++ "]".
Proof. split; reflexivity. Qed.

Section ClientFacts.
Variable World : Type.
Variable socket_connect : World -> result unit * World.
Variable socket_sendall : string -> World -> result unit * World.
Variable socket_recv : World -> result string * World.
Variable decode : string -> result string.
Variable json_dumps_message : option string -> string.
Variable json_loads : string -> result value.
Variable call_tool : string -> option string -> World -> result value * World.

Local Abbreviation ensure_connected := (ensure_connected World socket_connect).
Local Abbreviation _recv_until_newline :=
  (_recv_until_newline World socket_recv decode).
Local Abbreviation execute_code :=
  (execute_code World socket_connect socket_sendall socket_recv decode
     json_dumps_message json_loads call_tool).
Local Abbreviation host_of_client :=
  (host_of_client World socket_connect socket_sendall socket_recv decode
     json_dumps_message json_loads call_tool).

(** The receive loop only reads. *)
Lemma recv_loop_reads (fuel : nat) :
  forall (data : string) (net : Net World) r net',
    recv_loop World socket_recv decode fuel data net = Some (r, net') ->
    exists reads,
      wire net' = (wire net ++ repeat WireReceive (S reads))%list.
Proof.
  induction fuel as [|fuel IH]; intros data net r net' H; [discriminate H|].
  cbn [recv_loop] in H. unfold over_wire in H.
  destruct (socket_recv (net_world net)) as [[chunk|e] w1].
  - destruct chunk as [|c chunk].
    + injection H as <- <-. now exists 0.
    + destruct (contains nl (data ++ String c chunk)).
      * injection H as <- <-. now exists 0.
      * apply IH in H. destruct H as [reads H]. exists (S reads).
        rewrite H. cbn [wire]. rewrite <- app_assoc. reflexivity.
  - injection H as <- <-. now exists 0.
Qed.

Lemma filter_connect_reads (n : nat) :
  filter is_wire_connect (repeat WireReceive n) = [].
Proof. induction n as [|n IH]; [reflexivity | exact IH]. Qed.

(** What the opening statement of the socket path does. *)
Lemma ensure_connected_cases (self : BlenderMCPClient) (net : Net World) :
  connection_mode self = SOCKET ->
  connection_mode (fst (ensure_connected self net)) = SOCKET
  /\ has_tool_caller (fst (ensure_connected self net)) = has_tool_caller self
  /\ (_connected self = true -> ensure_connected self net = (self, net))
  /\ (_connected self = false ->
      forall r w0,
        socket_connect (net_world net) = (r, w0) ->
        ensure_connected self net
        = (set_connected self (match r with Ok _ => true | Raise _ => false end),
           {| net_world := w0; wire := (wire net ++ [WireConnect])%list |})).
Proof.
  intros M. unfold McpClient.ensure_connected, connect, _connect_socket,
    over_wire.
  rewrite M. destruct (_connected self) eqn:C.
  - cbn [fst]. now repeat split.
  - destruct (socket_connect (net_world net)) as [[u|e] w0] eqn:S;
      cbn [fst set_connected connection_mode has_tool_caller];
      (split; [exact M|]); (split; [reflexivity|]);
      (split; [discriminate|]);
      intros _ r w0' H; injection H as <- <-; reflexivity.
Qed.

(** X28.  [BlenderMCPClient.execute_code], call by call.  In tool mode
    without a tool caller the reply is the fixed error reply and nothing
    goes over the wire; with a tool caller the reply is what the one
    call of the tool returned, or the error reply built from the text of
    the exception it raised.  In socket mode a client that is not
    connected first tries to connect, once, and is marked by the
    outcome; a connected client does not connect.  Then the message is
    sent, also when connecting failed.  When sending raises, the reply
    is the error reply of that exception.  When it returns, the receive
    loop runs in the world that sending left: the call returns when the
    loop does, and only then; the reply is the error reply of the
    exception of the loop or of [json.loads], or else the decoded
    answer.  A call that returns leaves
    the mode and the tool caller as they were, keeps a connected client
    connected, also when sending or receiving failed, and has connected
    at most once, before anything was sent. *)
Theorem execute_code_reports_and_keeps_the_connection
  (fuel : nat) (self : BlenderMCPClient) (code : option string)
  (net : Net World) :
  let message := json_dumps_message code ++ nl in
  let self0 := fst (ensure_connected self net) in
  let net0 := snd (ensure_connected self net) in
  let sent :=
    {| net_world := snd (socket_sendall message (net_world net0));
       wire := (wire net0 ++ [WireSend message])%list |} in
  let connects :=
    match connection_mode self with
    | SOCKET => negb (_connected self)
    | MCP_TOOLS => false
    end in
  (connection_mode self = MCP_TOOLS ->
   (has_tool_caller self = false ->
    execute_code fuel self code net
    = Some (VDict (error_entries no_tool_caller), self, net))
   /\ (has_tool_caller self = true ->
       forall r w',
         call_tool "blender_execute_code" code (net_world net) = (r, w') ->
         execute_code fuel self code net
         = Some (match r with
                 | Ok reply => reply
                 | Raise e => error_reply e
                 end, self,
                 {| net_world := w';
                    wire := (wire net
                             ++ [WireTool "blender_execute_code" code])%list
                 |})))
  /\ (connection_mode self = SOCKET ->
      (_connected self = true -> self0 = self /\ net0 = net)
      /\ (_connected self = false ->
          forall r w0,
            socket_connect (net_world net) = (r, w0) ->
            self0 = set_connected self
                      (match r with Ok _ => true | Raise _ => false end)
            /\ net0 = {| net_world := w0;
                         wire := (wire net ++ [WireConnect])%list |})
      /\ (forall e w1,
            socket_sendall message (net_world net0) = (Raise e, w1) ->
            execute_code fuel self code net
            = Some (error_reply e, self0, sent))
      /\ (forall u w1,
            socket_sendall message (net_world net0) = (Ok u, w1) ->
            match _recv_until_newline fuel sent with
            | None => execute_code fuel self code net = None
            | Some (Raise e, net2) =>
                execute_code fuel self code net
                = Some (error_reply e, self0, net2)
            | Some (Ok response_data, net2) =>
                execute_code fuel self code net
                = Some (match json_loads response_data with
                        | Ok reply => reply
                        | Raise e => error_reply e
                        end, self0, net2)
            end))
  /\ (execute_code fuel self code net = None ->
      connection_mode self = SOCKET
      /\ (exists u w1,
             socket_sendall message (net_world net0) = (Ok u, w1))
      /\ _recv_until_newline fuel sent = None)
  /\ (forall reply self' net',
        execute_code fuel self code net = Some (reply, self', net') ->
        connection_mode self' = connection_mode self
        /\ has_tool_caller self' = has_tool_caller self
        /\ (_connected self = true -> _connected self' = true)
        /\ exists ws,
            wire net' = (wire net ++ ws)%list
            /\ filter is_wire_connect ws
               = (if connects then [WireConnect] else [])
            /\ (connects = true ->
                exists rest, ws = WireConnect :: WireSend message :: rest)).
Proof.
  intros message self0 net0 sent connects.
  unfold McpClient.execute_code.
  destruct (connection_mode self) eqn:M.
  - (* socket *)
    destruct (ensure_connected_cases self net M) as (M0 & T0 & Hc & Hn).
    fold self0 in M0, T0.
    assert (Hwire : exists pre,
               wire net0 = (wire net ++ pre)%list
               /\ pre = (if connects then [WireConnect] else [])
               /\ (_connected self = true -> _connected self0 = true)).
    { subst connects. destruct (_connected self) eqn:C; cbn [negb].
      - exists []. subst self0 net0. rewrite (Hc eq_refl). cbn [fst snd].
        rewrite app_nil_r. now repeat split.
      - exists [WireConnect].
        destruct (socket_connect (net_world net)) as [r w0] eqn:Hs.
        subst self0 net0. rewrite (Hn eq_refl r w0 eq_refl). cbn [fst snd wire].
        split; [reflexivity|]. split; [reflexivity | discriminate]. }
    destruct Hwire as (pre & Hpre & Hpre' & Hkeep).
    unfold _execute_code_socket.
    change (McpClient.ensure_connected World socket_connect self net)
      with (ensure_connected self net).
    rewrite (surjective_pairing (ensure_connected self net)).
    fold self0. fold net0. fold message. unfold over_wire.
    destruct (socket_sendall message (net_world net0)) as [[u|e] w1] eqn:Hs;
      cbn [snd] in sent.
    + fold sent.
      split; [discriminate|]. split.
      { intros _. split.
        - intros C. subst self0 net0. now rewrite (Hc C).
        - split.
          + intros C r w0 H. subst self0 net0. now rewrite (Hn C r w0 H).
          + split; [intros e w1' H; discriminate H|].
            intros u' w1' _.
            destruct (_recv_until_newline fuel sent) as [[[data|e] net2]|];
              try reflexivity.
            now destruct (json_loads data). }
      split.
      { intros H.
        destruct (_recv_until_newline fuel sent) as [[[data|e] net2]|] eqn:R.
        - destruct (json_loads data); discriminate H.
        - discriminate H.
        - split; [reflexivity|]. split; [now exists u, w1 | reflexivity]. }
      intros reply self' net' H.
      destruct (_recv_until_newline fuel sent) as [[r net2]|] eqn:R.
      2: discriminate H.
      assert (E : self' = self0 /\ net' = net2).
      { destruct r as [data|e]; [destruct (json_loads data)|];
          injection H as _ <- <-; now split. }
      destruct E as [-> ->]. clear H.
      unfold McpClient._recv_until_newline in R.
      destruct (recv_loop_reads _ _ _ _ _ R) as [reads Hreads].
      split; [exact M0|]. split; [exact T0|]. split; [exact Hkeep|].
      exists (pre ++ WireSend message :: repeat WireReceive (S reads))%list.
      split.
      { rewrite Hreads. subst sent. cbn [wire]. rewrite Hpre.
        rewrite <- !app_assoc. reflexivity. }
      split.
      { rewrite filter_app. cbn [filter is_wire_connect].
        rewrite filter_connect_reads. subst pre.
        destruct connects; reflexivity. }
      intros Hcon. subst pre. rewrite Hcon. eexists. reflexivity.
    + fold sent.
      split; [discriminate|]. split.
      { intros _. split.
        - intros C. subst self0 net0. now rewrite (Hc C).
        - split.
          + intros C r w0 H. subst self0 net0. now rewrite (Hn C r w0 H).
          + split; [|intros u w1' H; discriminate H].
            intros e' w1' H. injection H as <- _. reflexivity. }
      split; [discriminate|].
      intros reply self' net' H. injection H as _ <- <-.
      split; [exact M0|]. split; [exact T0|]. split; [exact Hkeep|].
      exists (pre ++ [WireSend message])%list.
      split.
      { subst sent. cbn [wire]. rewrite Hpre.
        rewrite <- !app_assoc. reflexivity. }
      split.
      { rewrite filter_app. cbn [filter is_wire_connect].
        rewrite app_nil_r. subst pre. destruct connects; reflexivity. }
      intros Hcon. subst pre. rewrite Hcon. eexists. reflexivity.
  - (* tools *)
    unfold _execute_code_mcp_tools, over_wire.
    split.
    { intros _. split.
      - intros C. rewrite C. reflexivity.
      - intros C r w' H. rewrite C, H. cbn [negb]. now destruct r. }
    split; [discriminate|]. split; [discriminate|].
    intros reply self' net' H.
    destruct (has_tool_caller self) eqn:C; cbn [negb] in H.
    + destruct (call_tool "blender_execute_code" code (net_world net))
        as [[result|e] w1];
        injection H as _ <- <-;
        (split; [exact M|]); (split; [exact C|]); (split; [tauto|]);
        eexists; (split; [reflexivity|]);
        (split; [reflexivity | discriminate]).
    + injection H as _ <- <-.
      split; [exact M|]. split; [exact C|]. split; [tauto|].
      exists []. rewrite app_nil_r.
      split; [reflexivity|]. split; [reflexivity | discriminate].
Qed.

(** ** The loop of the agent on a host that cannot be reached *)

Section UnreachableHost.
Variable generate_step :
  string -> VIGAMemory -> Z
  -> external (BlenderMCPClient * Net World) IterationContext.
Variable verify_step :
  string -> IterationContext
  -> external (BlenderMCPClient * Net World) string.
(** [self.skills.execute_code], which forwards to the client. *)
Variable host : option string -> external (BlenderMCPClient * Net World) dict.

(** X29.  The agent's loop on a host that cannot be reached.  The host
    of the loop is the client: it answers as [execute_code] does
    whenever that returns.  When every send over the socket raises and
    every tool call raises (as [MCPToolCaller.call_tool] does), with
    texts that do not hold the convergence sentinel, then in either mode
    and whatever the state of the client [execute_code] returns, with an
    error reply, so [VIGAAgent.run_loop] with a generator that returns
    does not fail: it runs all [max_iterations] iterations, records the
    failure in each record, and never asks the verifier. *)
Theorem unreachable_host_is_recorded_every_time :
  (forall fuel code w out,
      host_of_client fuel code w = Some out -> host code w = out) ->
  (forall task mem t w, exists ctx w',
        generate_step task mem t w = (Ok ctx, w')) ->
  (forall message w, exists e w',
        socket_sendall message w = (Raise e, w')
        /\ contains sentinel
             (execution_error_text (error_entries (exn_text e))) = false) ->
  (forall tool_name code w, exists e w',
        call_tool tool_name code w = (Raise e, w')
        /\ contains sentinel
             (execution_error_text (error_entries (exn_text e))) = false) ->
  forall (task : string) (max_iterations : nat)
         (st0 : AgentState (BlenderMCPClient * Net World)),
  exists st' new cs,
    run_loop (BlenderMCPClient * Net World) generate_step host
      verify_step task (Z.of_nat max_iterations) st0
    = (Ok (memory st'), st')
    /\ history (memory st') = (history (memory st0) ++ new)%list
    /\ List.length new = max_iterations
    /\ (forall c, In c new -> recorded_failure c)
    /\ calls st' = (calls st0 ++ cs)%list
    /\ (forall c, In c cs -> is_verifier_call c = false).
Proof.
  intros Hclient Hgen Hsend Htool task max_iterations st0.
  assert (Hhost : forall code w, exists r w',
             host code w = (Ok r, w')
             /\ status_is_error r = true
             /\ contains sentinel (execution_error_text r) = false).
  { intros code [self net].
    assert (H : exists r w',
               host_of_client 0 code (self, net) = Some (Ok r, w')
               /\ status_is_error r = true
               /\ contains sentinel (execution_error_text r) = false).
    { unfold McpClient.host_of_client.
      cbn [fst snd]. unfold McpClient.execute_code.
      destruct (connection_mode self) eqn:M.
      - unfold _execute_code_socket.
        destruct (McpClient.ensure_connected World socket_connect self net)
          as [self1 net1].
        unfold over_wire.
        destruct (Hsend (json_dumps_message code ++ nl) (net_world net1))
          as (e & w' & -> & Hno).
        eexists. eexists. split; [reflexivity|].
        split; [reflexivity | exact Hno].
      - unfold _execute_code_mcp_tools.
        destruct (has_tool_caller self); cbn [negb].
        + unfold over_wire.
          destruct (Htool "blender_execute_code" code (net_world net))
            as (e & w' & -> & Hno).
          eexists. eexists. split; [reflexivity|].
          split; [reflexivity | exact Hno].
        + eexists. eexists. split; [reflexivity|].
          split; reflexivity. }
    destruct H as (r & w' & H & Hs & Hno).
    exists r, w'. split; [exact (Hclient 0 code (self, net) _ H)|].
    split; [exact Hs | exact Hno]. }
  destruct (run_loop_unfold _ generate_step host verify_step
              task (Z.of_nat max_iterations) st0)
    as (s0 & Hh0 & Hc0 & ->).
  destruct (for_each_host_always_fails _ generate_step host
              verify_step task Hgen Hhost
              (range (Z.of_nat max_iterations)) s0)
    as (st' & new & cs & F & Hn & Hlen & Hall & Hcs & Hver).
  rewrite F. exists st', new, cs.
  split; [reflexivity|]. split; [now rewrite Hn, Hh0|].
  split; [now rewrite Hlen, range_length|].
  split; [exact Hall|]. split; [now rewrite Hcs, Hc0 | exact Hver].
Qed.

End UnreachableHost.
End ClientFacts.

(** A connected socket client whose send fails: no reconnect, and the
    reply carries the text of the exception. *)
Lemma execute_code_reports_and_keeps_the_connection_witness :
  execute_code unit unreachable_connect unreachable_sendall idle_recv
    (fun data => Ok data) (fun _ => "{}") (fun _ => Raise JSONDecodeError)
    shipped_call_tool 0 (set_connected socket_client true)
    (Some "import bpy") quiet_net
  = Some (VDict (error_entries "[Errno 32] Broken pipe"),
          set_connected socket_client true,
          {| net_world := tt; wire := [WireSend ("{}" ++ nl)] |}).
Proof.
  destruct (execute_code_reports_and_keeps_the_connection unit
              unreachable_connect unreachable_sendall idle_recv
              (fun data => Ok data) (fun _ => "{}")
              (fun _ => Raise JSONDecodeError) shipped_call_tool 0
              (set_connected socket_client true) (Some "import bpy")
              quiet_net) as (_ & H & _).
  destruct (H eq_refl) as (_ & _ & Hsend & _).
  exact (Hsend _ tt eq_refl).
Defined.

(** Three iterations against a host that refuses the connection. *)
Lemma unreachable_host_is_recorded_every_time_witness :
  exists st' new,
    run_loop (BlenderMCPClient * Net unit) steady_generator unreachable_host
      steady_verifier "Create a red cube" 3
      {| memory := VIGAMemory_init 3; world := (socket_client, quiet_net);
         calls := [] |}
    = (Ok (memory st'), st')
    /\ history (memory st') = new
    /\ List.length new = 3.
Proof.
  destruct (unreachable_host_is_recorded_every_time unit unreachable_connect
              unreachable_sendall idle_recv (fun data => Ok data)
              (fun _ => "{}") (fun _ => Raise JSONDecodeError)
              shipped_call_tool steady_generator steady_verifier
              unreachable_host)
    with (task := "Create a red cube") (max_iterations := 3)
         (st0 := {| memory := VIGAMemory_init 3;
                    world := (socket_client, quiet_net); calls := [] |})
    as (st' & new & cs & Hrun & Hhist & Hlen & _).
  - intros fuel code [[[] [] []] net] out H;
      unfold unreachable_host;
      cbv in H; injection H as <-; reflexivity.
  - intros task mem t w. eexists. eexists. reflexivity.
  - intros message w. eexists. eexists. split; reflexivity.
  - intros tool_name code w. eexists. eexists. split; reflexivity.
  - exists st', new. split; [exact Hrun|]. split; [exact Hhist | exact Hlen].
Defined.

End McpClientFacts.

(* ================================================================== *)
(** * Facts about the render settings per graphics card                *)
(* ================================================================== *)

Module GpuConfigFacts.
Import GpuConfig.

Lemma model_of_name (name : string) :
  model_map_get [("3090", RTX_3090); ("5090", RTX_5090)] name RTX_3090
  = if String.eqb "5090" name then RTX_5090 else RTX_3090.
Proof.
  cbn [model_map_get].
  destruct (String.eqb "3090" name) eqn:E3;
    destruct (String.eqb "5090" name) eqn:E5; try reflexivity.
  apply String.eqb_eq in E3. apply String.eqb_eq in E5. congruence.
Qed.

Lemma settings_of_quality (self : GPUConfigurator) (quality : string) :
  get_optimal_settings self quality
  = if String.eqb "preview" quality
    then get_optimal_settings self "preview"
    else if String.eqb "final" quality
         then get_optimal_settings self "final"
         else get_optimal_settings self "production".
Proof.
  unfold get_optimal_settings, _get_3090_settings, _get_5090_settings.
  cbn [profiles_get].
  destruct (String.eqb "preview" quality) eqn:Ep;
    destruct (String.eqb "production" quality) eqn:Eq;
    destruct (String.eqb "final" quality) eqn:Ef;
    try (apply String.eqb_eq in Ep); try (apply String.eqb_eq in Eq);
    try (apply String.eqb_eq in Ef); subst; try discriminate;
    destruct (gpu_model self); reflexivity.
Qed.

(** X30.  [get_gpu_config] and [get_optimal_settings], for every model
    name and every quality name.  [get_gpu_config] always builds a
    configurator, for the RTX 5090 when the name is "5090" and for the
    RTX 3090 for every other name, also "auto"; building one for
    [GPUModel.AUTO] raises a [KeyError], so no configurator that was
    built returns the fallback settings.  The settings returned are
    those of "preview" or "final" for these names and those of
    "production" for every other name; their tiles are square, of the
    largest size of the card; their memory limit leaves exactly 4096 MB
    of the card's memory; the number of samples does not decrease from
    preview over production to final, and for production it is the
    number the card's specification recommends. *)
Theorem built_configurator_never_falls_back (name quality : string) :
  GPUConfigurator_init AUTO = KeyError AUTO
  /\ (forall m self, GPUConfigurator_init m = Built self ->
        gpu_model self = m /\ m <> AUTO
        /\ In (m, specs self) GPU_SPECS
        /\ get_optimal_settings self quality
           <> _get_fallback_settings quality)
  /\ exists self,
       get_gpu_config name = Built self
       /\ gpu_model self = (if String.eqb "5090" name then RTX_5090
                            else RTX_3090)
       /\ (let s := get_optimal_settings self quality in
           s = (if String.eqb "preview" quality
                then get_optimal_settings self "preview"
                else if String.eqb "final" quality
                     then get_optimal_settings self "final"
                     else get_optimal_settings self "production")
           /\ tile_size s = max_tile_size (specs self)
           /\ tile_x s = tile_size s /\ tile_y s = tile_size s
           /\ (gpu_memory_limit_mb s + 4096 = 1024 * vram_gb (specs self))%Z)
       /\ (samples (get_optimal_settings self "preview")
           <= samples (get_optimal_settings self "production")
           <= samples (get_optimal_settings self "final"))%Z
       /\ samples (get_optimal_settings self "production")
          = recommended_samples (specs self).
Proof.
  split; [reflexivity|]. split.
  - intros m self H.
    destruct m; cbn in H; try discriminate; injection H as <-;
      (split; [reflexivity|]); (split; [discriminate|]);
      (split; [cbn; tauto|]);
      rewrite settings_of_quality;
      destruct (String.eqb "preview" quality);
      destruct (String.eqb "final" quality);
      intros E; apply (f_equal tile_size) in E; discriminate E.
  - unfold get_gpu_config. rewrite model_of_name.
    destruct (String.eqb "5090" name);
      (eexists; split; [reflexivity|]); (split; [reflexivity|]);
      (split;
       [ cbv zeta; rewrite settings_of_quality;
         destruct (String.eqb "preview" quality);
         destruct (String.eqb "final" quality);
         repeat split
       | split; [split; discriminate | reflexivity] ]).
Qed.

End GpuConfigFacts.
